(** * d4lf: the profile schema of [src/config/models.py]

    A shallow embedding of the pydantic models that make up a loot-filter
    profile (affix rules, counted affix pools, item rules, sigil rules,
    unique rules, profiles), of their validators, and of the profile writer
    [save_as_profile] of [src/gui/importer/common.py].

    Documents are the values a YAML loader hands to pydantic.  A model is a
    record of its field values together with [model_fields_set], the set of
    field names that were given explicitly.  Validation returns either the
    model or the list of collected errors. *)

From Stdlib Require Import ZArith QArith Ascii Lia Sorting.Sorted.
From stdpp Require Import base option list strings gmap sets.

#[local] Set Warnings "-register-all".
#[local] Set Warnings "-clear-no-such-hyp".
Local Open Scope string_scope.
Local Open Scope Z_scope.
Local Open Scope list_scope.

(** ** Documents *)

(** The values of a parsed YAML document.  A mapping is kept as the list of
    its entries in document order; [dict_get] reads the first entry of a key
    (the keys of a Python dict are distinct).  Finite floats are kept as
    rationals. *)
Inductive pyobj : Type :=
| VNone
| VBool (b : bool)
| VInt (z : Z)
| VFloat (q : Q)
| VStr (s : string)
| VList (l : list pyobj)
| VDict (d : list (string * pyobj)).

Abbreviation pydict := (list (string * pyobj)).

Fixpoint dict_get (k : string) (d : pydict) : option pyobj :=
  match d with
  | [] => None
  | (k', v) :: d' => if String.eqb k k' then Some v else dict_get k d'
  end.

Definition keys (d : pydict) : list string := map fst d.

(** [k in d] *)
Definition contains (k : string) (d : pydict) : bool :=
  match dict_get k d with Some _ => true | None => false end.

(** [name in some_list], on strings *)
Definition str_in (s : string) (l : list string) : bool :=
  existsb (String.eqb s) l.

(** ** Errors *)

(** The interpolated parts of an f-string. *)
Inductive fpart : Type :=
| Lit (s : string)
| FmtStr (s : string)
| FmtStrList (l : list string)
| FmtConditions (l : list (string * list string)).

(** One line of a pydantic [ValidationError]: a [ValueError] raised by a
    validator of the models, or one of the framework's own errors. *)
Inductive error : Type :=
| ValueError (msg : list fpart)
| Missing (field : string)
| ExtraForbidden (key : string)
| TypeMismatch (expected : string).

Inductive result (A : Type) : Type :=
| Ok (a : A)
| Err (es : list error).
Arguments Ok {A} a.
Arguments Err {A} es.

Definition errors_of {A} (r : result A) : list error :=
  match r with Ok _ => [] | Err es => es end.

Definition is_ok {A} (r : result A) : bool :=
  match r with Ok _ => true | Err _ => false end.

Definition bind {A B} (r : result A) (f : A -> result B) : result B :=
  match r with Ok a => f a | Err es => Err es end.

Definition raise {A} (msg : list fpart) : result A := Err [ValueError msg].

(** Validation goes on after an error: both sides are evaluated and their
    errors are collected, left to right. *)
Definition ap {A B} (rf : result (A -> B)) (ra : result A) : result B :=
  match rf, ra with
  | Ok f, Ok a => Ok (f a)
  | _, _ => Err (errors_of rf ++ errors_of ra)
  end.

Infix "<*>" := ap (at level 61, left associativity).
Arguments ap : simpl never.

(** ** The framework's field handling *)

(** A field of a model: the validator runs on a supplied value only, a
    field left out takes its default unvalidated. *)
Definition field {A} (k : string) (d : pydict) (validate : pyobj -> result A)
    (default : result A) : result A :=
  match dict_get k d with
  | Some v => validate v
  | None => default
  end.

(** [extra="forbid"]: every key that is not a field is an error. *)
Definition extra_forbidden (fields : list string) (d : pydict) : list error :=
  map ExtraForbidden (filter (fun k => negb (str_in k fields)) (keys d)).

Definition forbid_extra {A} (fields : list string) (d : pydict) (r : result A)
    : result A :=
  match r, extra_forbidden fields d with
  | Ok a, [] => Ok a
  | _, extra => Err (errors_of r ++ extra)
  end.

(** The names of the fields found in the input. *)
Definition fields_set_of (fields : list string) (d : pydict) : gset string :=
  list_to_set (filter (fun k => contains k d) fields).

Definition validate_str (v : pyobj) : result string :=
  match v with VStr s => Ok s | _ => Err [TypeMismatch "str"] end.

(** [list[T]]: every item is validated, all errors are collected. *)
Fixpoint validate_items {A} (f : pyobj -> result A) (l : list pyobj)
    : result (list A) :=
  match l with
  | [] => Ok []
  | v :: l' =>
      Ok cons <*> f v <*> validate_items f l'
  end.

Definition validate_list {A} (f : pyobj -> result A) (v : pyobj)
    : result (list A) :=
  match v with
  | VList l => validate_items f l
  | _ => Err [TypeMismatch "list"]
  end.

(** Which fields a dump keeps: [exclude_unset] drops the fields that are not
    in [model_fields_set], [exclude] drops the listed ones. *)
Definition dump_keeps (exclude_unset : bool) (exclude : list string)
    (fs : gset string) (k : string) : bool :=
  (negb exclude_unset || bool_decide (k ∈ fs)) && negb (str_in k exclude).

Definition dump_fields (exclude_unset : bool) (exclude : list string)
    (fs : gset string) (all : pydict) : pydict :=
  filter (fun kv => dump_keeps exclude_unset exclude fs kv.1) all.

(** ** The catalog and the constants *)

(** The three dictionaries of [Dataloader()] that the validators query. *)
Record Dataloader : Type := {
  affix_dict : gmap string string;
  aspect_unique_dict : gmap string string;
  affix_sigil_dict : gmap string string
}.

(** [name in some_dict] *)
Definition in_dict (name : string) (d : gmap string string) : bool :=
  bool_decide (is_Some (d !! name)).

(** [sys.maxsize] of a 64-bit interpreter. *)
Definition sys_maxsize : Z := 2 ^ 63 - 1.

(** Modelled from the spec: [check_greater_than_zero] of
    [src/config/helper.py] is not among the sources.  The spec's domain
    checks read "power >= 0" and "0 <= minCount", and the defaults of the
    fields it guards are 0, so it refuses the negative numbers and returns
    any other number unchanged. *)
Definition check_greater_than_zero (v : Z) : result Z :=
  if v <? 0 then raise [Lit "must be greater than zero"] else Ok v.

(** What validation takes from outside the module.  From files that are
    not among the sources: the catalog singleton and the values of the
    [ItemType] enumeration (a member is kept as its value).  From pydantic:
    the models are plain [BaseModel]s, validated in lax mode, where a number
    field takes a number of its type and whatever else pydantic converts to
    one (a number of the other type, a bool, a numeric string); [to_int] and
    [to_float] are these conversions, with the errors of the ones that
    fail. *)
Record Env : Type := {
  dataloader : Dataloader;
  ItemType : list string;
  to_int : pyobj -> result Z;
  to_float : pyobj -> result Q
}.

(** A value that has the type of the field already is taken as it is. *)
Definition own_type_kept (env : Env) : Prop :=
  (forall z, to_int env (VInt z) = Ok z)
  /\ (forall q, to_float env (VFloat q) = Ok q).

(** An [int] field. *)
Definition validate_int (env : Env) (v : pyobj) : result Z := to_int env v.

(** A [float | None] field. *)
Definition validate_float_or_none (env : Env) (v : pyobj) : result (option Q) :=
  match v with
  | VNone => Ok None
  | _ => bind (to_float env v) (fun q => Ok (Some q))
  end.

(** ** Enumerations *)

Inductive ComparisonType : Type := larger | smaller.

Definition ComparisonType_value (c : ComparisonType) : string :=
  match c with larger => "larger" | smaller => "smaller" end.

Definition validate_ComparisonType (v : pyobj) : result ComparisonType :=
  match v with
  | VStr s =>
      if String.eqb s "larger" then Ok larger
      else if String.eqb s "smaller" then Ok smaller
      else Err [TypeMismatch "ComparisonType"]
  | _ => Err [TypeMismatch "ComparisonType"]
  end.

Inductive SigilPriority : Type := blacklist_first | whitelist_first.

Definition SigilPriority_value (p : SigilPriority) : string :=
  match p with blacklist_first => "blacklist" | whitelist_first => "whitelist" end.

Definition validate_SigilPriority (v : pyobj) : result SigilPriority :=
  match v with
  | VStr s =>
      if String.eqb s "blacklist" then Ok blacklist_first
      else if String.eqb s "whitelist" then Ok whitelist_first
      else Err [TypeMismatch "SigilPriority"]
  | _ => Err [TypeMismatch "SigilPriority"]
  end.

(** ** AffixAspectFilterModel, AffixFilterModel, AspectUniqueFilterModel *)

Module AffixAspectFilterModel.

Record t : Type := mk {
  name : string;
  value : option Q;
  comparison : ComparisonType;
  model_fields_set : gset string
}.

Definition fields : list string := ["name"; "value"; "comparison"].

(** The [mode="before"] validator. *)
Definition parse_data (data : pyobj) : result pydict :=
  match data with
  | VDict d => Ok d
  | VStr _ => Ok [("name", data)]
  | VList l =>
      if bool_decide (l = []) || (3 <? Z.of_nat (length l)) then
        raise [Lit "list, cannot be empty or larger than 3 items"]
      else
        let result := [] in
        let result :=
          if 1 <=? Z.of_nat (length l)
          then result ++ [("name", nth 0 l VNone)] else result in
        let result :=
          if 2 <=? Z.of_nat (length l)
          then result ++ [("value", nth 1 l VNone)] else result in
        let result :=
          if Z.of_nat (length l) =? 3
          then result ++ [("comparison", nth 2 l VNone)] else result in
        Ok result
  | _ => raise [Lit "must be str or list"]
  end.

(** The model's own validation, with the subclass's [name] validator. *)
Definition validate_fields (env : Env)
    (name_must_exist : string -> result string) (d : pydict) : result t :=
  let r_name := field "name" d (fun v => bind (validate_str v) name_must_exist)
                  (Err [Missing "name"]) in
  let r_value := field "value" d (validate_float_or_none env) (Ok None) in
  let r_comparison := field "comparison" d validate_ComparisonType (Ok larger) in
  forbid_extra fields d
    (Ok (fun n v c => mk n v c (fields_set_of fields d))
     <*> r_name
     <*> r_value
     <*> r_comparison).

Definition validate (env : Env) (name_must_exist : string -> result string)
    (data : pyobj) : result t :=
  bind (parse_data data) (validate_fields env name_must_exist).

Definition dump_value (v : option Q) : pyobj :=
  match v with Some q => VFloat q | None => VNone end.

Definition model_dump (exclude_unset : bool) (m : t) : pyobj :=
  VDict (dump_fields exclude_unset [] (model_fields_set m)
           [("name", VStr (name m));
            ("value", dump_value (value m));
            ("comparison", VStr (ComparisonType_value (comparison m)))]).

End AffixAspectFilterModel.

Definition validate_ItemType (env : Env) (v : pyobj) : result string :=
  match v with
  | VStr s => if str_in s (ItemType env) then Ok s else Err [TypeMismatch "ItemType"]
  | _ => Err [TypeMismatch "ItemType"]
  end.

Definition _parse_item_type (data : pyobj) : pyobj :=
  match data with
  | VStr _ => VList [data]
  | _ => data
  end.

(** [not some_list] *)
Definition is_empty {A} (l : list A) : bool :=
  match l with [] => true | _ => false end.

Module AffixFilterModel.

Definition name_must_exist (env : Env) (name : string) : result string :=
  if negb (in_dict name (affix_dict (dataloader env)))
  then raise [Lit "affix "; FmtStr name; Lit " does not exist"]
  else Ok name.

Definition validate (env : Env) (data : pyobj) : result AffixAspectFilterModel.t :=
  AffixAspectFilterModel.validate env (name_must_exist env) data.

End AffixFilterModel.

Module AspectUniqueFilterModel.

Definition name_must_exist (env : Env) (name : string) : result string :=
  if negb (in_dict name (aspect_unique_dict (dataloader env)))
  then raise [Lit "affix "; FmtStr name; Lit " does not exist"]
  else Ok name.

Definition validate (env : Env) (data : pyobj) : result AffixAspectFilterModel.t :=
  AffixAspectFilterModel.validate env (name_must_exist env) data.

End AspectUniqueFilterModel.

(** ** AffixFilterCountModel *)

Module AffixFilterCountModel.

Record t : Type := mk {
  count : list AffixAspectFilterModel.t;
  maxCount : Z;
  minCount : Z;
  minGreaterAffixCount : Z;
  model_fields_set : gset string
}.

Definition fields : list string :=
  ["count"; "maxCount"; "minCount"; "minGreaterAffixCount"].

Definition count_validator (v : Z) : result Z := check_greater_than_zero v.

(** [self.minCount = v]: without [validate_assignment] the attribute is
    stored and its name is added to the fields set. *)
Definition set_minCount (v : Z) (self : t) : t :=
  mk (count self) (maxCount self) v (minGreaterAffixCount self)
     ({["minCount"]} ∪ model_fields_set self).

Definition set_maxCount (v : Z) (self : t) : t :=
  mk (count self) v (minCount self) (minGreaterAffixCount self)
     ({["maxCount"]} ∪ model_fields_set self).

(** [self.model_fields_set.remove(k)] *)
Definition fields_set_remove (k : string) (self : t) : t :=
  mk (count self) (maxCount self) (minCount self) (minGreaterAffixCount self)
     (model_fields_set self ∖ {[k]}).

(** The [mode="after"] validator. *)
Definition model_validator (self : t) : result t :=
  let self :=
    if negb (bool_decide ("minCount" ∈ model_fields_set self))
       && negb (bool_decide ("maxCount" ∈ model_fields_set self))
    then
      let self := set_minCount (Z.of_nat (length (count self))) self in
      let self := set_maxCount (Z.of_nat (length (count self))) self in
      let self := fields_set_remove "minCount" self in
      fields_set_remove "maxCount" self
    else self in
  if minCount self >? maxCount self
  then raise [Lit "minCount must be smaller than maxCount"]
  else if is_empty (count self)
  then raise [Lit "count must not be empty"]
  else Ok self.

Definition validate_fields (env : Env) (d : pydict) : result t :=
  let r_count := field "count" d (validate_list (AffixFilterModel.validate env))
                   (Ok []) in
  let r_maxCount := field "maxCount" d
                      (fun v => bind (validate_int env v) count_validator)
                      (Ok sys_maxsize) in
  let r_minCount := field "minCount" d
                      (fun v => bind (validate_int env v) count_validator) (Ok 0) in
  let r_minGreater := field "minGreaterAffixCount" d
                        (fun v => bind (validate_int env v) count_validator) (Ok 0) in
  forbid_extra fields d
    (Ok (fun c mx mn g => mk c mx mn g (fields_set_of fields d))
     <*> r_count
     <*> r_maxCount
     <*> r_minCount
     <*> r_minGreater).

Definition validate (env : Env) (data : pyobj) : result t :=
  match data with
  | VDict d => bind (validate_fields env d) model_validator
  | _ => Err [TypeMismatch "AffixFilterCountModel"]
  end.

Definition model_dump (exclude_unset : bool) (m : t) : pyobj :=
  VDict (dump_fields exclude_unset [] (model_fields_set m)
           [("count", VList (map (AffixAspectFilterModel.model_dump exclude_unset)
                                 (count m)));
            ("maxCount", VInt (maxCount m));
            ("minCount", VInt (minCount m));
            ("minGreaterAffixCount", VInt (minGreaterAffixCount m))]).

End AffixFilterCountModel.

(** ** ItemFilterModel and DynamicItemFilterModel *)

Module ItemFilterModel.

Record t : Type := mk {
  affixPool : list AffixFilterCountModel.t;
  inherentPool : list AffixFilterCountModel.t;
  itemType : list string;
  minGreaterAffixCount : Z;
  minPower : Z;
  model_fields_set : gset string
}.

Definition fields : list string :=
  ["affixPool"; "inherentPool"; "itemType"; "minGreaterAffixCount"; "minPower"].

Definition check_min_power (v : Z) : result Z := check_greater_than_zero v.

Definition min_greater_affix_in_range (v : Z) : result Z :=
  if negb ((0 <=? v) && (v <=? 3))
  then raise [Lit "must be in [0, 3]"]
  else Ok v.

Definition parse_item_type (data : pyobj) : pyobj := _parse_item_type data.

Definition validate_fields (env : Env) (d : pydict) : result t :=
  let r_affixPool := field "affixPool" d
                       (validate_list (AffixFilterCountModel.validate env)) (Ok []) in
  let r_inherentPool := field "inherentPool" d
                          (validate_list (AffixFilterCountModel.validate env)) (Ok []) in
  let r_itemType := field "itemType" d
                      (fun v => validate_list (validate_ItemType env) (parse_item_type v))
                      (Ok []) in
  let r_minGreater := field "minGreaterAffixCount" d
                        (fun v => bind (validate_int env v) min_greater_affix_in_range)
                        (Ok 0) in
  let r_minPower := field "minPower" d
                      (fun v => bind (validate_int env v) check_min_power) (Ok 0) in
  forbid_extra fields d
    (Ok (fun a i ty g p => mk a i ty g p (fields_set_of fields d))
     <*> r_affixPool
     <*> r_inherentPool
     <*> r_itemType
     <*> r_minGreater
     <*> r_minPower).

Definition validate (env : Env) (data : pyobj) : result t :=
  match data with
  | VDict d => validate_fields env d
  | _ => Err [TypeMismatch "ItemFilterModel"]
  end.

Definition model_dump (exclude_unset : bool) (m : t) : pyobj :=
  VDict (dump_fields exclude_unset [] (model_fields_set m)
           [("affixPool", VList (map (AffixFilterCountModel.model_dump exclude_unset)
                                     (affixPool m)));
            ("inherentPool", VList (map (AffixFilterCountModel.model_dump exclude_unset)
                                        (inherentPool m)));
            ("itemType", VList (map VStr (itemType m)));
            ("minGreaterAffixCount", VInt (minGreaterAffixCount m));
            ("minPower", VInt (minPower m))]).

End ItemFilterModel.

(** [RootModel[dict[str, ItemFilterModel]]]: the root is the mapping itself,
    kept in document order. *)
Module DynamicItemFilterModel.

Definition t : Type := list (string * ItemFilterModel.t).

Fixpoint validate_entries (env : Env) (d : pydict) : result t :=
  match d with
  | [] => Ok []
  | (k, v) :: d' =>
      Ok (fun m r => (k, m) :: r)
      <*> ItemFilterModel.validate env v <*> validate_entries env d'
  end.

Definition validate (env : Env) (data : pyobj) : result t :=
  match data with
  | VDict d => validate_entries env d
  | _ => Err [TypeMismatch "dict"]
  end.

Definition model_dump (exclude_unset : bool) (m : t) : pyobj :=
  VDict (map (fun km => (km.1, ItemFilterModel.model_dump exclude_unset km.2)) m).

End DynamicItemFilterModel.

(** ** SigilConditionModel and SigilFilterModel *)

Module SigilConditionModel.

Record t : Type := mk {
  name : string;
  condition : list string;
  model_fields_set : gset string
}.

Definition fields : list string := ["name"; "condition"].

(** The [mode="before"] validator. *)
Definition parse_data (data : pyobj) : result pydict :=
  match data with
  | VDict d => Ok d
  | VStr _ => Ok [("name", data)]
  | VList l =>
      if is_empty l then raise [Lit "list cannot be empty"]
      else
        let result := [] in
        let result :=
          if 1 <=? Z.of_nat (length l)
          then result ++ [("name", nth 0 l VNone)] else result in
        let result :=
          if 2 <=? Z.of_nat (length l)
          then result ++ [("condition", VList (drop 1 l))] else result in
        Ok result
  | _ => raise [Lit "must be str or list"]
  end.

(** The validator of both [condition] and [name]; [as_names] is the
    [isinstance(names_in, str)] dispatch, [[names_in]] for a string and
    [names_in] itself for a list. *)
Definition name_must_exist {A} (env : Env) (as_names : A -> list string)
    (names_in : A) : result A :=
  let names := as_names names_in in
  let errors :=
    filter (fun name => negb (in_dict name (affix_sigil_dict (dataloader env))))
           names in
  if negb (is_empty errors)
  then raise [Lit "The following affixes/dungeons do not exist: "; FmtStrList errors]
  else Ok names_in.

Definition validate_fields (env : Env) (d : pydict) : result t :=
  let r_name := field "name" d
                  (fun v => bind (validate_str v)
                              (name_must_exist env (fun s => [s])))
                  (Err [Missing "name"]) in
  let r_condition := field "condition" d
                       (fun v => bind (validate_list validate_str v)
                                   (name_must_exist env (fun l => l)))
                       (Ok []) in
  forbid_extra fields d
    (Ok (fun n c => mk n c (fields_set_of fields d))
     <*> r_name
     <*> r_condition).

Definition validate (env : Env) (data : pyobj) : result t :=
  bind (parse_data data) (validate_fields env).

Definition model_dump (exclude_unset : bool) (m : t) : pyobj :=
  VDict (dump_fields exclude_unset [] (model_fields_set m)
           [("name", VStr (name m));
            ("condition", VList (map VStr (condition m)))]).

(** [a == b] on models compares the fields, not the fields set. *)
Definition eqb (a b : t) : bool :=
  bool_decide (name a = name b) && bool_decide (condition a = condition b).

Definition repr (m : t) : string * list string := (name m, condition m).

End SigilConditionModel.

Module SigilFilterModel.

Record t : Type := mk {
  blacklist : list SigilConditionModel.t;
  maxTier : Z;
  minTier : Z;
  priority : SigilPriority;
  whitelist : list SigilConditionModel.t;
  model_fields_set : gset string
}.

Definition fields : list string :=
  ["blacklist"; "maxTier"; "minTier"; "priority"; "whitelist"].

(** The [mode="after"] validator. *)
Definition data_integrity (self : t) : result t :=
  let errors :=
    filter (fun item => existsb (SigilConditionModel.eqb item) (whitelist self))
           (blacklist self) in
  if negb (is_empty errors)
  then raise [Lit "blacklist and whitelist must not overlap: ";
              FmtConditions (map SigilConditionModel.repr errors)]
  else if minTier self >? maxTier self
  then raise [Lit "minTier must be smaller than maxTier"]
  else Ok self.

Definition min_max_tier_in_range (v : Z) : result Z :=
  if negb ((0 <=? v) && (v <=? 100))
  then raise [Lit "must be in [0, 100]"]
  else Ok v.

Definition validate_fields (env : Env) (d : pydict) : result t :=
  let r_blacklist := field "blacklist" d
                       (validate_list (SigilConditionModel.validate env)) (Ok []) in
  let r_maxTier := field "maxTier" d
                     (fun v => bind (validate_int env v) min_max_tier_in_range)
                     (Ok sys_maxsize) in
  let r_minTier := field "minTier" d
                     (fun v => bind (validate_int env v) min_max_tier_in_range) (Ok 0) in
  let r_priority := field "priority" d validate_SigilPriority (Ok blacklist_first) in
  let r_whitelist := field "whitelist" d
                       (validate_list (SigilConditionModel.validate env)) (Ok []) in
  forbid_extra fields d
    (Ok (fun b mx mn p w => mk b mx mn p w (fields_set_of fields d))
     <*> r_blacklist
     <*> r_maxTier
     <*> r_minTier
     <*> r_priority
     <*> r_whitelist).

Definition validate (env : Env) (data : pyobj) : result t :=
  match data with
  | VDict d => bind (validate_fields env d) data_integrity
  | _ => Err [TypeMismatch "SigilFilterModel"]
  end.

Definition model_dump (exclude_unset : bool) (m : t) : pyobj :=
  VDict (dump_fields exclude_unset [] (model_fields_set m)
           [("blacklist", VList (map (SigilConditionModel.model_dump exclude_unset)
                                     (blacklist m)));
            ("maxTier", VInt (maxTier m));
            ("minTier", VInt (minTier m));
            ("priority", VStr (SigilPriority_value (priority m)));
            ("whitelist", VList (map (SigilConditionModel.model_dump exclude_unset)
                                     (whitelist m)))]).

End SigilFilterModel.

(** ** UniqueModel *)

Module UniqueModel.

Record t : Type := mk {
  affix : list AffixAspectFilterModel.t;
  aspect : option AffixAspectFilterModel.t;
  itemType : list string;
  minGreaterAffixCount : Z;
  minPower : Z;
  model_fields_set : gset string
}.

Definition fields : list string :=
  ["affix"; "aspect"; "itemType"; "minGreaterAffixCount"; "minPower"].

Definition check_min_power (v : Z) : result Z := check_greater_than_zero v.

Definition count_validator (v : Z) : result Z := check_greater_than_zero v.

Definition parse_item_type (data : pyobj) : pyobj := _parse_item_type data.

Definition validate_fields (env : Env) (d : pydict) : result t :=
  let r_affix := field "affix" d (validate_list (AffixFilterModel.validate env))
                   (Ok []) in
  let r_aspect := field "aspect" d
                    (fun v => bind (AspectUniqueFilterModel.validate env v)
                                (fun a => Ok (Some a)))
                    (Ok None) in
  let r_itemType := field "itemType" d
                      (fun v => validate_list (validate_ItemType env) (parse_item_type v))
                      (Ok []) in
  let r_minGreater := field "minGreaterAffixCount" d
                        (fun v => bind (validate_int env v) count_validator) (Ok 0) in
  let r_minPower := field "minPower" d
                      (fun v => bind (validate_int env v) check_min_power) (Ok 0) in
  forbid_extra fields d
    (Ok (fun a s ty g p => mk a s ty g p (fields_set_of fields d))
     <*> r_affix
     <*> r_aspect
     <*> r_itemType
     <*> r_minGreater
     <*> r_minPower).

Definition validate (env : Env) (data : pyobj) : result t :=
  match data with
  | VDict d => validate_fields env d
  | _ => Err [TypeMismatch "UniqueModel"]
  end.

Definition dump_aspect (exclude_unset : bool)
    (a : option AffixAspectFilterModel.t) : pyobj :=
  match a with
  | Some m => AffixAspectFilterModel.model_dump exclude_unset m
  | None => VNone
  end.

Definition model_dump (exclude_unset : bool) (m : t) : pyobj :=
  VDict (dump_fields exclude_unset [] (model_fields_set m)
           [("affix", VList (map (AffixAspectFilterModel.model_dump exclude_unset)
                                 (affix m)));
            ("aspect", dump_aspect exclude_unset (aspect m));
            ("itemType", VList (map VStr (itemType m)));
            ("minGreaterAffixCount", VInt (minGreaterAffixCount m));
            ("minPower", VInt (minPower m))]).

End UniqueModel.

(** ** ProfileModel *)

Module ProfileModel.

Record t : Type := mk {
  name : string;
  Affixes : list DynamicItemFilterModel.t;
  Sigils : option SigilFilterModel.t;
  Uniques : list UniqueModel.t;
  model_fields_set : gset string
}.

Definition fields : list string := ["name"; "Affixes"; "Sigils"; "Uniques"].

(** [SigilFilterModel | None] *)
Definition validate_Sigils (env : Env) (v : pyobj) : result (option SigilFilterModel.t) :=
  match v with
  | VNone => Ok None
  | _ => bind (SigilFilterModel.validate env v) (fun s => Ok (Some s))
  end.

Definition validate_fields (env : Env) (d : pydict) : result t :=
  let r_name := field "name" d validate_str (Err [Missing "name"]) in
  let r_Affixes := field "Affixes" d
                     (validate_list (DynamicItemFilterModel.validate env)) (Ok []) in
  let r_Sigils := field "Sigils" d (validate_Sigils env) (Ok None) in
  let r_Uniques := field "Uniques" d (validate_list (UniqueModel.validate env))
                     (Ok []) in
  forbid_extra fields d
    (Ok (fun n a s u => mk n a s u (fields_set_of fields d))
     <*> r_name
     <*> r_Affixes
     <*> r_Sigils
     <*> r_Uniques).

Definition validate (env : Env) (data : pyobj) : result t :=
  match data with
  | VDict d => validate_fields env d
  | _ => Err [TypeMismatch "ProfileModel"]
  end.

Definition dump_Sigils (exclude_unset : bool) (s : option SigilFilterModel.t) : pyobj :=
  match s with
  | Some m => SigilFilterModel.model_dump exclude_unset m
  | None => VNone
  end.

Definition model_dump (exclude_unset : bool) (exclude : list string) (m : t) : pyobj :=
  VDict (dump_fields exclude_unset exclude (model_fields_set m)
           [("name", VStr (name m));
            ("Affixes", VList (map (DynamicItemFilterModel.model_dump exclude_unset)
                                   (Affixes m)));
            ("Sigils", dump_Sigils exclude_unset (Sigils m));
            ("Uniques", VList (map (UniqueModel.model_dump exclude_unset)
                                   (Uniques m)))]).

End ProfileModel.

(** ** The profile writer *)

(** [k1 <= k2] on keys, by code point. *)
Definition key_le (k1 k2 : string) : bool :=
  match String.compare k1 k2 with Gt => false | _ => true end.

Fixpoint insert_item (kv : string * pyobj) (d : pydict) : pydict :=
  match d with
  | [] => [kv]
  | kv' :: d' => if key_le kv.1 kv'.1 then kv :: d else kv' :: insert_item kv d'
  end.

(** The items of a mapping in the order of their keys. *)
Definition sort_items (d : pydict) : pydict := foldr insert_item [] d.

(** The document that the text of [to_yaml_str] stands for: the dump of the
    model, with every mapping written in the order of its keys. *)
Fixpoint sort_keys (v : pyobj) : pyobj :=
  match v with
  | VList l => VList (map sort_keys l)
  | VDict d => VDict (sort_items (map (fun kv => (kv.1, sort_keys kv.2)) d))
  | _ => v
  end.

Definition to_yaml_str (exclude_unset : bool) (exclude : list string)
    (profile : ProfileModel.t) : pyobj :=
  sort_keys (ProfileModel.model_dump exclude_unset exclude profile).

(** The document that [save_as_profile] writes below its two comment lines;
    [full_dump] is the setting [IniConfigLoader().general.full_dump]. *)
Definition save_as_profile (full_dump : bool) (profile : ProfileModel.t) : pyobj :=
  to_yaml_str (negb full_dump) ["name"; "Sigils"; "Uniques"] profile.

Module AffixAspectFilterModelInv.
Import AffixAspectFilterModel.

(** What validation establishes about a rule. *)
Definition wf (name_must_exist : string -> result string) (m : t) : Prop :=
  name_must_exist (name m) = Ok (name m)
  /\ "name" ∈ model_fields_set m
  /\ model_fields_set m ⊆ list_to_set fields
  /\ ("value" ∉ model_fields_set m -> value m = None)
  /\ ("comparison" ∉ model_fields_set m -> comparison m = larger).

End AffixAspectFilterModelInv.

Module AffixFilterModelInv.
Import AffixAspectFilterModel.

Definition wf env := AffixAspectFilterModelInv.wf (AffixFilterModel.name_must_exist env).

End AffixFilterModelInv.

Module AspectUniqueFilterModelInv.
Import AffixAspectFilterModel.

Definition wf env :=
  AffixAspectFilterModelInv.wf (AspectUniqueFilterModel.name_must_exist env).

End AspectUniqueFilterModelInv.

Module AffixFilterCountModelInv.
Import AffixFilterCountModel.

Definition wf (env : Env) (m : t) : Prop :=
  Forall (AffixFilterModelInv.wf env) (count m)
  /\ count m <> []
  /\ model_fields_set m ⊆ list_to_set fields
  /\ "count" ∈ model_fields_set m
  /\ minCount m <= maxCount m
  /\ ("maxCount" ∈ model_fields_set m -> 0 <= maxCount m)
  /\ ("minCount" ∈ model_fields_set m -> 0 <= minCount m)
  /\ ("minGreaterAffixCount" ∈ model_fields_set m -> 0 <= minGreaterAffixCount m)
  /\ ("minGreaterAffixCount" ∉ model_fields_set m -> minGreaterAffixCount m = 0)
  /\ ("minCount" ∉ model_fields_set m -> "maxCount" ∉ model_fields_set m ->
       minCount m = Z.of_nat (length (count m))
       /\ maxCount m = Z.of_nat (length (count m)))
  /\ ("minCount" ∈ model_fields_set m -> "maxCount" ∉ model_fields_set m ->
       maxCount m = sys_maxsize)
  /\ ("minCount" ∉ model_fields_set m -> "maxCount" ∈ model_fields_set m ->
       minCount m = 0).

(** The fields as the model's own validation leaves them, before the
    [mode="after"] validator runs. *)
Definition fields_ok (env : Env) (d : pydict) (m : t) : Prop :=
  model_fields_set m = fields_set_of fields d
  /\ Forall (AffixFilterModelInv.wf env) (count m)
  /\ (dict_get "count" d = None -> count m = [])
  /\ match dict_get "maxCount" d with
     | Some v => to_int env v = Ok (maxCount m) /\ 0 <= maxCount m
     | None => maxCount m = sys_maxsize
     end
  /\ match dict_get "minCount" d with
     | Some v => to_int env v = Ok (minCount m) /\ 0 <= minCount m
     | None => minCount m = 0
     end
  /\ match dict_get "minGreaterAffixCount" d with
     | Some v => to_int env v = Ok (minGreaterAffixCount m)
                 /\ 0 <= minGreaterAffixCount m
     | None => minGreaterAffixCount m = 0
     end.

End AffixFilterCountModelInv.

Module ItemFilterModelInv.
Import ItemFilterModel.

Definition wf (env : Env) (m : t) : Prop :=
  model_fields_set m ⊆ list_to_set fields
  /\ Forall (AffixFilterCountModelInv.wf env) (affixPool m)
  /\ Forall (AffixFilterCountModelInv.wf env) (inherentPool m)
  /\ Forall (fun s => str_in s (ItemType env) = true) (itemType m)
  /\ ("affixPool" ∉ model_fields_set m -> affixPool m = [])
  /\ ("inherentPool" ∉ model_fields_set m -> inherentPool m = [])
  /\ ("itemType" ∉ model_fields_set m -> itemType m = [])
  /\ ("minGreaterAffixCount" ∈ model_fields_set m -> 0 <= minGreaterAffixCount m <= 3)
  /\ ("minGreaterAffixCount" ∉ model_fields_set m -> minGreaterAffixCount m = 0)
  /\ ("minPower" ∈ model_fields_set m -> 0 <= minPower m)
  /\ ("minPower" ∉ model_fields_set m -> minPower m = 0).

End ItemFilterModelInv.

Module DynamicItemFilterModelInv.
Import DynamicItemFilterModel.

Definition wf (env : Env) (m : t) : Prop :=
  Forall (fun km => ItemFilterModelInv.wf env km.2) m.

End DynamicItemFilterModelInv.

Module SigilConditionModelInv.
Import SigilConditionModel.

Definition known (env : Env) (name : string) : Prop :=
  in_dict name (affix_sigil_dict (dataloader env)) = true.

Definition wf (env : Env) (m : t) : Prop :=
  model_fields_set m ⊆ list_to_set fields
  /\ "name" ∈ model_fields_set m
  /\ known env (name m)
  /\ Forall (known env) (condition m)
  /\ ("condition" ∉ model_fields_set m -> condition m = []).

End SigilConditionModelInv.

Module SigilFilterModelInv.
Import SigilFilterModel.

Definition wf (env : Env) (m : t) : Prop :=
  model_fields_set m ⊆ list_to_set fields
  /\ Forall (SigilConditionModelInv.wf env) (blacklist m)
  /\ Forall (SigilConditionModelInv.wf env) (whitelist m)
  /\ ("blacklist" ∉ model_fields_set m -> blacklist m = [])
  /\ ("whitelist" ∉ model_fields_set m -> whitelist m = [])
  /\ ("maxTier" ∈ model_fields_set m -> 0 <= maxTier m <= 100)
  /\ ("maxTier" ∉ model_fields_set m -> maxTier m = sys_maxsize)
  /\ ("minTier" ∈ model_fields_set m -> 0 <= minTier m <= 100)
  /\ ("minTier" ∉ model_fields_set m -> minTier m = 0)
  /\ ("priority" ∉ model_fields_set m -> priority m = blacklist_first)
  /\ data_integrity m = Ok m.

End SigilFilterModelInv.

Module UniqueModelInv.
Import UniqueModel.

Definition wf (env : Env) (m : t) : Prop :=
  model_fields_set m ⊆ list_to_set fields
  /\ Forall (AffixFilterModelInv.wf env) (affix m)
  /\ ("aspect" ∈ model_fields_set m ->
      exists a, aspect m = Some a /\ AspectUniqueFilterModelInv.wf env a)
  /\ Forall (fun s => str_in s (ItemType env) = true) (itemType m)
  /\ ("affix" ∉ model_fields_set m -> affix m = [])
  /\ ("aspect" ∉ model_fields_set m -> aspect m = None)
  /\ ("itemType" ∉ model_fields_set m -> itemType m = [])
  /\ ("minGreaterAffixCount" ∈ model_fields_set m -> 0 <= minGreaterAffixCount m)
  /\ ("minGreaterAffixCount" ∉ model_fields_set m -> minGreaterAffixCount m = 0)
  /\ ("minPower" ∈ model_fields_set m -> 0 <= minPower m)
  /\ ("minPower" ∉ model_fields_set m -> minPower m = 0).

End UniqueModelInv.

Module ProfileModelInv.
Import ProfileModel.

Definition wf (env : Env) (m : t) : Prop :=
  model_fields_set m ⊆ list_to_set fields
  /\ "name" ∈ model_fields_set m
  /\ Forall (DynamicItemFilterModelInv.wf env) (Affixes m)
  /\ (forall s, Sigils m = Some s -> SigilFilterModelInv.wf env s)
  /\ Forall (UniqueModelInv.wf env) (Uniques m)
  /\ ("Affixes" ∉ model_fields_set m -> Affixes m = [])
  /\ ("Sigils" ∉ model_fields_set m -> Sigils m = None)
  /\ ("Uniques" ∉ model_fields_set m -> Uniques m = []).

End ProfileModelInv.

(** * The importer's helpers (gui/importer/common.py) *)

(** ** Text *)

(** The text functions below are Python's on ASCII text; outside ASCII
    Python follows the Unicode tables, so the statements about them take
    ASCII text. *)
Definition is_ascii (c : ascii) : bool := (nat_of_ascii c <? 128)%nat.

Fixpoint ascii_text (s : string) : bool :=
  match s with
  | EmptyString => true
  | String c s' => is_ascii c && ascii_text s'
  end.

Definition char_between (lo hi : nat) (c : ascii) : bool :=
  ((lo <=? nat_of_ascii c) && (nat_of_ascii c <=? hi))%nat.

(** [c.isdigit()] *)
Definition isdigit (c : ascii) : bool := char_between 48 57 c.

Definition isupper (c : ascii) : bool := char_between 65 90 c.

Definition islower (c : ascii) : bool := char_between 97 122 c.

Definition lower_char (c : ascii) : ascii :=
  if isupper c then ascii_of_nat (nat_of_ascii c + 32) else c.

Fixpoint map_chars (f : ascii -> ascii) (s : string) : string :=
  match s with
  | EmptyString => EmptyString
  | String c s' => String (f c) (map_chars f s')
  end.

Fixpoint filter_chars (p : ascii -> bool) (s : string) : string :=
  match s with
  | EmptyString => EmptyString
  | String c s' => if p c then String c (filter_chars p s') else filter_chars p s'
  end.

(** [s.lower()] *)
Definition lower (s : string) : string := map_chars lower_char s.

(** [s.casefold()], which on ASCII text is [lower] *)
Definition casefold (s : string) : string := lower s.

(** [needle in s], on strings *)
Fixpoint substring_in (needle s : string) : bool :=
  String.prefix needle s
  || match s with
     | EmptyString => false
     | String _ s' => substring_in needle s'
     end.

(** [s.replace(c, "")] for a one-character [c] *)
Definition replace_with_empty (c : ascii) (s : string) : string :=
  filter_chars (fun x => negb (Ascii.eqb x c)) s.

(** ** What a call gives: a value or an exception *)

Inductive exception : Type :=
  | PyValueError (msg : string)
  | PyConnectionError (msg : string)
  | PyKeyError (key : string)
  | PyIndexError (msg : string)
  | PyAttributeError (msg : string)
  | PyTypeError (msg : string).

Inductive outcome (A : Type) : Type :=
  | Returns (a : A)
  | Raises (e : exception).

Arguments Returns {A} a.

Arguments Raises {A} e.

(** ** extract_digits *)

Definition digit_value (c : ascii) : Z := Z.of_nat (nat_of_ascii c) - 48.

Fixpoint int_of_digits_from (acc : Z) (s : string) : Z :=
  match s with
  | EmptyString => acc
  | String c s' => int_of_digits_from (10 * acc + digit_value c) s'
  end.

(** [sys.get_int_max_str_digits()]: CPython's [int] refuses a longer string. *)
Definition int_max_str_digits : nat := 4300.

(** [int(s)] for a string of decimal digits, which is what [extract_digits]
    passes: the empty string is no number. *)
Definition int_of_digits (s : string) : outcome Z :=
  match s with
  | EmptyString => Raises (PyValueError "invalid literal for int() with base 10")
  | _ => if (int_max_str_digits <? String.length s)%nat
         then Raises (PyValueError "Exceeds the limit for integer string conversion")
         else Returns (int_of_digits_from 0 s)
  end.

Definition extract_digits (text : string) : outcome Z :=
  int_of_digits (filter_chars isdigit text).

(** ** fix_weapon_type *)

(** The result is the name of the [ItemType] member. *)
Definition fix_weapon_type (input_str : string) : option string :=
  let input_str := lower input_str in
  if substring_in "1h mace" input_str then Some "Mace"
  else if substring_in "2h mace" input_str then Some "Mace2H"
  else if substring_in "1h sword" input_str then Some "Sword"
  else if substring_in "2h sword" input_str then Some "Sword2H"
  else if substring_in "1h axe" input_str then Some "Axe"
  else if substring_in "2h axe" input_str then Some "Axe2H"
  else if substring_in "2h scythe" input_str then Some "Scythe2H"
  else if substring_in "scythe" input_str then Some "Scythe"
  else if substring_in "crossbow" input_str then Some "Crossbow2H"
  else if substring_in "wand" input_str then Some "Wand"
  else if substring_in "staff" input_str then Some "Staff"
  else if substring_in "dagger" input_str then Some "Dagger"
  else if substring_in "bow" input_str then Some "Bow"
  else None.

(** ** fix_offhand_type *)

Definition fix_offhand_type (input_str class_str : string) : option string :=
  let input_str := lower input_str in
  let class_str := lower class_str in
  if substring_in "sorc" class_str then Some "Focus"
  else if substring_in "druid" class_str then Some "OffHandTotem"
  else if substring_in "necro" class_str then
    if substring_in "focus" input_str
       || (substring_in "offhand" input_str
           && substring_in "cooldown reduction" input_str)
    then Some "Focus"
    else if substring_in "shield" input_str then Some "Shield"
    else None
  else None.

(** ** get_class_name *)

Definition get_class_name (input_str : string) : string :=
  let input_str := lower input_str in
  if substring_in "barbarian" input_str then "Barbarian"
  else if substring_in "druid" input_str then "Druid"
  else if substring_in "necromancer" input_str then "Necromancer"
  else if substring_in "rogue" input_str then "Rogue"
  else if substring_in "sorcerer" input_str then "Sorcerer"
  else "Unknown".

(** ** match_to_enum *)

(** A member of a string enum: its name and its value.  An enum class is the
    list of its members in iteration order. *)
Record enum_member : Type := Member { member_name : string; member_value : string }.

(** [s.casefold().replace(" ", "").replace("-", "")] *)
Definition squash (s : string) : string :=
  replace_with_empty "-" (replace_with_empty " " (casefold s)).

Fixpoint match_to_enum_loop (members : list enum_member) (target_string : string)
    (check_keys : bool) : option enum_member :=
  match members with
  | [] => None
  | enum_member :: rest =>
      if String.eqb (squash (member_value enum_member)) target_string
      then Some enum_member
      else if check_keys && String.eqb (squash (member_name enum_member)) target_string
      then Some enum_member
      else match_to_enum_loop rest target_string check_keys
  end.

Definition match_to_enum (enum_class : list enum_member) (target_string : string)
    (check_keys : bool) : option enum_member :=
  let target_string := squash target_string in
  match_to_enum_loop enum_class target_string check_keys.

(** ** The file name of [save_as_profile] *)

(** [\w] on ASCII text *)
Definition is_word_char (c : ascii) : bool :=
  isdigit c || isupper c || islower c || Ascii.eqb c "_".

(** [re.sub(r"_+", "_", s)] *)
Fixpoint squeeze_underscores (s : string) : string :=
  match s with
  | EmptyString => EmptyString
  | String c s' =>
      if Ascii.eqb c "_"
      then match s' with
           | String c' _ => if Ascii.eqb c' "_" then squeeze_underscores s'
                            else String c (squeeze_underscores s')
           | EmptyString => String c EmptyString
           end
      else String c (squeeze_underscores s')
  end.

(** [s.rstrip(c)] for a one-character [c] *)
Fixpoint rstrip_char (c : ascii) (s : string) : string :=
  match s with
  | EmptyString => EmptyString
  | String x s' =>
      match rstrip_char c s' with
      | EmptyString => if Ascii.eqb x c then EmptyString else String x EmptyString
      | r => String x r
      end
  end.

(** The first three lines of [save_as_profile]: the name of the file that
    is written, without directory and extension. *)
Definition save_as_profile_file_name (file_name : string) : string :=
  let file_name := replace_with_empty "'" file_name in
  let file_name := map_chars (fun c => if is_word_char c then c else "_"%char) file_name in
  rstrip_char "_" (squeeze_underscores file_name).

Fixpoint all_chars (p : ascii -> bool) (s : string) : bool :=
  match s with
  | EmptyString => true
  | String c s' => p c && all_chars p s'
  end.

(** ** An environment to run the validators on *)

(** A string with an optional sign in front: whether it is negative, and
    the rest. *)
Definition split_sign (s : string) : bool * string :=
  match s with
  | String "-" r => (true, r)
  | String "+" r => (false, r)
  | _ => (false, s)
  end.

Definition nonempty_digits (s : string) : bool :=
  negb (String.eqb s "") && all_chars isdigit s.

(** The text before the first point, and the text after it when there is
    one. *)
Fixpoint split_point (s : string) : string * option string :=
  match s with
  | EmptyString => (EmptyString, None)
  | String c s' =>
      if Ascii.eqb c "."
      then (EmptyString, Some s')
      else let '(a, b) := split_point s' in (String c a, b)
  end.

(** The double that is nearest to a rational that is not negative, ties to
    even; above the largest double there is none. *)
Definition nearest_double (n : Z) (d : positive) : option Q :=
  if n =? 0 then Some 0%Q else
  let e0 := Z.log2 n - Z.log2 (Z.pos d) in
  let above := if 0 <=? e0 then Z.pos d * 2 ^ e0 <=? n
               else Z.pos d <=? n * 2 ^ (- e0) in
  let l := if above then e0 else e0 - 1 in
  let e := Z.max (l - 52) (-1074) in
  let num := if 0 <=? e then n else n * 2 ^ (- e) in
  let den := if 0 <=? e then Z.pos d * 2 ^ e else Z.pos d in
  let m := num / den in
  let r := num mod den in
  let m := if (den <? 2 * r) || ((2 * r =? den) && Z.odd m) then m + 1 else m in
  if 0 <=? e
  then if m * 2 ^ e <? 2 ^ 1024 then Some (inject_Z (m * 2 ^ e)) else None
  else Some (Qred (Qmake m (Z.to_pos (2 ^ (- e))))).

Definition signed (negative : bool) (q : Q) : Q :=
  if negative then Qopp q else q.

(** Conversions for the examples: a number of the other type, a bool, and
    in a string a decimal literal (a sign, digits, and for a float a point
    and more digits).  A float is taken for an int when it is whole, and an
    int becomes the nearest double.  The theorems are stated for every
    environment; these conversions only serve to run the validators on
    documents with such values. *)
Definition example_to_int (v : pyobj) : result Z :=
  match v with
  | VInt z => Ok z
  | VBool b => Ok (if b then 1 else 0)
  | VFloat q =>
      if Z.pos (Qden (Qred q)) =? 1 then Ok (Qnum (Qred q))
      else Err [TypeMismatch "int"]
  | VStr s =>
      let '(negative, body) := split_sign s in
      if nonempty_digits body
      then Ok (if negative then - int_of_digits_from 0 body
               else int_of_digits_from 0 body)
      else Err [TypeMismatch "int"]
  | _ => Err [TypeMismatch "int"]
  end.

Definition example_to_float (v : pyobj) : result Q :=
  match v with
  | VFloat q => Ok q
  | VInt z =>
      match nearest_double (Z.abs z) 1 with
      | Some q => Ok (signed (z <? 0) q)
      | None => Err [TypeMismatch "float"]
      end
  | VBool b => Ok (if b then 1%Q else 0%Q)
  | VStr s =>
      let '(negative, body) := split_sign s in
      let '(whole, fraction) := split_point body in
      let fraction := default EmptyString fraction in
      if nonempty_digits whole && all_chars isdigit fraction
      then match nearest_double (int_of_digits_from 0 (whole +:+ fraction))
                   (Z.to_pos (10 ^ Z.of_nat (String.length fraction))) with
           | Some q => Ok (signed negative q)
           | None => Err [TypeMismatch "float"]
           end
      else Err [TypeMismatch "float"]
  | _ => Err [TypeMismatch "float"]
  end.

Definition example_env : Env := {|
  dataloader := {|
    affix_dict := {[ "critical_strike_damage" := "critical strike damage";
                     "lucky_hit_chance" := "lucky hit chance";
                     "maximum_life" := "maximum life";
                     "resource_generation" := "resource generation" ]};
    aspect_unique_dict := {[ "tibaults_will" := "tibaults will" ]};
    affix_sigil_dict := {[ "cellars" := "cellars";
                           "death_pulse" := "death pulse";
                           "armor_breakers" := "armor breakers" ]}
  |};
  ItemType := ["helm"; "ring"; "amulet"; "pants"];
  to_int := example_to_int;
  to_float := example_to_float
|}.

(** The pool of the spec's scenario A with a third rule: only [minCount] is
    given. *)
Definition pool_min_only : pyobj :=
  VDict [("count", VList [VStr "critical_strike_damage";
                          VStr "lucky_hit_chance";
                          VList [VStr "maximum_life"; VInt 700]]);
         ("minCount", VInt 1)].

(** The same rules and no bound at all. *)
Definition pool_no_bounds : pyobj :=
  VDict [("count", VList [VStr "critical_strike_damage";
                          VStr "lucky_hit_chance";
                          VList [VStr "maximum_life"; VInt 700]])].

(** The sigil rule of the spec's scenario C. *)
Definition sigil_scenario_C : pyobj :=
  VDict [("priority", VStr "blacklist");
         ("blacklist", VList [VDict [("name", VStr "cellars")]]);
         ("minTier", VInt 50)].

Definition sigil_lists_disjoint : pyobj :=
  VDict [("blacklist", VList [VStr "cellars"]);
         ("whitelist", VList [VList [VStr "death_pulse"; VStr "armor_breakers"]])].

(** The same dungeon on both lists, once as a bare name and once as a
    mapping with an explicit empty condition list. *)
Definition sigil_lists_overlap : pyobj :=
  VDict [("blacklist", VList [VStr "cellars"]);
         ("whitelist", VList [VDict [("name", VStr "cellars");
                                     ("condition", VList [])]])].

Definition unique_four_greater : pyobj :=
  VDict [("aspect", VList [VStr "tibaults_will"]);
         ("minGreaterAffixCount", VInt 4)].

(** Bounds and a threshold written as text, as a document may have them. *)
Definition pool_quoted_numbers : pyobj :=
  VDict [("count", VList [VList [VStr "maximum_life"; VStr "700"]]);
         ("minCount", VStr "1")].

(** One rule with its threshold as text, and no bound. *)
Definition pool_quoted_value : pyobj :=
  VDict [("count", VList [VList [VStr "maximum_life"; VStr "700"]])].

Definition sigil_quoted_tiers : pyobj :=
  VDict [("whitelist", VList [VStr "cellars"]);
         ("minTier", VStr "50"); ("maxTier", VFloat (inject_Z 80))].

(** A profile with all three parts, and numbers as ints, floats and text. *)
Definition profile_quoted_numbers : pyobj :=
  VDict [("name", VStr "barb");
         ("Affixes", VList [VDict [("Helm", VDict [("itemType", VStr "helm");
                                                   ("minPower", VStr "800");
                                                   ("affixPool",
                                                    VList [pool_quoted_numbers;
                                                           pool_no_bounds])])]]);
         ("Sigils", sigil_quoted_tiers);
         ("Uniques", VList [unique_four_greater])].

(** Neither a string, a list nor a mapping. *)
Definition is_str_list_or_dict (data : pyobj) : bool :=
  match data with
  | VStr _ | VList _ | VDict _ => true
  | _ => false
  end.

(** Whether a rule is written without a comparison. *)
Definition no_explicit_comparison (data : pyobj) : bool :=
  match data with
  | VStr _ => true
  | VList l => (length l <=? 2)%nat
  | VDict d => negb (contains "comparison" d)
  | _ => false
  end.

(** The names of a list that the sigil catalog does not have. *)
Definition unknown_sigil_names (env : Env) (names : list string) : list string :=
  filter (fun name => negb (in_dict name (affix_sigil_dict (dataloader env)))) names.

Definition helm_rule : pyobj :=
  VDict [("itemType", VStr "helm"); ("minPower", VStr "800");
         ("minGreaterAffixCount", VFloat (inject_Z 2));
         ("affixPool", VList [pool_quoted_numbers])].

Definition unique_quoted_numbers : pyobj :=
  VDict [("aspect", VList [VStr "tibaults_will"; VStr "1.5"]);
         ("affix", VList [VList [VStr "maximum_life"; VInt 700]]);
         ("minPower", VStr "900")].

(** ** fix_weapon_type *)

Definition weapon_keywords : list string :=
  ["1h mace"; "2h mace"; "1h sword"; "2h sword"; "1h axe"; "2h axe";
   "scythe"; "wand"; "staff"; "dagger"; "bow"].

Definition ascii_enum (enum_class : list enum_member) : bool :=
  forallb (fun m => ascii_text (member_name m) && ascii_text (member_value m)) enum_class.

Definition member_matches (check_keys : bool) (target : string) (m : enum_member) : Prop :=
  squash (member_value m) = squash target
  \/ (check_keys = true /\ squash (member_name m) = squash target).

Definition some_enum : list enum_member :=
  [Member "Helm" "helm"; Member "ChestArmor" "chest armor";
   Member "Mace2H" "two-handed mace"].

(** ** The file name of a saved profile *)

(** [s[-1]], when there is one *)
Fixpoint last_char (s : string) : option ascii :=
  match s with
  | EmptyString => None
  | String c EmptyString => Some c
  | String _ s' => last_char s'
  end.

Fixpoint no_double_underscore (s : string) : bool :=
  match s with
  | EmptyString => true
  | String c s' =>
      match s' with
      | EmptyString => true
      | String c' _ => negb (Ascii.eqb c "_" && Ascii.eqb c' "_") && no_double_underscore s'
      end
  end.

Definition word_or_underscore (c : ascii) : ascii :=
  if is_word_char c then c else "_"%char.

(** ** get_with_retry *)

Record Response : Type := { status_code : Z; text : string }.

(** What [httpx.get] gives: a response, or an exception of the transport. *)
Inductive request_outcome : Type :=
  | Responded (r : Response)
  | RequestRaised (e : exception).

(** The network as the function sees it: the outcome of the request number
    [i] (from 0) that is sent to a url. *)
Definition network : Type := string -> nat -> request_outcome.

(** The loop of [get_with_retry] with [attempts] rounds left, after [sent]
    requests.  The result comes with the number of requests sent.  The
    message has the url as [repr] prints a string without quotes and
    escapes. *)
Fixpoint get_with_retry_loop (attempts : nat) (net : network) (url : string)
    (sent : nat) : outcome Response * nat :=
  match attempts with
  | O => (Raises (PyConnectionError
                    ("Failed to get a successful response after 5 attempts: url='"
                     +:+ url +:+ "'")), sent)
  | S attempts' =>
      match net url sent with
      | Responded r =>
          if status_code r =? 200 then (Returns r, S sent)
          else get_with_retry_loop attempts' net url (S sent)
      | RequestRaised e => (Raises e, S sent)
      end
  end.

Definition get_with_retry (net : network) (url : string) : outcome Response * nat :=
  get_with_retry_loop 5 net url 0.

(** ** retry_importer *)

Inductive event : Type :=
  | SetupWebdriver
  | CallWrapped
  | QuitDriver
  | LogException.

(** The world of one call of the wrapper: whether [setup_webdriver] raises,
    what the call number [i] (from 0) of the wrapped function gives, and
    whether [driver.quit()] raises after it. *)
Record importer_run (R : Type) : Type := {
  setup_raises : option exception;
  wrap_function : nat -> outcome R;
  quit_raises : nat -> option exception
}.

Arguments setup_raises {R} _.

Arguments wrap_function {R} _ _.

Arguments quit_raises {R} _ _.

(** One round of the [for] loop and the rounds after it.  [has_driver]: the
    keyword arguments have a ["driver"].  The result is None when the rounds
    are used up. *)
Fixpoint wrapper_loop {R} (rounds : nat) (inject_webdriver has_driver : bool)
    (run : importer_run R) (i : nat) : option R * list event :=
  match rounds with
  | O => (None, [])
  | S rounds' =>
      let again :=
        let '(res, log) := wrapper_loop rounds' inject_webdriver has_driver run (S i) in
        (res, LogException :: log) in
      match wrap_function run i with
      | Returns res =>
          if inject_webdriver then
            if has_driver then
              match quit_raises run i with
              | None => (Some res, [CallWrapped; QuitDriver])
              | Some _ => (again.1, CallWrapped :: QuitDriver :: again.2)
              end
            else (again.1, CallWrapped :: again.2)   (* kwargs["driver"]: KeyError *)
          else (Some res, [CallWrapped])
      | Raises _ => (again.1, CallWrapped :: again.2)
      end
  end.

(** The wrapper that [retry_importer] builds, called with positional
    arguments or not ([has_args]) and with a [driver] keyword or not
    ([driver_given]). *)
Definition wrapper {R} (inject_webdriver has_args driver_given : bool)
    (run : importer_run R) : outcome (option R) * list event :=
  if inject_webdriver && negb driver_given && negb has_args then
    match setup_raises run with
    | Some e => (Raises e, [SetupWebdriver])
    | None =>
        let '(res, log) := wrapper_loop 5 inject_webdriver true run 0 in
        (Returns res, SetupWebdriver :: log)
    end
  else
    let '(res, log) := wrapper_loop 5 inject_webdriver driver_given run 0 in
    (Returns res, log).

(** ** handle_popups *)

(** What [wait.until(method)] gives: an element, a TimeoutException, or
    another exception. *)
Inductive until_outcome (E : Type) : Type :=
  | Found (elem : E)
  | TimedOut
  | UntilRaised (e : exception).

Arguments Found {E} elem.

Arguments TimedOut {E}.

Arguments UntilRaised {E} e.

(** The rounds of [handle_popups]: [until i] is what the wait number [i]
    gives, [click] whether clicking an element raises.  The result comes with
    the elements clicked, in order. *)
Fixpoint handle_popups_loop {E} (rounds : nat) (until : nat -> until_outcome E)
    (click : E -> option exception) (i : nat) : outcome unit * list E :=
  match rounds with
  | O => (Returns tt, [])
  | S rounds' =>
      match until i with
      | TimedOut => (Returns tt, [])
      | UntilRaised e => (Raises e, [])
      | Found elem =>
          match click elem with
          | Some e => (Raises e, [elem])
          | None =>
              let '(res, clicked) := handle_popups_loop rounds' until click (S i) in
              (res, elem :: clicked)
          end
      end
  end.

Definition handle_popups {E} (until : nat -> until_outcome E)
    (click : E -> option exception) : outcome unit * list E :=
  handle_popups_loop 3 until click 0.

(** ** get_with_retry *)

Definition refused (net : network) (url : string) (i : nat) : Prop :=
  exists r, net url i = Responded r /\ status_code r <> 200.

Definition flaky_network : network :=
  fun _ i => if (i <? 2)%nat then Responded {| status_code := 503; text := "" |}
             else Responded {| status_code := 200; text := "ok" |}.

(** ** retry_importer *)

Definition failed_rounds (k : nat) : list event :=
  concat (replicate k [CallWrapped; LogException]).

Definition raises_at {R} (run : importer_run R) (j : nat) : Prop :=
  exists e, wrap_function run j = Raises e.

Definition third_time_lucky : importer_run string := {|
  setup_raises := None;
  wrap_function i := if (i <? 2)%nat then Raises (PyValueError "no build") else Returns "build";
  quit_raises _ := None
|}.

Definition never_works : importer_run string := {|
  setup_raises := None;
  wrap_function _ := Raises (PyValueError "no build");
  quit_raises _ := None
|}.

Definition two_popups : nat -> until_outcome string :=
  fun i => if (i <? 2)%nat then Found "accept" else TimedOut.

(** * The settings models (config/models.py) *)

(** ** HSVRangeModel *)

Module HSVRangeModel.

(** The ValueErrors of the model, by message; the numbers are the ones the
  message prints. *)
Inductive hsv_error : Type :=
| must_be_h_s_v                               (* "must be h,s,v" *)
| hue_out_of_range                            (* "must be in [-179, 179]" *)
| saturation_value_out_of_range               (* "must be in [0, 255]" *)
| invalid_hue_range (lo hi : Q)               (* "invalid hue range [lo, hi]" *)
| invalid_saturation_range (lo hi : Q)        (* "invalid saturation range [lo, hi]" *)
| invalid_value_range (lo hi : Q).            (* "invalid value range [lo, hi]" *)

Inductive checked (A : Type) : Type :=
| Passed (a : A)
| Failed (es : list hsv_error).

Arguments Passed {A} a.

Arguments Failed {A} es.

(** The two fields are one-dimensional arrays. *)
Record t : Type := mk {
h_s_v_min : list Q;
h_s_v_max : list Q
}.

(** [v[i]] *)
Definition item (v : list Q) (i : nat) : Q := nth i v 0%Q.

(** [lo <= x <= hi] *)
Definition between (lo hi : Z) (x : Q) : bool :=
Qle_bool (inject_Z lo) x && Qle_bool x (inject_Z hi).

(** [v[1:3]] *)
Definition items_1_3 (v : list Q) : list Q := firstn 2 (skipn 1 v).

Definition values_in_range (v : list Q) : checked (list Q) :=
if negb (length v =? 3)%nat then Failed [must_be_h_s_v]
else if negb (between (-179) 179 (item v 0)) then Failed [hue_out_of_range]
else if negb (forallb (between 0 255) (items_1_3 v))
then Failed [saturation_value_out_of_range]
else Passed v.

(** [a > b] *)
Definition gt (a b : Q) : bool := negb (Qle_bool a b).

Definition check_interval_sanity (self : t) : checked t :=
if gt (item (h_s_v_min self) 0) (item (h_s_v_max self) 0)
then Failed [invalid_hue_range (item (h_s_v_min self) 0) (item (h_s_v_max self) 0)]
else if gt (item (h_s_v_min self) 1) (item (h_s_v_max self) 1)
then Failed [invalid_saturation_range (item (h_s_v_min self) 1)
                                      (item (h_s_v_max self) 1)]
else if gt (item (h_s_v_min self) 2) (item (h_s_v_max self) 2)
then Failed [invalid_value_range (item (h_s_v_min self) 2) (item (h_s_v_max self) 2)]
else Passed self.

(** The model built from its two arrays: the field validator runs on both,
  the errors of both are reported, and the [mode="after"] validator runs
  when there is none. *)
Definition validate (mn mx : list Q) : checked t :=
match values_in_range mn, values_in_range mx with
| Passed mn', Passed mx' => check_interval_sanity (mk mn' mx')
| Failed es, Passed _ => Failed es
| Passed _, Failed es => Failed es
| Failed es1, Failed es2 => Failed (es1 ++ es2)
end.

(** [self[index]] *)
Definition getitem (self : t) (index : Z) : outcome (list Q) :=
if index =? 0 then Returns (h_s_v_min self)
else if index =? 1 then Returns (h_s_v_max self)
else Raises (PyIndexError "Index out of range").

End HSVRangeModel.

(** ** Text of the settings *)

(** [c.isspace()] on ASCII: tab to carriage return, the four separators and
    the blank. *)
Definition isspace (c : ascii) : bool :=
  char_between 9 13 c || char_between 28 32 c.

Fixpoint lstrip (s : string) : string :=
  match s with
  | EmptyString => EmptyString
  | String c s' => if isspace c then lstrip s' else s
  end.

Fixpoint rstrip (s : string) : string :=
  match s with
  | EmptyString => EmptyString
  | String c s' =>
      match rstrip s' with
      | EmptyString => if isspace c then EmptyString else String c EmptyString
      | r => String c r
      end
  end.

(** [s.strip()] *)
Definition strip (s : string) : string := rstrip (lstrip s).

(** [s.split(sep)] for a one-character [sep]: the pieces between the
    separators, at least one. *)
Fixpoint split (sep : ascii) (s : string) : list string :=
  match s with
  | EmptyString => [EmptyString]
  | String c s' =>
      if Ascii.eqb c sep then EmptyString :: split sep s'
      else match split sep s' with
           | piece :: pieces => String c piece :: pieces
           | [] => [String c EmptyString]
           end
  end.

(** [sep.join(l)] *)
Fixpoint join (sep : string) (l : list string) : string :=
  match l with
  | [] => EmptyString
  | [s] => s
  | s :: l' => s +:+ sep +:+ join sep l'
  end.

(** A list comprehension over a call that may raise: the first exception
    ends it. *)
Fixpoint comprehension {A B} (f : A -> outcome B) (l : list A) : outcome (list B) :=
  match l with
  | [] => Returns []
  | a :: l' =>
      match f a with
      | Raises e => Raises e
      | Returns b =>
          match comprehension f l' with
          | Raises e => Raises e
          | Returns bs => Returns (b :: bs)
          end
      end
  end.

(** [v.strip()] on an item of a list *)
Definition strip_item (v : pyobj) : outcome string :=
  match v with
  | VStr s => Returns (strip s)
  | _ => Raises (PyAttributeError "object has no attribute 'strip'")
  end.

(** ** AdvancedOptionsModel *)

Inductive LogLevels : Type := debug | info | warning | error_lvl | critical.

Module AdvancedOptionsModel.

Record t : Type := mk {
exit_key : string;
log_lvl : LogLevels;
move_to_chest : string;
move_to_inv : string;
process_name : string;
run_filter : string;
run_filter_force_refresh : string;
run_scripts : string;
scripts : list string
}.

(** The model with every field at its default. *)
Definition defaults : t :=
mk "f12" info "f8" "f7" "Diablo IV.exe" "f11" "shift+f11" "f9" ["vision_mode"].

Definition hotkeys (self : t) : list string :=
[exit_key self; move_to_chest self; move_to_inv self; run_filter self;
 run_filter_force_refresh self; run_scripts self].

Definition check_scripts_is_list (v : pyobj) : outcome (list pyobj) :=
match v with
| VStr s => Returns (map VStr (split "," s))
| VList l => Returns l
| _ => Raises (PyValueError "must be a list or a string")
end.

Definition key_must_be_unique (self : t) : result t :=
let keys := hotkeys self in
if negb (size (list_to_set keys : gset string) =? length keys)%nat
then raise [Lit "hotkeys must be unique"]
else Ok self.

End AdvancedOptionsModel.

(** ** GeneralModel *)

Module GeneralModel.

(** The value after [if isinstance(v, str): v = v.split(",")] and the
  [elif]. *)
Definition as_list (v : pyobj) : outcome (list pyobj) :=
match v with
| VStr s => Returns (map VStr (split "," s))
| VList l => Returns l
| _ => Raises (PyValueError "must be a list or a string")
end.

Definition check_profiles_is_list (v : pyobj) : outcome (list string) :=
match as_list v with
| Raises e => Raises e
| Returns v => comprehension strip_item v
end.

(** The blanks that [int] skips around a number: tab to carriage return
  and the space, not the separators 28 to 31 that [str.strip] also
  takes. *)
Definition int_blank (c : ascii) : bool :=
char_between 9 13 c || Ascii.eqb c " ".

Fixpoint skip_blanks (s : string) : string :=
match s with
| EmptyString => EmptyString
| String c s' => if int_blank c then skip_blanks s' else s
end.

Fixpoint drop_trailing_blanks (s : string) : string :=
match s with
| EmptyString => EmptyString
| String c s' =>
    match drop_trailing_blanks s' with
    | EmptyString => if int_blank c then EmptyString else String c EmptyString
    | r => String c r
    end
end.

(** [int(s)] on a string: blanks around it, a sign, and digits that single
  underscores may separate. *)
Fixpoint int_literal_ok (after_digit : bool) (s : string) : bool :=
match s with
| EmptyString => after_digit
| String c s' =>
    if isdigit c then int_literal_ok true s'
    else if Ascii.eqb c "_" then after_digit && int_literal_ok false s'
    else false
end.

Definition int_of_str (s : string) : outcome Z :=
let s := drop_trailing_blanks (skip_blanks s) in
let '(negative, body) :=
  match s with
  | String "-" r => (true, r)
  | String "+" r => (false, r)
  | _ => (false, s)
  end in
if int_literal_ok false body then
  match int_of_digits (filter_chars isdigit body) with
  | Returns n => Returns (if negative : bool then - n else n)
  | Raises e => Raises e
  end
else Raises (PyValueError "invalid literal for int() with base 10").

(** [int(x)] *)
Definition int (x : pyobj) : outcome Z :=
match x with
| VInt z => Returns z
| VBool b => Returns (if b then 1 else 0)
| VFloat q => Returns (Z.quot (Qnum q) (Z.pos (Qden q)))
| VStr s => int_of_str s
| _ => Raises (PyTypeError "int() argument must be a string or a number")
end.

Fixpoint insert_sorted (x : Z) (l : list Z) : list Z :=
match l with
| [] => [x]
| y :: l' => if x <=? y then x :: l else y :: insert_sorted x l'
end.

(** [sorted(l)] on integers *)
Definition sorted (l : list Z) : list Z := foldr insert_sorted [] l.

Definition check_chest_tabs_index (v : pyobj) : outcome (list Z) :=
match as_list v with
| Raises e => Raises e
| Returns v =>
    match comprehension (fun x => match int x with
                                  | Returns n => Returns (n - 1)
                                  | Raises e => Raises e
                                  end) v with
    | Returns l => Returns (sorted l)
    | Raises e => Raises e
    end
end.

Definition language_must_exist (v : string) : result string :=
if negb (str_in v ["enUS"]) then raise [Lit "language not supported"] else Ok v.

Definition transparency_in_range (v : Q) : result Q :=
if negb (Qle_bool 0 v && Qle_bool v 1) then raise [Lit "must be in [0, 1]"] else Ok v.

End GeneralModel.

Module HSVRangeModelInv.
Import HSVRangeModel.

(** Three numbers: a hue in [-179, 179], then a saturation and a value in
  [0, 255]. *)
Definition h_s_v (v : list Q) : Prop :=
length v = 3%nat
/\ (inject_Z (-179) <= item v 0 <= inject_Z 179)%Q
/\ (inject_Z 0 <= item v 1 <= inject_Z 255)%Q
/\ (inject_Z 0 <= item v 2 <= inject_Z 255)%Q.

End HSVRangeModelInv.

Definition gold_min : list Q := [inject_Z 20; inject_Z 100; inject_Z 100].

Definition gold_max : list Q := [inject_Z 30; inject_Z 255; inject_Z 255].

(** ** GeneralModel: the list settings *)

(** [s[0]], when there is one *)
Definition first_char (s : string) : option ascii :=
  match s with
  | EmptyString => None
  | String c _ => Some c
  end.

(** No blank at either end. *)
Definition stripped (s : string) : Prop :=
  (forall c, first_char s = Some c -> isspace c = false)
  /\ (forall c, last_char s = Some c -> isspace c = false).

(** The number of times a character occurs. *)
Fixpoint count_char (c : ascii) (s : string) : nat :=
  match s with
  | EmptyString => 0
  | String x s' => (if Ascii.eqb x c then 1 else 0) + count_char c s'
  end.

(** A string, or the strings of a list, of ASCII text. *)
Definition ascii_items (v : pyobj) : bool :=
  match v with
  | VStr s => ascii_text s
  | VList l => forallb (fun x => match x with VStr s => ascii_text s | _ => true end) l
  | _ => true
  end.

(** * Invariants, round trips and the checked properties *)

(** * Properties *)

(** ** Results *)

Lemma bind_Ok {A B} (r : result A) (f : A -> result B) b :
  bind r f = Ok b -> exists a, r = Ok a /\ f a = Ok b.
Proof. destruct r; simpl; [eauto | done]. Qed.

Lemma ap_Ok {A B} (rf : result (A -> B)) (ra : result A) b :
  rf <*> ra = Ok b -> exists f a, rf = Ok f /\ ra = Ok a /\ b = f a.
Proof. destruct rf, ra; simpl; try done. intros [= <-]. eauto. Qed.

Lemma forbid_extra_Ok {A} fields d (r : result A) a :
  forbid_extra fields d r = Ok a -> r = Ok a /\ extra_forbidden fields d = [].
Proof.
  unfold forbid_extra. destruct r; [|done].
  destruct (extra_forbidden fields d); [|done]. by intros [= <-].
Qed.

Lemma forbid_extra_nil {A} fields d (a : A) :
  extra_forbidden fields d = [] -> forbid_extra fields d (Ok a) = Ok a.
Proof. unfold forbid_extra. by intros ->. Qed.

Lemma field_Ok {A} k d (validate : pyobj -> result A) default a :
  field k d validate default = Ok a ->
  (exists v, dict_get k d = Some v /\ validate v = Ok a)
  \/ (dict_get k d = None /\ default = Ok a).
Proof. unfold field. destruct (dict_get k d); eauto. Qed.

Ltac inv_ap H :=
  repeat (let f := fresh "f" in let a := fresh "a" in let E := fresh "E" in
          apply ap_Ok in H as (f & a & H & E & ->));
  injection H as <-.

Ltac in_list :=
  apply list_elem_of_In; simpl; repeat (first [left; reflexivity | right]).

(** ** Lists *)

Lemma is_empty_true {A} (l : list A) : is_empty l = true <-> l = [].
Proof. by destruct l. Qed.

Lemma validate_items_Forall {A} (f : pyobj -> result A) (P : A -> Prop) l r :
  (forall v a, f v = Ok a -> P a) -> validate_items f l = Ok r -> Forall P r.
Proof.
  intros HP. revert r. induction l as [|v l IH]; simpl; intros r H.
  - injection H as <-. constructor.
  - inv_ap H. constructor; eauto.
Qed.

Lemma validate_list_Forall {A} (f : pyobj -> result A) (P : A -> Prop) v r :
  (forall v a, f v = Ok a -> P a) -> validate_list f v = Ok r -> Forall P r.
Proof. destruct v; try done. apply validate_items_Forall. Qed.

Lemma validate_list_map {A} (f : pyobj -> result A) (dump : A -> pyobj) (l : list A) :
  Forall (fun a => f (dump a) = Ok a) l -> validate_list f (VList (map dump l)) = Ok l.
Proof.
  simpl. induction 1 as [|a l Ha _ IH]; simpl; [done|]. by rewrite Ha, IH.
Qed.

(** ** Reading a dump back *)

Lemma dict_get_filter (p : string -> bool) k (d : pydict) :
  dict_get k (filter (fun kv => p kv.1) d) = if p k then dict_get k d else None.
Proof.
  induction d as [|[k' v] d IH]; simpl.
  - by destruct (p k).
  - rewrite filter_cons. destruct (decide _) as [Hd|Hd]; simpl in *.
    + destruct (String.eqb_spec k k') as [->|Hne]; [|done].
      by destruct (p k').
    + destruct (String.eqb_spec k k') as [->|Hne]; [|done].
      rewrite IH. by destruct (p k').
Qed.

Lemma dict_get_dump_fields k eu ex fs (all : pydict) :
  dict_get k (dump_fields eu ex fs all)
  = if dump_keeps eu ex fs k then dict_get k all else None.
Proof. unfold dump_fields. apply (dict_get_filter (dump_keeps eu ex fs)). Qed.

Lemma field_dump_fields {A} k fs (all : pydict) (validate : pyobj -> result A) default :
  field k (dump_fields true [] fs all) validate default
  = if bool_decide (k ∈ fs) then field k all validate default else default.
Proof.
  unfold field. rewrite dict_get_dump_fields. unfold dump_keeps. simpl.
  rewrite andb_true_r. by destruct (bool_decide (k ∈ fs)).
Qed.

Lemma str_in_elem_of s l : str_in s l = true <-> s ∈ l.
Proof.
  unfold str_in. rewrite existsb_exists. split.
  - intros (x & Hx & Heq). apply String.eqb_eq in Heq. subst. by apply list_elem_of_In.
  - intros H. exists s. split; [by apply list_elem_of_In | apply String.eqb_refl].
Qed.

Lemma contains_keys k (d : pydict) : contains k d = true <-> k ∈ keys d.
Proof.
  unfold contains, keys. induction d as [|[k' v] d IH]; simpl.
  - split; [done | intros H; inversion H].
  - destruct (String.eqb_spec k k') as [->|Hne].
    + split; [intros _; left | done].
    + rewrite IH. split; [by right | intros H; inversion H; subst; done].
Qed.

Lemma keys_filter_subseteq (p : string * pyobj -> bool) (d : pydict) :
  keys (filter p d) ⊆ keys d.
Proof.
  unfold keys. intros k Hk. apply list_elem_of_fmap in Hk as (kv & -> & Hin).
  apply list_elem_of_filter in Hin as [_ Hin]. apply list_elem_of_fmap. eauto.
Qed.

Lemma extra_forbidden_nil fields (d : pydict) :
  keys d ⊆ fields -> extra_forbidden fields d = [].
Proof.
  intros Hsub. unfold extra_forbidden.
  replace (filter (λ k : string, negb (str_in k fields)) (keys d)) with (@nil string); [done|].
  symmetry. induction (keys d) as [|k l IH]; [done|].
  rewrite filter_cons. rewrite decide_False.
  - apply IH. intros x Hx. apply Hsub. by right.
  - assert (str_in k fields = true) as ->; [|simpl; tauto].
    apply str_in_elem_of. apply Hsub. by left.
Qed.

Lemma extra_forbidden_dump fields eu ex fs (all : pydict) :
  keys all = fields -> extra_forbidden fields (dump_fields eu ex fs all) = [].
Proof.
  intros <-. apply extra_forbidden_nil. apply keys_filter_subseteq.
Qed.

Lemma elem_of_fields_set_of k fields (d : pydict) :
  k ∈ fields_set_of fields d <-> k ∈ fields /\ contains k d = true.
Proof.
  unfold fields_set_of. rewrite elem_of_list_to_set, list_elem_of_filter.
  destruct (contains k d); simpl; split; intros [H1 H2]; split; done.
Qed.

Lemma elem_of_fields_set_of_get k fields (d : pydict) :
  k ∈ fields -> k ∈ fields_set_of fields d <-> dict_get k d <> None.
Proof.
  intros Hk. rewrite elem_of_fields_set_of. unfold contains.
  destruct (dict_get k d); split; intros H; try done; try tauto.
  by destruct H.
Qed.

Lemma fields_set_of_subseteq fields (d : pydict) :
  fields_set_of fields d ⊆ list_to_set fields.
Proof.
  intros k. rewrite elem_of_fields_set_of, elem_of_list_to_set. tauto.
Qed.

Lemma fields_set_of_dump fields fs (all : pydict) :
  keys all = fields -> fs ⊆ list_to_set fields ->
  fields_set_of fields (dump_fields true [] fs all) = fs.
Proof.
  intros Hk Hsub. apply set_eq. intros k.
  rewrite elem_of_fields_set_of. unfold contains.
  rewrite dict_get_dump_fields. unfold dump_keeps. simpl. rewrite andb_true_r.
  split.
  - intros [_ H]. destruct (bool_decide (k ∈ fs)) eqn:E; [by apply bool_decide_eq_true in E | done].
  - intros Hin. assert (k ∈ fields) as Hf by (apply Hsub in Hin; by apply elem_of_list_to_set in Hin).
    split; [done|]. rewrite bool_decide_true by done.
    pose proof (proj2 (contains_keys k all)) as Hc. rewrite Hk in Hc. specialize (Hc Hf).
    unfold contains in Hc. destruct (dict_get k all); done.
Qed.

Lemma extra_forbidden_dump' {A} fields eu ex fs (all : pydict) (r : result A) :
  keys all = fields ->
  forbid_extra fields (dump_fields eu ex fs all) r
  = match r with Ok a => Ok a | Err es => Err (es ++ []) end.
Proof.
  intros H. unfold forbid_extra. rewrite extra_forbidden_dump by done. by destruct r.
Qed.

(** ** Scalars *)

Lemma check_greater_than_zero_Ok v a :
  check_greater_than_zero v = Ok a <-> a = v /\ 0 <= v.
Proof.
  unfold check_greater_than_zero. destruct (Z.ltb_spec v 0); split.
  - done.
  - lia.
  - intros [= <-]. lia.
  - by intros [-> _].
Qed.

Lemma validate_int_own env z : own_type_kept env -> validate_int env (VInt z) = Ok z.
Proof. intros [H _]. apply H. Qed.

Lemma validate_str_Ok v s : validate_str v = Ok s <-> v = VStr s.
Proof. destruct v; simpl; split; try done; by intros [= ->]. Qed.

Lemma validate_ComparisonType_value c :
  validate_ComparisonType (VStr (ComparisonType_value c)) = Ok c.
Proof. by destruct c. Qed.

Lemma validate_SigilPriority_value p :
  validate_SigilPriority (VStr (SigilPriority_value p)) = Ok p.
Proof. by destruct p. Qed.

Lemma validate_float_or_none_dump env v :
  own_type_kept env ->
  validate_float_or_none env (AffixAspectFilterModel.dump_value v) = Ok v.
Proof. intros [_ H]. destruct v as [q|]; [|done]. simpl. by rewrite H. Qed.

(** ** Affix and aspect rules *)

Module AffixAspectFilterModelFacts.

Import AffixAspectFilterModel.
Import AffixAspectFilterModelInv.

Lemma AffixAspectFilterModel_validate_fields_wf env nme d m :
  (forall s s', nme s = Ok s' -> s' = s) ->
  validate_fields env nme d = Ok m -> wf nme m.
Proof.
  intros Hn H. unfold validate_fields in H. cbv zeta in H.
  apply forbid_extra_Ok in H as [H _]. inv_ap H.
  apply field_Ok in E1 as [(vn & En & Hvn)|[_ ?]]; [|done].
  apply bind_Ok in Hvn as (s & _ & Hs). pose proof (Hn _ _ Hs); subst.
  unfold wf; simpl. split; [done|].
  split. { apply elem_of_fields_set_of_get; [in_list|]. by rewrite En. }
  split; [apply fields_set_of_subseteq|].
  split.
  - intros Hv. apply field_Ok in E0 as [(v & Ev & _)|[_ [= <-]]]; [|done].
    exfalso. apply Hv. apply elem_of_fields_set_of_get; [in_list|]. by rewrite Ev.
  - intros Hv. apply field_Ok in E as [(v & Ev & _)|[_ [= <-]]]; [|done].
    exfalso. apply Hv. apply elem_of_fields_set_of_get; [in_list|]. by rewrite Ev.
Qed.

Lemma AffixAspectFilterModel_validate_dump env nme m :
  own_type_kept env ->
  wf nme m -> validate env nme (model_dump true m) = Ok m.
Proof.
  intros Hown (Hn & Hname & Hsub & Hv & Hc).
  unfold validate, model_dump; simpl. unfold validate_fields.
  rewrite !field_dump_fields, extra_forbidden_dump', fields_set_of_dump by done.
  rewrite (bool_decide_true _ Hname).
  destruct m as [n v c fs]; simpl in *.
  unfold field; simpl.
  pose proof (validate_float_or_none_dump env v Hown) as Hfv.
  rewrite Hn. destruct v as [q|]; simpl in Hfv |- *.
  2:{ assert (validate_ComparisonType (VStr (ComparisonType_value c)) = Ok c) as Hcv
        by apply validate_ComparisonType_value.
      simpl in Hcv. rewrite Hcv.
      do 2 case_bool_decide; rewrite ?Hv, ?Hc by done; reflexivity. }
  rewrite (proj2 Hown q). cbn [bind].
  assert (validate_ComparisonType (VStr (ComparisonType_value c)) = Ok c) as Hcv
    by apply validate_ComparisonType_value.
  simpl in Hcv. rewrite Hcv.
  do 2 case_bool_decide; rewrite ?Hv, ?Hc by done; reflexivity.
Qed.

End AffixAspectFilterModelFacts.

Module AffixFilterModelFacts.

Import AffixAspectFilterModel.
Import AffixFilterModelInv.

Lemma AffixFilterModel_name_must_exist_Ok env s s' :
  AffixFilterModel.name_must_exist env s = Ok s' ->
  s' = s /\ in_dict s (affix_dict (dataloader env)) = true.
Proof.
  unfold AffixFilterModel.name_must_exist.
  destruct (in_dict s _); simpl; [by intros [= <-] | done].
Qed.

Lemma AffixFilterModel_validate_wf env data m : AffixFilterModel.validate env data = Ok m -> wf env m.
Proof.
  unfold AffixFilterModel.validate, validate. intros H.
  apply bind_Ok in H as (d & _ & H).
  eapply AffixAspectFilterModelFacts.AffixAspectFilterModel_validate_fields_wf; [|done].
  intros s s' Hs. by apply AffixFilterModel_name_must_exist_Ok in Hs as [-> _].
Qed.

Lemma AffixFilterModel_validate_dump env m :
  own_type_kept env ->
  wf env m -> AffixFilterModel.validate env (model_dump true m) = Ok m.
Proof. apply AffixAspectFilterModelFacts.AffixAspectFilterModel_validate_dump. Qed.

End AffixFilterModelFacts.

Module AspectUniqueFilterModelFacts.

Import AffixAspectFilterModel.
Import AspectUniqueFilterModelInv.

Lemma AspectUniqueFilterModel_name_must_exist_Ok env s s' :
  AspectUniqueFilterModel.name_must_exist env s = Ok s' ->
  s' = s /\ in_dict s (aspect_unique_dict (dataloader env)) = true.
Proof.
  unfold AspectUniqueFilterModel.name_must_exist.
  destruct (in_dict s _); simpl; [by intros [= <-] | done].
Qed.

Lemma AspectUniqueFilterModel_validate_wf env data m :
  AspectUniqueFilterModel.validate env data = Ok m -> wf env m.
Proof.
  unfold AspectUniqueFilterModel.validate, validate. intros H.
  apply bind_Ok in H as (d & _ & H).
  eapply AffixAspectFilterModelFacts.AffixAspectFilterModel_validate_fields_wf; [|done].
  intros s s' Hs. by apply AspectUniqueFilterModel_name_must_exist_Ok in Hs as [-> _].
Qed.

Lemma AspectUniqueFilterModel_validate_dump env m :
  own_type_kept env ->
  wf env m -> AspectUniqueFilterModel.validate env (model_dump true m) = Ok m.
Proof. apply AffixAspectFilterModelFacts.AffixAspectFilterModel_validate_dump. Qed.

End AspectUniqueFilterModelFacts.

(** ** Affix pools *)

(** A number field guarded by [check_greater_than_zero]. *)
Lemma count_field_Ok env (d : pydict) k dflt z :
  field k d (fun v => bind (validate_int env v) check_greater_than_zero) (Ok dflt) = Ok z ->
  match dict_get k d with
  | Some v => to_int env v = Ok z /\ 0 <= z
  | None => z = dflt
  end.
Proof.
  intros H. apply field_Ok in H as [(v & -> & H)|[-> H]].
  - apply bind_Ok in H as (a & Ha & Hc).
    apply check_greater_than_zero_Ok in Hc as [-> ?]. by subst.
  - by inversion H.
Qed.

Lemma check_greater_than_zero_nonneg z :
  0 <= z -> check_greater_than_zero z = Ok z.
Proof. intros H. by apply check_greater_than_zero_Ok. Qed.

Lemma count_field_dump env z :
  own_type_kept env ->
  0 <= z -> bind (validate_int env (VInt z)) check_greater_than_zero = Ok z.
Proof.
  intros Hown H. rewrite validate_int_own by done. simpl.
  unfold check_greater_than_zero. destruct (Z.ltb_spec z 0); [lia|done].
Qed.

Module AffixFilterCountModelFacts.

Import AffixFilterCountModel.
Import AffixFilterCountModelInv.

Lemma AffixFilterCountModel_validate_fields_ok env d m :
  validate_fields env d = Ok m -> fields_ok env d m.
Proof.
  unfold validate_fields. cbv zeta. intros H.
  apply forbid_extra_Ok in H as [H _]. inv_ap H.
  unfold fields_ok; simpl. split; [done|].
  apply count_field_Ok in E, E0, E1.
  apply field_Ok in E2 as [(v & Hg & Hv)|[Hg Hv]].
  - split; [|split; [by rewrite Hg|done]].
    eapply validate_list_Forall; [|done]. apply AffixFilterModelFacts.AffixFilterModel_validate_wf.
  - inversion Hv; subst. done.
Qed.

Lemma AffixFilterCountModel_fields_set_restore (fs : gset string) :
  "minCount" ∉ fs -> "maxCount" ∉ fs ->
  ({["maxCount"]} ∪ ({["minCount"]} ∪ fs)) ∖ {["minCount"]} ∖ {["maxCount"]} = fs.
Proof. intros H1 H2. apply set_eq. intros k. set_unfold. intuition congruence. Qed.

(** The outcome of the [mode="after"] validator. *)
Lemma AffixFilterCountModel_model_validator_Ok m0 m :
  model_validator m0 = Ok m ->
  count m = count m0
  /\ minGreaterAffixCount m = minGreaterAffixCount m0
  /\ model_fields_set m = model_fields_set m0
  /\ count m <> []
  /\ minCount m <= maxCount m
  /\ ("minCount" ∉ model_fields_set m0 -> "maxCount" ∉ model_fields_set m0 ->
      minCount m = Z.of_nat (length (count m0))
      /\ maxCount m = Z.of_nat (length (count m0)))
  /\ ("minCount" ∈ model_fields_set m0 \/ "maxCount" ∈ model_fields_set m0 ->
      minCount m = minCount m0 /\ maxCount m = maxCount m0).
Proof.
  destruct m0 as [c mx mn g fs]. unfold model_validator. simpl.
  destruct (bool_decide ("minCount" ∈ fs)) eqn:B1;
    destruct (bool_decide ("maxCount" ∈ fs)) eqn:B2; simpl;
    try apply bool_decide_eq_true in B1; try apply bool_decide_eq_false in B1;
    try apply bool_decide_eq_true in B2; try apply bool_decide_eq_false in B2.
  all: match goal with |- context [?a >? ?b] =>
         destruct (Z.gtb_spec a b) as [?|Hle]; [done|] end.
  all: destruct c as [|a c]; [done|]; simpl; intros [= <-];
    unfold fields_set_remove, set_maxCount, set_minCount; simpl;
    rewrite ?AffixFilterCountModel_fields_set_restore by done.
  all: repeat split; try done; try lia; tauto.
Qed.

Lemma AffixFilterCountModel_validate_wf env data m : validate env data = Ok m -> wf env m.
Proof.
  destruct data as [| | | | | |d]; try done. simpl. intros H.
  apply bind_Ok in H as (m0 & H0 & H).
  apply AffixFilterCountModel_validate_fields_ok in H0 as (Hfs & Hall & Hcount & Hmax & Hmin & Hg).
  apply AffixFilterCountModel_model_validator_Ok in H as (Hc & Hgm & Hfsm & Hne & Hle & Hinf & Hexp).
  assert (Hin : forall k, k ∈ fields ->
            k ∈ model_fields_set m <-> dict_get k d <> None).
  { intros k Hk. rewrite Hfsm, Hfs. by apply elem_of_fields_set_of_get. }
  pose proof (Hin "count" ltac:(in_list)) as Hic.
  pose proof (Hin "maxCount" ltac:(in_list)) as Himax.
  pose proof (Hin "minCount" ltac:(in_list)) as Himin.
  pose proof (Hin "minGreaterAffixCount" ltac:(in_list)) as Hig.
  clear Hin. rewrite <- Hfsm in Hinf, Hexp.
  unfold wf. rewrite Hc, Hgm in *.
  split; [done|]. split; [done|].
  split; [rewrite Hfsm, Hfs; apply fields_set_of_subseteq|].
  split. { apply Hic. intros E. by apply Hcount in E. }
  split; [done|].
  split. { intros Hi. destruct (Hexp (or_intror Hi)) as [_ ->].
           apply Himax in Hi. destruct (dict_get "maxCount" d); [tauto|done]. }
  split. { intros Hi. destruct (Hexp (or_introl Hi)) as [-> _].
           apply Himin in Hi. destruct (dict_get "minCount" d); [tauto|done]. }
  split. { intros Hi. apply Hig in Hi.
           destruct (dict_get "minGreaterAffixCount" d); [tauto|done]. }
  split. { intros Hi. destruct (dict_get "minGreaterAffixCount" d); [|done].
           exfalso. apply Hi, Hig. done. }
  split; [done|].
  split. { intros Hi Hni. destruct (Hexp (or_introl Hi)) as [_ ->].
           destruct (dict_get "maxCount" d); [|done]. exfalso. apply Hni, Himax. done. }
  intros Hni Hi. destruct (Hexp (or_intror Hi)) as [-> _].
  destruct (dict_get "minCount" d); [|done]. exfalso. apply Hni, Himin. done.
Qed.

Lemma AffixFilterCountModel_validate_dump env m :
  own_type_kept env -> wf env m -> validate env (model_dump true m) = Ok m.
Proof.
  intros Hown (Hall & Hne & Hsub & Hc & Hle & Hmx & Hmn & Hg & Hg0 & Hinf & Hmxd & Hmnd).
  unfold validate, model_dump, validate_fields.
  rewrite !field_dump_fields, extra_forbidden_dump', fields_set_of_dump by done.
  rewrite (bool_decide_true _ Hc).
  unfold field, count_validator; simpl dict_get. cbv iota beta.
  rewrite validate_list_map
    by (eapply Forall_impl; [done|];
        intros x Hx; by apply AffixFilterModelFacts.AffixFilterModel_validate_dump).
  rewrite !validate_int_own by done.
  destruct m as [c mx mn g fs]; simpl in *.
  destruct (bool_decide ("maxCount" ∈ fs)) eqn:B1;
    destruct (bool_decide ("minCount" ∈ fs)) eqn:B2;
    destruct (bool_decide ("minGreaterAffixCount" ∈ fs)) eqn:B3;
    try apply bool_decide_eq_true in B1; try apply bool_decide_eq_false in B1;
    try apply bool_decide_eq_true in B2; try apply bool_decide_eq_false in B2;
    try apply bool_decide_eq_true in B3; try apply bool_decide_eq_false in B3;
    rewrite ?check_greater_than_zero_nonneg by auto;
    try rewrite (Hg0 B3); unfold ap; cbn [bind];
    unfold model_validator; cbn [model_fields_set count minCount maxCount];
    rewrite ?(bool_decide_true _ B1), ?(bool_decide_true _ B2),
      ?(bool_decide_false _ B1), ?(bool_decide_false _ B2);
    cbn [negb andb];
    unfold fields_set_remove, set_maxCount, set_minCount;
    cbn [model_fields_set count minCount maxCount minGreaterAffixCount];
    rewrite ?AffixFilterCountModel_fields_set_restore by done.
  all: try (destruct (Hinf B2 B1) as [-> ->]).
  all: try (pose proof (Hmxd B2 B1); subst mx).
  all: try (pose proof (Hmnd B2 B1); subst mn).
  all: match goal with |- context [?a >? ?b] =>
         destruct (Z.gtb_spec a b) as [?|?]; [lia|] end.
  all: destruct c; [done|]; reflexivity.
Qed.

End AffixFilterCountModelFacts.

(** A field reads back from a dump when its value passes its validator if
    it was set, and is its default if it was not. *)
Lemma field_roundtrip {A} k (fs : gset string) (all : pydict) v
    (V : pyobj -> result A) dflt x :
  dict_get k all = Some v ->
  (k ∈ fs -> V v = Ok x) -> (k ∉ fs -> dflt = Ok x) ->
  field k (dump_fields true [] fs all) V dflt = Ok x.
Proof.
  intros Hget H1 H2. rewrite field_dump_fields. unfold field. rewrite Hget.
  case_bool_decide; auto.
Qed.

(** What a validated field says about the input. *)
Lemma field_set_or_default {A} fields k (d : pydict) (V : pyobj -> result A) dflt x
    (P : A -> Prop) :
  k ∈ fields ->
  field k d V (Ok dflt) = Ok x ->
  (forall v, V v = Ok x -> P x) ->
  (k ∈ fields_set_of fields d -> P x) /\ (k ∉ fields_set_of fields d -> x = dflt).
Proof.
  intros Hk H HP. rewrite (elem_of_fields_set_of_get _ _ _ Hk).
  apply field_Ok in H as [(v & -> & Hv)|[-> [= <-]]].
  - split; [eauto|]. intros Hn. by destruct Hn.
  - split; [done|auto].
Qed.

Lemma validate_ItemType_Ok env v s :
  validate_ItemType env v = Ok s -> v = VStr s /\ str_in s (ItemType env) = true.
Proof.
  destruct v; try done. simpl. destruct (str_in s0 (ItemType env)) eqn:E; [|done].
  by intros [= <-].
Qed.

Lemma validate_itemType_dump env l :
  Forall (fun s => str_in s (ItemType env) = true) l ->
  validate_list (validate_ItemType env) (_parse_item_type (VList (map VStr l))) = Ok l.
Proof.
  intros H. simpl. apply (validate_list_map (validate_ItemType env) VStr).
  eapply Forall_impl; [done|]. intros s Hs. simpl. by rewrite Hs.
Qed.

Lemma validate_itemType_Forall env v l :
  validate_list (validate_ItemType env) (_parse_item_type v) = Ok l ->
  Forall (fun s => str_in s (ItemType env) = true) l.
Proof.
  apply validate_list_Forall. intros v' a Ha. by apply validate_ItemType_Ok in Ha as [_ ?].
Qed.

Module ItemFilterModelFacts.

Import ItemFilterModel.
Import ItemFilterModelInv.

Lemma ItemFilterModel_min_greater_affix_in_range_Ok v a :
  min_greater_affix_in_range v = Ok a <-> a = v /\ 0 <= v <= 3.
Proof.
  unfold min_greater_affix_in_range.
  destruct (Z.leb_spec 0 v), (Z.leb_spec v 3); simpl; split;
    try done; try (intros [= <-]; lia); try lia; by intros [-> _].
Qed.

Lemma ItemFilterModel_validate_wf env data m : validate env data = Ok m -> wf env m.
Proof.
  destruct data as [| | | | | |d]; try done. simpl.
  unfold validate_fields. cbv zeta. intros H.
  apply forbid_extra_Ok in H as [H _]. inv_ap H. unfold wf; simpl.
  split; [apply fields_set_of_subseteq|].
  eapply (field_set_or_default fields _ _ _ _ _
            (Forall (AffixFilterCountModelInv.wf env))) in E3 as [E3 E3'];
    [|in_list|intros v; apply validate_list_Forall, AffixFilterCountModelFacts.AffixFilterCountModel_validate_wf].
  eapply (field_set_or_default fields _ _ _ _ _
            (Forall (AffixFilterCountModelInv.wf env))) in E2 as [E2 E2'];
    [|in_list|intros v; apply validate_list_Forall, AffixFilterCountModelFacts.AffixFilterCountModel_validate_wf].
  eapply (field_set_or_default fields _ _ _ _ _
            (Forall (fun s => str_in s (ItemType env) = true))) in E1 as [E1 E1'];
    [|in_list|intros v; apply validate_itemType_Forall].
  eapply (field_set_or_default fields _ _ _ _ _
            (fun g => 0 <= g <= 3)) in E0 as [E0 E0'];
    [|in_list|intros v Hv; apply bind_Ok in Hv as (z & _ & Hz);
               by apply ItemFilterModel_min_greater_affix_in_range_Ok in Hz as [-> ?]].
  eapply (field_set_or_default fields _ _ _ _ _
            (fun p => 0 <= p)) in E as [E E'];
    [|in_list|intros v Hv; apply bind_Ok in Hv as (z & _ & Hz);
               by apply check_greater_than_zero_Ok in Hz as [-> ?]].
  repeat split; try done.
  - destruct (decide ("affixPool" ∈ fields_set_of fields d)); [auto|].
    rewrite E3' by done. constructor.
  - destruct (decide ("inherentPool" ∈ fields_set_of fields d)); [auto|].
    rewrite E2' by done. constructor.
  - destruct (decide ("itemType" ∈ fields_set_of fields d)); [auto|].
    rewrite E1' by done. constructor.
  - by apply E0.
  - by apply E0.
Qed.

Lemma ItemFilterModel_validate_dump env m :
  own_type_kept env -> wf env m -> validate env (model_dump true m) = Ok m.
Proof.
  intros Hown (Hsub & Hap & Hip & Hty & Hap0 & Hip0 & Hty0 & Hg & Hg0 & Hp & Hp0).
  unfold validate, model_dump, validate_fields. cbv zeta.
  rewrite extra_forbidden_dump', fields_set_of_dump by done.
  erewrite (field_roundtrip "affixPool" _ _ _ _ _ (affixPool m)); [|reflexivity| |by intros ?; rewrite Hap0].
  2:{ intros _. apply validate_list_map. eapply Forall_impl; [done|].
      intros ? ?. by apply AffixFilterCountModelFacts.AffixFilterCountModel_validate_dump. }
  erewrite (field_roundtrip "inherentPool" _ _ _ _ _ (inherentPool m)); [|reflexivity| |by intros ?; rewrite Hip0].
  2:{ intros _. apply validate_list_map. eapply Forall_impl; [done|].
      intros ? ?. by apply AffixFilterCountModelFacts.AffixFilterCountModel_validate_dump. }
  erewrite (field_roundtrip "itemType" _ _ _ _ _ (itemType m)); [|reflexivity| |by intros ?; rewrite Hty0].
  2:{ intros _. by apply validate_itemType_dump. }
  erewrite (field_roundtrip "minGreaterAffixCount" _ _ _ _ _ (minGreaterAffixCount m));
    [|reflexivity| |by intros ?; rewrite Hg0].
  2:{ intros Hi. rewrite validate_int_own by done. simpl. by apply ItemFilterModel_min_greater_affix_in_range_Ok; split; [|apply Hg]. }
  erewrite (field_roundtrip "minPower" _ _ _ _ _ (minPower m)); [|reflexivity| |by intros ?; rewrite Hp0].
  2:{ intros Hi. rewrite validate_int_own by done. simpl. by apply check_greater_than_zero_Ok; split; [|apply Hp]. }
  by destruct m.
Qed.

End ItemFilterModelFacts.

Module DynamicItemFilterModelFacts.

Import DynamicItemFilterModel.
Import DynamicItemFilterModelInv.

Lemma DynamicItemFilterModel_validate_wf env data m : validate env data = Ok m -> wf env m.
Proof.
  destruct data as [| | | | | |d]; try done. simpl. revert m.
  induction d as [|[k v] d IH]; simpl; intros m H.
  - injection H as <-. constructor.
  - inv_ap H. constructor; [|by apply IH].
    simpl. by eapply ItemFilterModelFacts.ItemFilterModel_validate_wf.
Qed.

Lemma DynamicItemFilterModel_validate_dump env m :
  own_type_kept env -> wf env m -> validate env (model_dump true m) = Ok m.
Proof.
  intros Hown. unfold wf, validate, model_dump.
  induction 1 as [|[k a] m Ha _ IH]; [done|].
  cbn [map validate_entries fst snd] in *.
  rewrite ItemFilterModelFacts.ItemFilterModel_validate_dump by done. by rewrite IH.
Qed.

End DynamicItemFilterModelFacts.

(** ** Sigil rules *)

Module SigilConditionModelFacts.

Import SigilConditionModel.
Import SigilConditionModelInv.

Lemma SigilConditionModel_unknown_names_empty env (l : list string) :
  is_empty (filter (fun name => negb (in_dict name (affix_sigil_dict (dataloader env)))) l)
  = true <-> Forall (known env) l.
Proof.
  unfold known. induction l as [|n l IH]; [done|].
  rewrite filter_cons. destruct (decide _) as [Hd|Hd].
  - split; [done|]. intros H. inversion H as [|? ? Hn]; subst.
    rewrite Hn in Hd. done.
  - rewrite IH. split; [|by inversion 1].
    intros H. constructor; [|done]. by destruct (in_dict n _).
Qed.

Lemma SigilConditionModel_name_must_exist_Ok {A} env (as_names : A -> list string) x y :
  name_must_exist env as_names x = Ok y <-> y = x /\ Forall (known env) (as_names x).
Proof.
  unfold name_must_exist. rewrite <- SigilConditionModel_unknown_names_empty.
  destruct (is_empty _); simpl; split; try done.
  - by intros [= <-].
  - by intros [-> _].
  - by intros [_ ?].
Qed.

Lemma SigilConditionModel_validate_wf env data m : validate env data = Ok m -> wf env m.
Proof.
  unfold validate. intros H. apply bind_Ok in H as (d & _ & H).
  unfold validate_fields in H. cbv zeta in H.
  apply forbid_extra_Ok in H as [H _]. inv_ap H. unfold wf; simpl.
  split; [apply fields_set_of_subseteq|].
  apply field_Ok in E0 as [(vn & En & Hvn)|[_ ?]]; [|done].
  apply bind_Ok in Hvn as (s & _ & Hs).
  apply SigilConditionModel_name_must_exist_Ok in Hs as [-> Hs]. inversion Hs; subst.
  split. { apply elem_of_fields_set_of_get; [in_list|]. by rewrite En. }
  split; [done|].
  eapply (field_set_or_default fields _ _ _ _ _ (Forall (known env)))
    in E as [E E']; [|in_list|].
  - split; [|done].
    destruct (decide ("condition" ∈ fields_set_of fields d)); [auto|].
    rewrite E' by done. constructor.
  - intros v Hv. apply bind_Ok in Hv as (l & _ & Hl).
    by apply SigilConditionModel_name_must_exist_Ok in Hl as [-> ?].
Qed.

Lemma SigilConditionModel_validate_str_items l : validate_list validate_str (VList (map VStr l)) = Ok l.
Proof. apply validate_list_map. by apply Forall_forall. Qed.

Lemma SigilConditionModel_validate_dump env m :
  own_type_kept env -> wf env m -> validate env (model_dump true m) = Ok m.
Proof.
  intros Hown (Hsub & Hn & Hk & Hc & Hc0).
  unfold validate, model_dump. cbn [parse_data bind].
  unfold validate_fields. cbv zeta.
  rewrite extra_forbidden_dump', fields_set_of_dump by done.
  erewrite (field_roundtrip "name" _ _ _ _ _ (name m)); [|reflexivity| |done].
  2:{ intros _. simpl. apply SigilConditionModel_name_must_exist_Ok. split; [done|]. by constructor. }
  erewrite (field_roundtrip "condition" _ _ _ _ _ (condition m));
    [|reflexivity| |by intros ?; rewrite Hc0].
  2:{ intros _. rewrite SigilConditionModel_validate_str_items. simpl. by apply SigilConditionModel_name_must_exist_Ok. }
  by destruct m.
Qed.

End SigilConditionModelFacts.

Module SigilFilterModelFacts.

Import SigilFilterModel.
Import SigilFilterModelInv.

Lemma SigilFilterModel_min_max_tier_in_range_Ok v a :
  min_max_tier_in_range v = Ok a <-> a = v /\ 0 <= v <= 100.
Proof.
  unfold min_max_tier_in_range.
  destruct (Z.leb_spec 0 v), (Z.leb_spec v 100); simpl; split;
    try done; try (intros [= <-]; lia); try lia; by intros [-> _].
Qed.

Lemma SigilFilterModel_data_integrity_Ok m m' :
  data_integrity m = Ok m' ->
  m' = m
  /\ (forall x y, x ∈ blacklist m -> y ∈ whitelist m ->
        SigilConditionModel.eqb x y = false)
  /\ minTier m <= maxTier m.
Proof.
  unfold data_integrity.
  destruct (filter _ (blacklist m)) as [|e es] eqn:Ef; simpl; [|done].
  destruct (Z.gtb_spec (minTier m) (maxTier m)); [done|]. intros [= <-].
  split; [done|]. split; [|done].
  intros x y Hx Hy. destruct (SigilConditionModel.eqb x y) eqn:E; [|done].
  exfalso. assert (x ∈ filter (fun item => existsb (SigilConditionModel.eqb item)
                                 (whitelist m)) (blacklist m)) as Hin.
  { apply list_elem_of_filter. split; [|done].
    apply Is_true_true, existsb_exists. exists y. split; [|done].
    by apply list_elem_of_In. }
  rewrite Ef in Hin. inversion Hin.
Qed.

Lemma SigilFilterModel_validate_wf env data m : validate env data = Ok m -> wf env m.
Proof.
  destruct data as [| | | | | |d]; try done. simpl. intros H.
  apply bind_Ok in H as (m0 & H & Hdi).
  pose proof (SigilFilterModel_data_integrity_Ok _ _ Hdi) as (-> & _).
  unfold validate_fields in H. cbv zeta in H.
  apply forbid_extra_Ok in H as [H _]. inv_ap H. unfold wf; simpl.
  split; [apply fields_set_of_subseteq|].
  eapply (field_set_or_default fields _ _ _ _ _
            (Forall (SigilConditionModelInv.wf env))) in E3 as [E3 E3'];
    [|in_list|intros v; apply validate_list_Forall, SigilConditionModelFacts.SigilConditionModel_validate_wf].
  eapply (field_set_or_default fields _ _ _ _ _
            (Forall (SigilConditionModelInv.wf env))) in E as [E E'];
    [|in_list|intros v; apply validate_list_Forall, SigilConditionModelFacts.SigilConditionModel_validate_wf].
  eapply (field_set_or_default fields _ _ _ _ _ (fun g => 0 <= g <= 100))
    in E2 as [E2 E2'];
    [|in_list|intros v Hv; apply bind_Ok in Hv as (z & _ & Hz);
               by apply SigilFilterModel_min_max_tier_in_range_Ok in Hz as [-> ?]].
  eapply (field_set_or_default fields _ _ _ _ _ (fun g => 0 <= g <= 100))
    in E1 as [E1 E1'];
    [|in_list|intros v Hv; apply bind_Ok in Hv as (z & _ & Hz);
               by apply SigilFilterModel_min_max_tier_in_range_Ok in Hz as [-> ?]].
  eapply (field_set_or_default fields _ _ _ _ _ (fun _ => True))
    in E0 as [_ E0']; [|in_list|done].
  repeat split; try done.
  - destruct (decide ("blacklist" ∈ fields_set_of fields d)); [auto|].
    rewrite E3' by done. constructor.
  - destruct (decide ("whitelist" ∈ fields_set_of fields d)); [auto|].
    rewrite E' by done. constructor.
  - by apply E2.
  - by apply E2.
  - by apply E1.
  - by apply E1.
Qed.

Lemma SigilFilterModel_validate_dump env m :
  own_type_kept env -> wf env m -> validate env (model_dump true m) = Ok m.
Proof.
  intros Hown (Hsub & Hb & Hw & Hb0 & Hw0 & Hmx & Hmx0 & Hmn & Hmn0 & Hp0 & Hdi).
  unfold validate, model_dump, validate_fields. cbv zeta.
  rewrite extra_forbidden_dump', fields_set_of_dump by done.
  erewrite (field_roundtrip "blacklist" _ _ _ _ _ (blacklist m));
    [|reflexivity| |by intros ?; rewrite Hb0].
  2:{ intros _. apply validate_list_map. eapply Forall_impl; [done|].
      intros ? ?. by apply SigilConditionModelFacts.SigilConditionModel_validate_dump. }
  erewrite (field_roundtrip "maxTier" _ _ _ _ _ (maxTier m));
    [|reflexivity| |by intros ?; rewrite Hmx0].
  2:{ intros Hi. rewrite validate_int_own by done. simpl. by apply SigilFilterModel_min_max_tier_in_range_Ok; split; [|apply Hmx]. }
  erewrite (field_roundtrip "minTier" _ _ _ _ _ (minTier m));
    [|reflexivity| |by intros ?; rewrite Hmn0].
  2:{ intros Hi. rewrite validate_int_own by done. simpl. by apply SigilFilterModel_min_max_tier_in_range_Ok; split; [|apply Hmn]. }
  erewrite (field_roundtrip "priority" _ _ _ _ _ (priority m));
    [|reflexivity| |by intros ?; rewrite Hp0].
  2:{ intros _. apply validate_SigilPriority_value. }
  erewrite (field_roundtrip "whitelist" _ _ _ _ _ (whitelist m));
    [|reflexivity| |by intros ?; rewrite Hw0].
  2:{ intros _. apply validate_list_map. eapply Forall_impl; [done|].
      intros ? ?. by apply SigilConditionModelFacts.SigilConditionModel_validate_dump. }
  unfold ap. cbn [bind]. by destruct m.
Qed.

End SigilFilterModelFacts.

(** ** Unique rules *)

Module UniqueModelFacts.

Import UniqueModel.
Import UniqueModelInv.

Lemma UniqueModel_validate_wf env data m : validate env data = Ok m -> wf env m.
Proof.
  destruct data as [| | | | | |d]; try done. simpl.
  unfold validate_fields. cbv zeta. intros H.
  apply forbid_extra_Ok in H as [H _]. inv_ap H. unfold wf; simpl.
  split; [apply fields_set_of_subseteq|].
  eapply (field_set_or_default fields _ _ _ _ _
            (Forall (AffixFilterModelInv.wf env))) in E3 as [E3 E3'];
    [|in_list|intros v; apply validate_list_Forall, AffixFilterModelFacts.AffixFilterModel_validate_wf].
  eapply (field_set_or_default fields _ _ _ _ _
            (fun o => exists a, o = Some a /\ AspectUniqueFilterModelInv.wf env a))
    in E2 as [E2 E2'];
    [|in_list|intros v Hv; apply bind_Ok in Hv as (asp & Ha & [= <-]);
               eauto using AspectUniqueFilterModelFacts.AspectUniqueFilterModel_validate_wf].
  eapply (field_set_or_default fields _ _ _ _ _
            (Forall (fun s => str_in s (ItemType env) = true))) in E1 as [E1 E1'];
    [|in_list|intros v; apply validate_itemType_Forall].
  eapply (field_set_or_default fields _ _ _ _ _
            (fun g => 0 <= g)) in E0 as [E0 E0'];
    [|in_list|intros v Hv; apply bind_Ok in Hv as (z & _ & Hz);
               by apply check_greater_than_zero_Ok in Hz as [-> ?]].
  eapply (field_set_or_default fields _ _ _ _ _
            (fun p => 0 <= p)) in E as [E E'];
    [|in_list|intros v Hv; apply bind_Ok in Hv as (z & _ & Hz);
               by apply check_greater_than_zero_Ok in Hz as [-> ?]].
  repeat split; try done.
  - destruct (decide ("affix" ∈ fields_set_of fields d)); [auto|].
    rewrite E3' by done. constructor.
  - destruct (decide ("itemType" ∈ fields_set_of fields d)); [auto|].
    rewrite E1' by done. constructor.
Qed.

Lemma UniqueModel_validate_dump env m :
  own_type_kept env -> wf env m -> validate env (model_dump true m) = Ok m.
Proof.
  intros Hown (Hsub & Haf & Has & Hty & Haf0 & Has0 & Hty0 & Hg & Hg0 & Hp & Hp0).
  unfold validate, model_dump, validate_fields. cbv zeta.
  rewrite extra_forbidden_dump', fields_set_of_dump by done.
  erewrite (field_roundtrip "affix" _ _ _ _ _ (affix m));
    [|reflexivity| |by intros ?; rewrite Haf0].
  2:{ intros _. apply validate_list_map. eapply Forall_impl; [done|].
      intros ? ?. by apply AffixFilterModelFacts.AffixFilterModel_validate_dump. }
  erewrite (field_roundtrip "aspect" _ _ _ _ _ (aspect m));
    [|reflexivity| |by intros ?; rewrite Has0].
  2:{ intros Hi. destruct (Has Hi) as (a & -> & Ha). cbn [dump_aspect].
      by rewrite AspectUniqueFilterModelFacts.AspectUniqueFilterModel_validate_dump. }
  erewrite (field_roundtrip "itemType" _ _ _ _ _ (itemType m));
    [|reflexivity| |by intros ?; rewrite Hty0].
  2:{ intros _. by apply validate_itemType_dump. }
  erewrite (field_roundtrip "minGreaterAffixCount" _ _ _ _ _ (minGreaterAffixCount m));
    [|reflexivity| |by intros ?; rewrite Hg0].
  2:{ intros Hi. rewrite validate_int_own by done. simpl. by apply check_greater_than_zero_Ok; split; [|apply Hg]. }
  erewrite (field_roundtrip "minPower" _ _ _ _ _ (minPower m));
    [|reflexivity| |by intros ?; rewrite Hp0].
  2:{ intros Hi. rewrite validate_int_own by done. simpl. by apply check_greater_than_zero_Ok; split; [|apply Hp]. }
  by destruct m.
Qed.

End UniqueModelFacts.

(** ** Profiles *)

Module ProfileModelFacts.

Import ProfileModel.
Import ProfileModelInv.

Lemma ProfileModel_validate_Sigils_Ok env v o :
  validate_Sigils env v = Ok o -> forall s, o = Some s -> SigilFilterModelInv.wf env s.
Proof.
  intros H s ->. unfold validate_Sigils in H.
  destruct v; try done.
  apply bind_Ok in H as (s' & Hs & [= <-]).
  by apply SigilFilterModelFacts.SigilFilterModel_validate_wf in Hs.
Qed.

Lemma ProfileModel_validate_Sigils_dump env o :
  own_type_kept env ->
  (forall s, o = Some s -> SigilFilterModelInv.wf env s) ->
  validate_Sigils env (dump_Sigils true o) = Ok o.
Proof.
  intros Hown H. destruct o as [s|]; [|done]. cbn [dump_Sigils].
  assert (Hs := SigilFilterModelFacts.SigilFilterModel_validate_dump env s Hown (H s eq_refl)).
  unfold SigilFilterModel.model_dump in *. unfold validate_Sigils. by rewrite Hs.
Qed.

Lemma ProfileModel_validate_wf env data m : validate env data = Ok m -> wf env m.
Proof.
  destruct data as [| | | | | |d]; try done. simpl.
  unfold validate_fields. cbv zeta. intros H.
  apply forbid_extra_Ok in H as [H _]. inv_ap H. unfold wf; simpl.
  split; [apply fields_set_of_subseteq|].
  apply field_Ok in E2 as [(vn & En & Hvn)|[_ ?]]; [|done].
  split. { apply elem_of_fields_set_of_get; [in_list|]. by rewrite En. }
  eapply (field_set_or_default fields _ _ _ _ _
            (Forall (DynamicItemFilterModelInv.wf env))) in E1 as [E1 E1'];
    [|in_list|intros v; apply validate_list_Forall, DynamicItemFilterModelFacts.DynamicItemFilterModel_validate_wf].
  eapply (field_set_or_default fields _ _ _ _ _
            (fun o => forall s, o = Some s -> SigilFilterModelInv.wf env s))
    in E0 as [E0 E0']; [|in_list|intros v; apply ProfileModel_validate_Sigils_Ok].
  eapply (field_set_or_default fields _ _ _ _ _
            (Forall (UniqueModelInv.wf env))) in E as [E E'];
    [|in_list|intros v; apply validate_list_Forall, UniqueModelFacts.UniqueModel_validate_wf].
  split.
  { destruct (decide ("Affixes" ∈ fields_set_of fields d)); [auto|].
    rewrite E1' by done. constructor. }
  split.
  { intros s Hs'. destruct (decide ("Sigils" ∈ fields_set_of fields d)) as [Hi|Hi];
      [by apply (E0 Hi)|]. by rewrite (E0' Hi) in Hs'. }
  split; [|done].
  destruct (decide ("Uniques" ∈ fields_set_of fields d)); [auto|].
  rewrite E' by done. constructor.
Qed.

Lemma ProfileModel_validate_dump env m :
  own_type_kept env -> wf env m -> validate env (model_dump true [] m) = Ok m.
Proof.
  intros Hown (Hsub & Hn & Ha & Hs & Hu & Ha0 & Hs0 & Hu0).
  unfold validate, model_dump, validate_fields. cbv zeta.
  rewrite extra_forbidden_dump', fields_set_of_dump by done.
  erewrite (field_roundtrip "name" _ _ _ _ _ (name m)); [|reflexivity|done|done].
  erewrite (field_roundtrip "Affixes" _ _ _ _ _ (Affixes m));
    [|reflexivity| |by intros ?; rewrite Ha0].
  2:{ intros _. apply validate_list_map. eapply Forall_impl; [done|].
      intros ? ?. by apply DynamicItemFilterModelFacts.DynamicItemFilterModel_validate_dump. }
  erewrite (field_roundtrip "Sigils" _ _ _ _ _ (Sigils m));
    [|reflexivity| |by intros ?; rewrite Hs0].
  2:{ intros _. by apply ProfileModel_validate_Sigils_dump. }
  erewrite (field_roundtrip "Uniques" _ _ _ _ _ (Uniques m));
    [|reflexivity| |by intros ?; rewrite Hu0].
  2:{ intros _. apply validate_list_map. eapply Forall_impl; [done|].
      intros ? ?. by apply UniqueModelFacts.UniqueModel_validate_dump. }
  by destruct m.
Qed.

End ProfileModelFacts.

(** ** Facts on text *)

Lemma string_app_cons c s t : String c s +:+ t = String c (s +:+ t).
Proof. reflexivity. Qed.

Lemma string_app_nil_l t : "" +:+ t = t.
Proof. reflexivity. Qed.

Lemma string_app_nil_r s : s +:+ "" = s.
Proof. induction s as [|c s IH]; [done|]. by rewrite string_app_cons, IH. Qed.

Lemma string_app_assoc s t u : (s +:+ t) +:+ u = s +:+ (t +:+ u).
Proof. induction s as [|c s IH]; [done|]. by rewrite !string_app_cons, IH. Qed.

Lemma string_length_app s t :
  String.length (s +:+ t) = (String.length s + String.length t)%nat.
Proof. induction s as [|c s IH]; [done|]. rewrite string_app_cons. simpl. by rewrite IH. Qed.

Lemma prefix_spec n s : String.prefix n s = true <-> exists post, s = n +:+ post.
Proof.
  revert n. induction s as [|c s IH]; intros [|a n]; simpl.
  - split; [by exists ""|done].
  - split; [done|]. by intros (post & ?).
  - split; [by exists (String c s)|done].
  - destruct (Ascii.ascii_dec a c) as [->|Hne].
    + rewrite IH. split.
      * intros (post & ->). by exists post.
      * intros (post & H). rewrite string_app_cons in H. injection H as ->. by exists post.
    + split; [done|]. intros (post & H). rewrite string_app_cons in H. by injection H as ? ?.
Qed.

Lemma substring_in_spec n s :
  substring_in n s = true <-> exists pre post, s = pre +:+ n +:+ post.
Proof.
  induction s as [|c s IH].
  - cbn [substring_in]. rewrite orb_false_r, prefix_spec. split.
    + intros (post & H). by exists "", post.
    + intros ([|a pre] & post & H); [by exists post|done].
  - cbn [substring_in]. rewrite orb_true_iff, prefix_spec, IH. split.
    + intros [(post & H)|(pre & post & ->)].
      * by exists "", post.
      * by exists (String c pre), post.
    + intros ([|a pre] & post & H).
      * left. by exists post.
      * right. rewrite string_app_cons in H. injection H as -> ->. by exists pre, post.
Qed.

Lemma substring_in_trans a b s :
  substring_in a b = true -> substring_in b s = true -> substring_in a s = true.
Proof.
  rewrite !substring_in_spec. intros (p1 & q1 & ->) (p2 & q2 & ->).
  exists (p2 +:+ p1), (q1 +:+ q2). by rewrite !string_app_assoc.
Qed.

Lemma substring_in_false_trans a b s :
  substring_in a b = true -> substring_in a s = false -> substring_in b s = false.
Proof.
  intros Hab Ha. destruct (substring_in b s) eqn:Hb; [|done].
  by rewrite (substring_in_trans a b s) in Ha.
Qed.

Lemma map_chars_app f s t : map_chars f (s +:+ t) = map_chars f s +:+ map_chars f t.
Proof. induction s as [|c s IH]; [done|]. rewrite !string_app_cons. simpl. by rewrite IH. Qed.

Lemma filter_chars_app p s t :
  filter_chars p (s +:+ t) = filter_chars p s +:+ filter_chars p t.
Proof.
  induction s as [|c s IH]; [done|]. rewrite string_app_cons. simpl.
  destruct (p c); by rewrite ?string_app_cons, IH.
Qed.

Lemma all_chars_app p s t : all_chars p (s +:+ t) = all_chars p s && all_chars p t.
Proof.
  induction s as [|c s IH]; [done|]. rewrite string_app_cons. simpl.
  by rewrite IH, andb_assoc.
Qed.

Lemma all_chars_filter p s : all_chars p (filter_chars p s) = true.
Proof.
  induction s as [|c s IH]; [done|]. simpl. destruct (p c) eqn:E; [|done].
  simpl. by rewrite E.
Qed.

Lemma filter_chars_all p s : all_chars p s = true -> filter_chars p s = s.
Proof.
  induction s as [|c s IH]; [done|]. simpl. intros [Hc Hs]%andb_true_iff.
  by rewrite Hc, IH.
Qed.

Lemma filter_chars_length p s : (String.length (filter_chars p s) <= String.length s)%nat.
Proof. induction s as [|c s IH]; [done|]. simpl. destruct (p c); simpl; lia. Qed.

(** ** Collected errors *)

Lemma errors_of_ap {A B} (rf : result (A -> B)) (ra : result A) :
  errors_of (rf <*> ra) = errors_of rf ++ errors_of ra.
Proof. by destruct rf, ra. Qed.

Lemma errors_of_forbid_extra {A} fields d (r : result A) :
  errors_of (forbid_extra fields d r) = errors_of r ++ extra_forbidden fields d.
Proof. unfold forbid_extra. destruct r; [|done]. by destruct (extra_forbidden fields d). Qed.

Lemma errors_of_bind_l {A B} (r : result A) (f : A -> result B) e :
  e ∈ errors_of r -> e ∈ errors_of (bind r f).
Proof. destruct r; [by inversion 1|done]. Qed.

(** A result with an error is a failure that carries it. *)
Lemma failed_with {A} (r : result A) e :
  e ∈ errors_of r -> exists es, r = Err es /\ e ∈ es.
Proof. destruct r; [by inversion 1|eauto]. Qed.

Lemma not_ok_failed {A} (r : result A) :
  (forall a, r <> Ok a) -> is_ok r = false.
Proof. destruct r; [intros H; by destruct (H a)|done]. Qed.

Lemma example_env_own_type : own_type_kept example_env.
Proof. split; intros ?; reflexivity. Qed.

(** * The claims *)

Lemma contains_false k (d : pydict) : contains k d = false <-> dict_get k d = None.
Proof. unfold contains. by destruct (dict_get k d). Qed.

Lemma contains_true k (d : pydict) : contains k d = true <-> dict_get k d <> None.
Proof. unfold contains. by destruct (dict_get k d). Qed.

Lemma contains_dump_unset k fs (all : pydict) :
  k ∉ fs -> contains k (dump_fields true [] fs all) = false.
Proof.
  intros H. apply contains_false. rewrite dict_get_dump_fields.
  unfold dump_keeps. simpl. by rewrite bool_decide_false.
Qed.

(** C1.  An affix pool that validates and whose document gives neither
    [minCount] nor [maxCount] has both bounds equal to the length of its rule
    list, neither bound is in the set of explicitly given fields, and an
    unset-excluding dump leaves both out. *)
Theorem inferred_bounds (env : Env) (d : pydict) (m : AffixFilterCountModel.t) :
  AffixFilterCountModel.validate env (VDict d) = Ok m ->
  contains "minCount" d = false ->
  contains "maxCount" d = false ->
  AffixFilterCountModel.minCount m
    = Z.of_nat (length (AffixFilterCountModel.count m))
  /\ AffixFilterCountModel.maxCount m
     = Z.of_nat (length (AffixFilterCountModel.count m))
  /\ ("minCount" ∉ AffixFilterCountModel.model_fields_set m)
  /\ ("maxCount" ∉ AffixFilterCountModel.model_fields_set m)
  /\ forall d', AffixFilterCountModel.model_dump true m = VDict d' ->
       contains "minCount" d' = false /\ contains "maxCount" d' = false.
Proof.
  intros H Hmin Hmax. simpl in H.
  apply bind_Ok in H as (m0 & H0 & H).
  apply AffixFilterCountModelFacts.AffixFilterCountModel_validate_fields_ok in H0 as (Hfs & _).
  apply AffixFilterCountModelFacts.AffixFilterCountModel_model_validator_Ok
    in H as (Hc & _ & Hfsm & _ & _ & Hinf & _).
  apply contains_false in Hmin, Hmax.
  assert (Hn1 : "minCount" ∉ AffixFilterCountModel.model_fields_set m0).
  { rewrite Hfs, elem_of_fields_set_of_get by in_list.
    rewrite Hmin. intros Hx. by apply Hx. }
  assert (Hn2 : "maxCount" ∉ AffixFilterCountModel.model_fields_set m0).
  { rewrite Hfs, elem_of_fields_set_of_get by in_list.
    rewrite Hmax. intros Hx. by apply Hx. }
  destruct (Hinf Hn1 Hn2) as [-> ->]. rewrite Hc, Hfsm.
  do 4 (split; [done|]).
  intros d' [= <-]. rewrite Hfsm. split; by apply contains_dump_unset.
Qed.

Lemma inferred_bounds_witness :
  exists m,
    AffixFilterCountModel.validate example_env pool_quoted_value = Ok m
    /\ AffixFilterCountModel.minCount m = 1
    /\ AffixFilterCountModel.maxCount m = 1.
Proof.
  eexists. split; [vm_compute; reflexivity|].
  destruct (inferred_bounds example_env _ _
              (eq_refl : AffixFilterCountModel.validate example_env pool_quoted_value
                         = Ok _)
              eq_refl eq_refl) as (H1 & H2 & _).
  split; [exact H1 | exact H2].
Defined.

(** C9.  When exactly one of [minCount] and [maxCount] is given, nothing is
    inferred from the rule list: the bound that was given is the value of
    the document, as pydantic converts it to an int, a missing [maxCount]
    stays [sys.maxsize] and a missing [minCount] stays 0. *)
Theorem one_bound_keeps_default (env : Env) (d : pydict)
    (m : AffixFilterCountModel.t) :
  AffixFilterCountModel.validate env (VDict d) = Ok m ->
  (contains "minCount" d = true -> contains "maxCount" d = false ->
     AffixFilterCountModel.maxCount m = sys_maxsize
     /\ exists v, dict_get "minCount" d = Some v
                   /\ to_int env v = Ok (AffixFilterCountModel.minCount m))
  /\ (contains "minCount" d = false -> contains "maxCount" d = true ->
        AffixFilterCountModel.minCount m = 0
        /\ exists v, dict_get "maxCount" d = Some v
                      /\ to_int env v = Ok (AffixFilterCountModel.maxCount m)).
Proof.
  intros H. simpl in H.
  apply bind_Ok in H as (m0 & H0 & H).
  apply AffixFilterCountModelFacts.AffixFilterCountModel_validate_fields_ok
    in H0 as (Hfs & _ & _ & Hmx & Hmn & _).
  apply AffixFilterCountModelFacts.AffixFilterCountModel_model_validator_Ok
    in H as (_ & _ & _ & _ & _ & _ & Hexp).
  rewrite Hfs in Hexp.
  rewrite !elem_of_fields_set_of_get in Hexp by in_list.
  split; intros H1 H2.
  - apply contains_true in H1. apply contains_false in H2.
    destruct (Hexp (or_introl H1)) as [-> ->]. rewrite H2 in Hmx.
    destruct (dict_get "minCount" d) as [v|]; [|done]. split; [done|].
    exists v. by destruct Hmn as [-> _].
  - apply contains_false in H1. apply contains_true in H2.
    destruct (Hexp (or_intror H2)) as [-> ->]. rewrite H1 in Hmn.
    destruct (dict_get "maxCount" d) as [v|]; [|done]. split; [done|].
    exists v. by destruct Hmx as [-> _].
Qed.

Lemma one_bound_keeps_default_witness :
  (exists m,
     AffixFilterCountModel.validate example_env pool_min_only = Ok m
     /\ length (AffixFilterCountModel.count m) = 3%nat
     /\ AffixFilterCountModel.minCount m = 1
     /\ AffixFilterCountModel.maxCount m = 2 ^ 63 - 1)
  /\ (exists m,
        AffixFilterCountModel.validate example_env pool_quoted_numbers = Ok m
        /\ AffixFilterCountModel.minCount m = 1
        /\ AffixFilterCountModel.maxCount m = 2 ^ 63 - 1).
Proof.
  split.
  - eexists. split; [vm_compute; reflexivity|].
    destruct (one_bound_keeps_default example_env _ _
                (eq_refl : AffixFilterCountModel.validate example_env pool_min_only
                           = Ok _))
      as [H _].
    destruct (H eq_refl eq_refl) as [Hmax _].
    split; [reflexivity|]. split; [reflexivity|]. exact Hmax.
  - eexists. split; [vm_compute; reflexivity|].
    destruct (one_bound_keeps_default example_env _ _
                (eq_refl : AffixFilterCountModel.validate example_env pool_quoted_numbers
                           = Ok _))
      as [H _].
    destruct (H eq_refl eq_refl) as [Hmax _].
    split; [reflexivity|]. exact Hmax.
Defined.

(** C7.  A pool whose rule list is empty, left out or given as the empty
    list, is rejected, also when its bounds were inferred to 0; no validated
    pool has an empty rule list. *)
Theorem empty_pool_rejected (env : Env) (d : pydict) :
  dict_get "count" d = None \/ dict_get "count" d = Some (VList []) ->
  is_ok (AffixFilterCountModel.validate env (VDict d)) = false
  /\ (forall data m, AffixFilterCountModel.validate env data = Ok m ->
        AffixFilterCountModel.count m <> []).
Proof.
  intros Hd. split.
  - apply not_ok_failed. intros m H. simpl in H.
    apply bind_Ok in H as (m0 & H0 & H).
    apply AffixFilterCountModelFacts.AffixFilterCountModel_model_validator_Ok in H as (Hc & _ & _ & Hne & _).
    apply Hne. rewrite Hc. clear Hne Hc.
    unfold AffixFilterCountModel.validate_fields in H0. cbv zeta in H0.
    apply forbid_extra_Ok in H0 as [H0 _]. inv_ap H0. simpl.
    apply field_Ok in E2 as [(v & Hv & Hl)|[_ [= <-]]]; [|done].
    destruct Hd as [Hd|Hd]; rewrite Hd in Hv; [done|].
    injection Hv as <-. simpl in Hl. by injection Hl as <-.
  - intros data m H. by apply AffixFilterCountModelFacts.AffixFilterCountModel_validate_wf in H as (_ & ? & _).
Qed.

Lemma empty_pool_rejected_witness :
  AffixFilterCountModel.validate example_env (VDict [("count", VList [])])
  = Err [ValueError [Lit "count must not be empty"]]
  /\ is_ok (AffixFilterCountModel.validate example_env (VDict [("count", VList [])]))
     = false.
Proof.
  split; [vm_compute; reflexivity|].
  exact (proj1 (empty_pool_rejected example_env [("count", VList [])]
                  (or_intror eq_refl))).
Defined.

(** C3 as stated fails: the sigil rule of scenario C leaves [maxTier] out and
    validates with [maxTier = sys.maxsize], far above 100. *)
Lemma sigil_default_maxTier_above_100 :
  exists m,
    SigilFilterModel.validate example_env sigil_scenario_C = Ok m
    /\ ~ (0 <= SigilFilterModel.minTier m
          /\ SigilFilterModel.minTier m <= SigilFilterModel.maxTier m
          /\ SigilFilterModel.maxTier m <= 100).
Proof.
  eexists. split; [vm_compute; reflexivity|].
  cbn [SigilFilterModel.maxTier SigilFilterModel.minTier]. lia.
Qed.

(** C3, amended.  A sigil rule that validates has [0 <= minTier <= 100] and
    [minTier <= maxTier]; a [maxTier] given in the document is at most 100,
    one left out is [sys.maxsize]. *)
Theorem sigil_tiers (env : Env) (d : pydict) (m : SigilFilterModel.t) :
  SigilFilterModel.validate env (VDict d) = Ok m ->
  0 <= SigilFilterModel.minTier m <= 100
  /\ SigilFilterModel.minTier m <= SigilFilterModel.maxTier m
  /\ (contains "maxTier" d = true -> SigilFilterModel.maxTier m <= 100)
  /\ (contains "maxTier" d = false -> SigilFilterModel.maxTier m = sys_maxsize)
  /\ (contains "minTier" d = false -> SigilFilterModel.minTier m = 0).
Proof.
  intros H.
  pose proof (SigilFilterModelFacts.SigilFilterModel_validate_wf _ _ _ H)
    as (_ & _ & _ & _ & _ & Hmx & Hmx0 & Hmn & Hmn0 & _ & Hdi).
  apply SigilFilterModelFacts.SigilFilterModel_data_integrity_Ok in Hdi as (_ & _ & Hle).
  simpl in H. apply bind_Ok in H as (m0 & H0 & H).
  apply SigilFilterModelFacts.SigilFilterModel_data_integrity_Ok in H as (-> & _).
  assert (Hfs : SigilFilterModel.model_fields_set m0
                = fields_set_of SigilFilterModel.fields d).
  { unfold SigilFilterModel.validate_fields in H0. cbv zeta in H0.
    apply forbid_extra_Ok in H0 as [H0 _]. by inv_ap H0. }
  rewrite Hfs in *.
  rewrite !elem_of_fields_set_of_get in * by in_list.
  split.
  { destruct (dict_get "minTier" d) eqn:E.
    - by apply Hmn.
    - rewrite Hmn0; [lia|]. intros Hx. by apply Hx. }
  split; [done|].
  split. { intros Hc. apply contains_true in Hc. by apply Hmx. }
  split.
  - intros Hc. apply contains_false in Hc. apply Hmx0. rewrite Hc.
    intros Hx. by apply Hx.
  - intros Hc. apply contains_false in Hc. apply Hmn0. rewrite Hc.
    intros Hx. by apply Hx.
Qed.

Lemma sigil_tiers_witness :
  exists m,
    SigilFilterModel.validate example_env sigil_quoted_tiers = Ok m
    /\ SigilFilterModel.minTier m = 50
    /\ SigilFilterModel.maxTier m <= 100.
Proof.
  eexists. split; [vm_compute; reflexivity|].
  destruct (sigil_tiers example_env _ _
              (eq_refl : SigilFilterModel.validate example_env sigil_quoted_tiers = Ok _))
    as (_ & _ & H & _).
  split; [reflexivity|]. exact (H eq_refl).
Defined.

(** C8.  A sigil rule that validates has no blacklist entry equal to a
    whitelist entry; a rule with such an entry fails in [data_integrity],
    with the overlapping entries in the message. *)
Theorem blacklist_whitelist_disjoint (env : Env) (data : pyobj)
    (m : SigilFilterModel.t) :
  SigilFilterModel.validate env data = Ok m ->
  (forall x y, x ∈ SigilFilterModel.blacklist m -> y ∈ SigilFilterModel.whitelist m ->
     SigilConditionModel.eqb x y = false /\ x <> y)
  /\ (forall m0 x y,
        x ∈ SigilFilterModel.blacklist m0 -> y ∈ SigilFilterModel.whitelist m0 ->
        SigilConditionModel.eqb x y = true ->
        exists overlap,
          SigilFilterModel.data_integrity m0
          = Err [ValueError [Lit "blacklist and whitelist must not overlap: ";
                             FmtConditions overlap]]
          /\ SigilConditionModel.repr x ∈ overlap).
Proof.
  intros H. split.
  - apply SigilFilterModelFacts.SigilFilterModel_validate_wf in H
      as (_ & _ & _ & _ & _ & _ & _ & _ & _ & _ & Hdi).
    apply SigilFilterModelFacts.SigilFilterModel_data_integrity_Ok in Hdi as (_ & Hd & _).
    intros x y Hx Hy. split; [by apply Hd|]. intros ->.
    specialize (Hd y y Hx Hy). unfold SigilConditionModel.eqb in Hd.
    by rewrite !bool_decide_true in Hd.
  - clear. intros m0 x y Hx Hy He. unfold SigilFilterModel.data_integrity.
    set (errors := filter _ (SigilFilterModel.blacklist m0)).
    assert (x ∈ errors) as Hin.
    { apply list_elem_of_filter. split; [|done].
      apply Is_true_true, existsb_exists. exists y. split; [|done].
      by apply list_elem_of_In. }
    exists (map SigilConditionModel.repr errors). split.
    + destruct errors; [inversion Hin|done].
    + apply list_elem_of_fmap. eauto.
Qed.

Lemma blacklist_whitelist_disjoint_witness :
  exists m,
    SigilFilterModel.validate example_env sigil_lists_disjoint = Ok m
    /\ (forall x y, x ∈ SigilFilterModel.blacklist m ->
          y ∈ SigilFilterModel.whitelist m -> x <> y)
    /\ is_ok (SigilFilterModel.validate example_env sigil_lists_overlap) = false.
Proof.
  eexists. split; [vm_compute; reflexivity|]. split.
  - intros x y Hx Hy.
    exact (proj2 (proj1 (blacklist_whitelist_disjoint example_env sigil_lists_disjoint _
                           (eq_refl : SigilFilterModel.validate example_env
                                        sigil_lists_disjoint = Ok _))
                    x y Hx Hy)).
  - vm_compute. reflexivity.
Defined.

(** An error of a supplied field is an error of the whole model. *)
Lemma field_error {A} k (d : pydict) (V : pyobj -> result A) dflt v e :
  dict_get k d = Some v -> e ∈ errors_of (V v) -> e ∈ errors_of (field k d V dflt).
Proof. unfold field. by intros ->. Qed.



(** C5.  Shorthand: a bare string parses as the one-element list of it; a
    list of one to three values gives name, value and comparison by position
    (affix and aspect rules), a non-empty list gives the name and the list of
    conditions (sigil conditions); the empty list, a list of more than three
    values (affix and aspect rules) and anything that is neither a string, a
    list nor a mapping fail. *)
Theorem shorthand_normalization (env : Env) (nme : string -> result string)
    (s : string) (a b c : pyobj) (rest long : list pyobj) (other : pyobj) :
  (3 < length long)%nat ->
  rest <> [] ->
  is_str_list_or_dict other = false ->
  AffixAspectFilterModel.validate env nme (VStr s)
    = AffixAspectFilterModel.validate env nme (VList [VStr s])
  /\ SigilConditionModel.validate env (VStr s)
     = SigilConditionModel.validate env (VList [VStr s])
  /\ AffixAspectFilterModel.parse_data (VList [a]) = Ok [("name", a)]
  /\ AffixAspectFilterModel.parse_data (VList [a; b])
     = Ok [("name", a); ("value", b)]
  /\ AffixAspectFilterModel.parse_data (VList [a; b; c])
     = Ok [("name", a); ("value", b); ("comparison", c)]
  /\ SigilConditionModel.parse_data (VList [a]) = Ok [("name", a)]
  /\ SigilConditionModel.parse_data (VList (a :: rest))
     = Ok [("name", a); ("condition", VList rest)]
  /\ AffixAspectFilterModel.validate env nme (VList [])
     = Err [ValueError [Lit "list, cannot be empty or larger than 3 items"]]
  /\ AffixAspectFilterModel.validate env nme (VList long)
     = Err [ValueError [Lit "list, cannot be empty or larger than 3 items"]]
  /\ SigilConditionModel.validate env (VList [])
     = Err [ValueError [Lit "list cannot be empty"]]
  /\ AffixAspectFilterModel.validate env nme other
     = Err [ValueError [Lit "must be str or list"]]
  /\ SigilConditionModel.validate env other
     = Err [ValueError [Lit "must be str or list"]].
Proof.
  intros Hlong Hrest Hother.
  split; [reflexivity|]. split; [reflexivity|]. split; [reflexivity|].
  split; [reflexivity|]. split; [reflexivity|]. split; [reflexivity|].
  split.
  { destruct rest as [|r rest]; [done|].
    unfold SigilConditionModel.parse_data. cbn [is_empty].
    assert ((1 <=? Z.of_nat (length (a :: r :: rest))) = true) as ->
      by (apply Z.leb_le; simpl; lia).
    assert ((2 <=? Z.of_nat (length (a :: r :: rest))) = true) as ->
      by (apply Z.leb_le; simpl; lia).
    reflexivity. }
  split; [reflexivity|]. split.
  { unfold AffixAspectFilterModel.validate, AffixAspectFilterModel.parse_data.
    replace (3 <? Z.of_nat (length long)) with true
      by (symmetry; apply Z.ltb_lt; lia).
    by rewrite orb_true_r. }
  split; [reflexivity|].
  destruct other; try done.
Qed.

Lemma shorthand_normalization_witness :
  AffixFilterModel.validate example_env
    (VList [VStr "maximum_life"; VInt 700; VStr "smaller"; VStr "extra"])
  = Err [ValueError [Lit "list, cannot be empty or larger than 3 items"]]
  /\ SigilConditionModel.parse_data
       (VList [VStr "cellars"; VStr "death_pulse"; VStr "armor_breakers"])
     = Ok [("name", VStr "cellars");
           ("condition", VList [VStr "death_pulse"; VStr "armor_breakers"])]
  /\ SigilConditionModel.validate example_env (VInt 3)
     = Err [ValueError [Lit "must be str or list"]].
Proof.
  pose proof (shorthand_normalization example_env
                (AffixFilterModel.name_must_exist example_env) "maximum_life"
                (VStr "cellars") VNone VNone
                [VStr "death_pulse"; VStr "armor_breakers"]
                [VStr "maximum_life"; VInt 700; VStr "smaller"; VStr "extra"]
                (VInt 3)
                ltac:(simpl; lia) ltac:(discriminate) eq_refl)
    as (_ & _ & _ & _ & _ & _ & H7 & _ & H9 & _ & _ & H12).
  split; [exact H9|]. split; [exact H7 | exact H12].
Defined.

(** C10.  An affix or aspect rule written without a comparison, as a bare
    string, a list of one or two values or a mapping without the key
    [comparison], has the comparison [larger]. *)
Theorem default_comparison_larger (env : Env) (nme : string -> result string)
    (data : pyobj) (m : AffixAspectFilterModel.t) :
  AffixAspectFilterModel.validate env nme data = Ok m ->
  no_explicit_comparison data = true ->
  AffixAspectFilterModel.comparison m = larger.
Proof.
  unfold AffixAspectFilterModel.validate. intros H Hno.
  apply bind_Ok in H as (d & Hd & H).
  assert (dict_get "comparison" d = None) as Hget.
  { destruct data as [| | | |s|l|d0]; try done; simpl in Hd, Hno.
    - by injection Hd as <-.
    - destruct l as [|x [|y [|z l]]]; try done; simpl in Hd; by injection Hd as <-.
    - injection Hd as <-. apply contains_false. by destruct (contains _ _). }
  unfold AffixAspectFilterModel.validate_fields in H. cbv zeta in H.
  apply forbid_extra_Ok in H as [H _]. inv_ap H. simpl.
  apply field_Ok in E as [(v & Hv & _)|[_ [= <-]]]; [congruence|done].
Qed.

Lemma default_comparison_larger_witness :
  exists m,
    AffixFilterModel.validate example_env (VList [VStr "maximum_life"; VStr "700"]) = Ok m
    /\ AffixAspectFilterModel.value m = Some (inject_Z 700)
    /\ AffixAspectFilterModel.comparison m = larger.
Proof.
  eexists. split; [vm_compute; reflexivity|]. split; [reflexivity|].
  exact (default_comparison_larger example_env
           (AffixFilterModel.name_must_exist example_env)
           (VList [VStr "maximum_life"; VStr "700"]) _
           (eq_refl : AffixFilterModel.validate example_env
                        (VList [VStr "maximum_life"; VStr "700"]) = Ok _)
           eq_refl).
Defined.

Lemma elem_of_unknown_sigil_names env names n :
  n ∈ unknown_sigil_names env names
  <-> n ∈ names /\ in_dict n (affix_sigil_dict (dataloader env)) = false.
Proof.
  unfold unknown_sigil_names. rewrite list_elem_of_filter.
  destruct (in_dict n _); simpl; split; intros [? ?]; split; done.
Qed.

Lemma sigil_name_must_exist_Err {A} env (as_names : A -> list string) x n :
  n ∈ as_names x -> in_dict n (affix_sigil_dict (dataloader env)) = false ->
  SigilConditionModel.name_must_exist env as_names x
  = Err [ValueError [Lit "The following affixes/dungeons do not exist: ";
                     FmtStrList (unknown_sigil_names env (as_names x))]].
Proof.
  intros Hn Hd. unfold SigilConditionModel.name_must_exist.
  fold (unknown_sigil_names env (as_names x)).
  assert (n ∈ unknown_sigil_names env (as_names x)) as Hin
    by by apply elem_of_unknown_sigil_names.
  destruct (unknown_sigil_names env (as_names x)); [inversion Hin|done].
Qed.

(** C6.  A rule whose name is not in its catalog dictionary fails validation
    and the error names it: the affix or aspect name in "affix ... does not
    exist", the unknown sigil names, all of them, in "The following
    affixes/dungeons do not exist: ..."; a name that is in the dictionary
    passes the name check unchanged. *)
Theorem unknown_name_rejected (env : Env) (n : string) :
  (forall data d,
     AffixAspectFilterModel.parse_data data = Ok d ->
     dict_get "name" d = Some (VStr n) ->
     in_dict n (affix_dict (dataloader env)) = false ->
     exists es, AffixFilterModel.validate env data = Err es
                /\ ValueError [Lit "affix "; FmtStr n; Lit " does not exist"] ∈ es)
  /\ (forall data d,
        AffixAspectFilterModel.parse_data data = Ok d ->
        dict_get "name" d = Some (VStr n) ->
        in_dict n (aspect_unique_dict (dataloader env)) = false ->
        exists es, AspectUniqueFilterModel.validate env data = Err es
                   /\ ValueError [Lit "affix "; FmtStr n; Lit " does not exist"] ∈ es)
  /\ (forall data d,
        SigilConditionModel.parse_data data = Ok d ->
        dict_get "name" d = Some (VStr n) ->
        in_dict n (affix_sigil_dict (dataloader env)) = false ->
        exists es, SigilConditionModel.validate env data = Err es
                   /\ ValueError [Lit "The following affixes/dungeons do not exist: ";
                                  FmtStrList [n]] ∈ es)
  /\ (forall data d l,
        SigilConditionModel.parse_data data = Ok d ->
        dict_get "condition" d = Some (VList (map VStr l)) ->
        n ∈ l ->
        in_dict n (affix_sigil_dict (dataloader env)) = false ->
        exists es, SigilConditionModel.validate env data = Err es
                   /\ ValueError [Lit "The following affixes/dungeons do not exist: ";
                                  FmtStrList (unknown_sigil_names env l)] ∈ es
                   /\ n ∈ unknown_sigil_names env l)
  /\ (in_dict n (affix_dict (dataloader env)) = true ->
      AffixFilterModel.name_must_exist env n = Ok n)
  /\ (in_dict n (aspect_unique_dict (dataloader env)) = true ->
      AspectUniqueFilterModel.name_must_exist env n = Ok n)
  /\ (in_dict n (affix_sigil_dict (dataloader env)) = true ->
      SigilConditionModel.name_must_exist env (fun s => [s]) n = Ok n).
Proof.
  split.
  { intros data d Hd Hn Hin. apply failed_with.
    unfold AffixFilterModel.validate, AffixAspectFilterModel.validate.
    rewrite Hd. cbn [bind]. unfold AffixAspectFilterModel.validate_fields. cbv zeta.
    rewrite errors_of_forbid_extra, !errors_of_ap.
    apply elem_of_app; left. apply elem_of_app; left. apply elem_of_app; left.
    apply elem_of_app; right.
    eapply field_error; [done|]. cbn [validate_str bind].
    unfold AffixFilterModel.name_must_exist. rewrite Hin. by left. }
  split.
  { intros data d Hd Hn Hin. apply failed_with.
    unfold AspectUniqueFilterModel.validate, AffixAspectFilterModel.validate.
    rewrite Hd. cbn [bind]. unfold AffixAspectFilterModel.validate_fields. cbv zeta.
    rewrite errors_of_forbid_extra, !errors_of_ap.
    apply elem_of_app; left. apply elem_of_app; left. apply elem_of_app; left.
    apply elem_of_app; right.
    eapply field_error; [done|]. cbn [validate_str bind].
    unfold AspectUniqueFilterModel.name_must_exist. rewrite Hin. by left. }
  split.
  { intros data d Hd Hn Hin. apply failed_with.
    unfold SigilConditionModel.validate.
    rewrite Hd. cbn [bind]. unfold SigilConditionModel.validate_fields. cbv zeta.
    rewrite errors_of_forbid_extra, !errors_of_ap.
    apply elem_of_app; left. apply elem_of_app; left. apply elem_of_app; right.
    eapply field_error; [done|]. cbn [validate_str bind].
    rewrite (sigil_name_must_exist_Err env (fun s => [s]) n n); [|by left|done].
    unfold unknown_sigil_names. rewrite filter_cons, decide_True by by rewrite Hin.
    by left. }
  split.
  { intros data d l Hd Hc Hl Hin.
    assert (n ∈ unknown_sigil_names env l) as Hu
      by by apply elem_of_unknown_sigil_names.
    cut (ValueError [Lit "The following affixes/dungeons do not exist: ";
                     FmtStrList (unknown_sigil_names env l)]
         ∈ errors_of (SigilConditionModel.validate env data)).
    { intros He. apply failed_with in He as (es & ? & ?). eauto. }
    unfold SigilConditionModel.validate.
    rewrite Hd. cbn [bind]. unfold SigilConditionModel.validate_fields. cbv zeta.
    rewrite errors_of_forbid_extra, !errors_of_ap.
    apply elem_of_app; left. apply elem_of_app; right.
    eapply field_error; [done|].
    rewrite SigilConditionModelFacts.SigilConditionModel_validate_str_items. cbn [bind].
    rewrite (sigil_name_must_exist_Err env (fun l => l) l n) by done. by left. }
  split.
  { intros Hin. unfold AffixFilterModel.name_must_exist. by rewrite Hin. }
  split.
  { intros Hin. unfold AspectUniqueFilterModel.name_must_exist. by rewrite Hin. }
  intros Hin. apply SigilConditionModelFacts.SigilConditionModel_name_must_exist_Ok.
  split; [done|]. by constructor.
Qed.

Lemma unknown_name_rejected_witness :
  (exists es,
     AffixFilterModel.validate example_env (VList [VStr "maximum_mana"; VInt 5]) = Err es
     /\ ValueError [Lit "affix "; FmtStr "maximum_mana"; Lit " does not exist"] ∈ es)
  /\ (exists es,
        SigilConditionModel.validate example_env
          (VList [VStr "cellars"; VStr "maximum_mana"; VStr "death_pulse"]) = Err es
        /\ ValueError [Lit "The following affixes/dungeons do not exist: ";
                       FmtStrList ["maximum_mana"]] ∈ es).
Proof.
  destruct (unknown_name_rejected example_env "maximum_mana") as (H1 & _ & _ & H4 & _).
  split.
  - exact (H1 (VList [VStr "maximum_mana"; VInt 5]) _ eq_refl eq_refl eq_refl).
  - destruct (H4 (VList [VStr "cellars"; VStr "maximum_mana"; VStr "death_pulse"])
                _ ["maximum_mana"; "death_pulse"] eq_refl eq_refl
                ltac:(by left) eq_refl) as (es & He & Hin & _).
    exists es. split; [exact He|exact Hin].
Defined.

(** C2.  A profile document that validates is read back as the same model,
    the rule tree and the set of given fields, from the dump of the model
    without the fields that were not set.  The numbers of the dump are ints
    and floats, which pydantic takes as they are. *)
Theorem profile_round_trip (env : Env) (doc : pyobj) (m : ProfileModel.t) :
  own_type_kept env ->
  ProfileModel.validate env doc = Ok m ->
  ProfileModel.validate env (ProfileModel.model_dump true [] m) = Ok m.
Proof.
  intros Hown H. apply ProfileModelFacts.ProfileModel_validate_wf in H.
  by apply ProfileModelFacts.ProfileModel_validate_dump.
Qed.

Lemma profile_round_trip_witness :
  exists m,
    ProfileModel.validate example_env profile_quoted_numbers = Ok m
    /\ ProfileModel.validate example_env (ProfileModel.model_dump true [] m) = Ok m.
Proof.
  eexists. split; [vm_compute; reflexivity|].
  exact (profile_round_trip example_env profile_quoted_numbers _
           example_env_own_type ltac:(vm_compute; reflexivity)).
Defined.

(** ** More on the filter models *)

(** X1.  An affix pool that validates has [minCount <= maxCount] and at
    least one rule. *)
Theorem pool_bounds_ordered (env : Env) (data : pyobj) (m : AffixFilterCountModel.t) :
  AffixFilterCountModel.validate env data = Ok m ->
  AffixFilterCountModel.minCount m <= AffixFilterCountModel.maxCount m
  /\ AffixFilterCountModel.count m <> [].
Proof.
  intros H. apply AffixFilterCountModelFacts.AffixFilterCountModel_validate_wf in H.
  destruct H as (_ & Hne & _ & _ & Hle & _). done.
Qed.

Lemma pool_bounds_ordered_witness :
  exists m,
    AffixFilterCountModel.validate example_env pool_quoted_numbers = Ok m
    /\ AffixFilterCountModel.minCount m <= AffixFilterCountModel.maxCount m.
Proof.
  eexists. split; [vm_compute; reflexivity|].
  exact (proj1 (pool_bounds_ordered example_env pool_quoted_numbers _
                  ltac:(vm_compute; reflexivity))).
Defined.

(** X2.  An affix pool that validates is read back unchanged from its
    unset-excluding dump: bounds that were inferred are left out of the dump
    and inferred again.  The numbers of a dump are ints and floats, which
    pydantic takes as they are. *)
Theorem pool_round_trip (env : Env) (data : pyobj) (m : AffixFilterCountModel.t) :
  own_type_kept env ->
  AffixFilterCountModel.validate env data = Ok m ->
  AffixFilterCountModel.validate env (AffixFilterCountModel.model_dump true m) = Ok m.
Proof.
  intros Hown H. apply AffixFilterCountModelFacts.AffixFilterCountModel_validate_wf in H.
  by apply AffixFilterCountModelFacts.AffixFilterCountModel_validate_dump.
Qed.

Lemma pool_round_trip_witness :
  exists m,
    AffixFilterCountModel.validate example_env pool_quoted_value = Ok m
    /\ AffixFilterCountModel.validate example_env
         (AffixFilterCountModel.model_dump true m) = Ok m.
Proof.
  eexists. split; [vm_compute; reflexivity|].
  exact (pool_round_trip example_env pool_quoted_value _ example_env_own_type
           ltac:(vm_compute; reflexivity)).
Defined.

(** X3.  An item rule that validates is read back unchanged from its
    unset-excluding dump. *)
Theorem item_filter_round_trip (env : Env) (data : pyobj) (m : ItemFilterModel.t) :
  own_type_kept env ->
  ItemFilterModel.validate env data = Ok m ->
  ItemFilterModel.validate env (ItemFilterModel.model_dump true m) = Ok m.
Proof.
  intros Hown H. apply ItemFilterModelFacts.ItemFilterModel_validate_wf in H.
  by apply ItemFilterModelFacts.ItemFilterModel_validate_dump.
Qed.

Lemma item_filter_round_trip_witness :
  exists m,
    ItemFilterModel.validate example_env helm_rule = Ok m
    /\ ItemFilterModel.validate example_env (ItemFilterModel.model_dump true m) = Ok m.
Proof.
  eexists. split; [vm_compute; reflexivity|].
  exact (item_filter_round_trip example_env helm_rule _ example_env_own_type
           ltac:(vm_compute; reflexivity)).
Defined.

(** X4.  A sigil rule that validates is read back unchanged from its
    unset-excluding dump. *)
Theorem sigil_round_trip (env : Env) (data : pyobj) (m : SigilFilterModel.t) :
  own_type_kept env ->
  SigilFilterModel.validate env data = Ok m ->
  SigilFilterModel.validate env (SigilFilterModel.model_dump true m) = Ok m.
Proof.
  intros Hown H. apply SigilFilterModelFacts.SigilFilterModel_validate_wf in H.
  by apply SigilFilterModelFacts.SigilFilterModel_validate_dump.
Qed.

Lemma sigil_round_trip_witness :
  exists m,
    SigilFilterModel.validate example_env sigil_quoted_tiers = Ok m
    /\ SigilFilterModel.validate example_env (SigilFilterModel.model_dump true m) = Ok m.
Proof.
  eexists. split; [vm_compute; reflexivity|].
  exact (sigil_round_trip example_env sigil_quoted_tiers _ example_env_own_type
           ltac:(vm_compute; reflexivity)).
Defined.

(** X5.  A unique rule that validates is read back unchanged from its
    unset-excluding dump. *)
Theorem unique_round_trip (env : Env) (data : pyobj) (m : UniqueModel.t) :
  own_type_kept env ->
  UniqueModel.validate env data = Ok m ->
  UniqueModel.validate env (UniqueModel.model_dump true m) = Ok m.
Proof.
  intros Hown H. apply UniqueModelFacts.UniqueModel_validate_wf in H.
  by apply UniqueModelFacts.UniqueModel_validate_dump.
Qed.

Lemma unique_round_trip_witness :
  exists m,
    UniqueModel.validate example_env unique_quoted_numbers = Ok m
    /\ UniqueModel.validate example_env (UniqueModel.model_dump true m) = Ok m.
Proof.
  eexists. split; [vm_compute; reflexivity|].
  exact (unique_round_trip example_env unique_quoted_numbers _ example_env_own_type
           ltac:(vm_compute; reflexivity)).
Defined.

Lemma extra_key_error {A} fields (d : pydict) (r : result A) k :
  k ∈ keys d -> str_in k fields = false ->
  exists es, forbid_extra fields d r = Err es /\ ExtraForbidden k ∈ es.
Proof.
  intros Hk Hf. apply failed_with. rewrite errors_of_forbid_extra.
  apply elem_of_app; right. unfold extra_forbidden.
  apply list_elem_of_fmap. exists k. split; [done|].
  apply list_elem_of_filter. split; [|done]. by rewrite Hf.
Qed.

(** X6.  [extra="forbid"]: a mapping with a key that is not a field of the
    model fails validation, and the error names the key.  This holds for the
    profile, the item rule, the affix pool, the sigil rule and the unique
    rule. *)
Theorem unknown_key_rejected (env : Env) (d : pydict) (k : string) :
  k ∈ keys d ->
  (str_in k ProfileModel.fields = false ->
     exists es, ProfileModel.validate env (VDict d) = Err es /\ ExtraForbidden k ∈ es)
  /\ (str_in k ItemFilterModel.fields = false ->
        exists es, ItemFilterModel.validate env (VDict d) = Err es
                   /\ ExtraForbidden k ∈ es)
  /\ (str_in k AffixFilterCountModel.fields = false ->
        exists es, AffixFilterCountModel.validate env (VDict d) = Err es
                   /\ ExtraForbidden k ∈ es)
  /\ (str_in k SigilFilterModel.fields = false ->
        exists es, SigilFilterModel.validate env (VDict d) = Err es
                   /\ ExtraForbidden k ∈ es)
  /\ (str_in k UniqueModel.fields = false ->
        exists es, UniqueModel.validate env (VDict d) = Err es
                   /\ ExtraForbidden k ∈ es).
Proof.
  intros Hk. repeat split; intros Hf.
  - by apply extra_key_error.
  - by apply extra_key_error.
  - cbn [AffixFilterCountModel.validate].
    unfold AffixFilterCountModel.validate_fields. cbv zeta.
    edestruct (extra_key_error (A:=AffixFilterCountModel.t)) as (es & -> & Hes); [done..|].
    by exists es.
  - cbn [SigilFilterModel.validate].
    unfold SigilFilterModel.validate_fields. cbv zeta.
    edestruct (extra_key_error (A:=SigilFilterModel.t)) as (es & -> & Hes); [done..|].
    by exists es.
  - by apply extra_key_error.
Qed.

Lemma unknown_key_rejected_witness :
  exists es,
    ItemFilterModel.validate example_env
      (VDict [("itemType", VStr "helm"); ("minpower", VInt 800)]) = Err es
    /\ ExtraForbidden "minpower" ∈ es.
Proof.
  refine (proj1 (proj2 (unknown_key_rejected example_env
           [("itemType", VStr "helm"); ("minpower", VInt 800)] "minpower" _)) eq_refl).
  apply list_elem_of_In. simpl. right. left. reflexivity.
Defined.

(** X7.  [_parse_item_type]: an [itemType] given as one bare string is the
    one-element list of it, for item rules and for unique rules. *)
Theorem itemType_bare_string (env : Env) (s : string) (d : pydict) :
  ItemFilterModel.validate env (VDict (("itemType", VStr s) :: d))
  = ItemFilterModel.validate env (VDict (("itemType", VList [VStr s]) :: d))
  /\ UniqueModel.validate env (VDict (("itemType", VStr s) :: d))
     = UniqueModel.validate env (VDict (("itemType", VList [VStr s]) :: d)).
Proof. split; reflexivity. Qed.

(** X9.  [save_as_profile] writes the [Affixes] key and no other: with
    [full_dump] exactly that key, without it that key when the profile has it
    set and nothing otherwise. *)
Theorem save_as_profile_only_affixes (full_dump : bool) (m : ProfileModel.t) :
  exists d, save_as_profile full_dump m = VDict d
    /\ keys d = (if full_dump || bool_decide ("Affixes" ∈ ProfileModel.model_fields_set m)
                 then ["Affixes"] else []).
Proof.
  unfold save_as_profile, to_yaml_str, ProfileModel.model_dump.
  cbn [sort_keys]. eexists. split; [reflexivity|].
  unfold dump_fields. rewrite !filter_cons, filter_nil.
  unfold dump_keeps. cbn [fst str_in existsb String.eqb Ascii.eqb Bool.eqb orb negb].
  rewrite !andb_false_r, !andb_true_r.
  repeat (rewrite decide_False by (intros []));
  destruct full_dump; cbn [negb orb].
  - by rewrite decide_True.
  - case_bool_decide.
    + by rewrite decide_True by done.
    + by rewrite decide_False by (by intros ?).
Qed.

(** ** extract_digits *)

Lemma digit_value_range c : isdigit c = true -> 0 <= digit_value c <= 9.
Proof.
  unfold isdigit, char_between, digit_value.
  intros [H1 H2]%andb_true_iff. apply Nat.leb_le in H1, H2. lia.
Qed.

Lemma int_of_digits_from_nonneg acc s :
  all_chars isdigit s = true -> 0 <= acc -> 0 <= int_of_digits_from acc s.
Proof.
  revert acc. induction s as [|c s IH]; intros acc Hs Hacc; [done|].
  simpl in *. apply andb_true_iff in Hs as [Hc Hs].
  apply IH; [done|]. pose proof (digit_value_range c Hc). lia.
Qed.

Lemma int_of_digits_from_shift acc s :
  int_of_digits_from acc s
  = acc * 10 ^ Z.of_nat (String.length s) + int_of_digits_from 0 s.
Proof.
  revert acc. induction s as [|c s IH]; intros acc.
  - simpl. lia.
  - cbn [int_of_digits_from String.length].
    rewrite (IH (10 * acc + digit_value c)), (IH (10 * 0 + digit_value c)).
    rewrite Nat2Z.inj_succ, Z.pow_succ_r by lia. lia.
Qed.

Lemma int_of_digits_from_app acc s t :
  int_of_digits_from acc (s +:+ t) = int_of_digits_from (int_of_digits_from acc s) t.
Proof.
  revert acc. induction s as [|c s IH]; intros acc; [done|].
  rewrite string_app_cons. simpl. by rewrite IH.
Qed.

Lemma int_of_digits_Returns s n :
  int_of_digits s = Returns n
  <-> s <> "" /\ (String.length s <= int_max_str_digits)%nat /\ n = int_of_digits_from 0 s.
Proof.
  unfold int_of_digits. destruct s as [|c s]; [by split; [|intros [? _]]|].
  destruct (Nat.ltb_spec int_max_str_digits (String.length (String c s))).
  - split; [done|]. intros (_ & ? & _). lia.
  - split.
    + intros [= <-]. split; [done|]. split; [lia|done].
    + by intros (_ & _ & ->).
Qed.

(** X10.  [extract_digits] fails with a ValueError when the text has no
    digit (or more digits than [int] takes); otherwise it returns a number
    that is not negative: a sign in the text is dropped with the other
    characters. *)
Theorem extract_digits_result (text : string) :
  ascii_text text = true ->
  let digits := filter_chars isdigit text in
  match extract_digits text with
  | Returns n => digits <> "" /\ (String.length digits <= 4300)%nat /\ 0 <= n
  | Raises e => (digits = "" \/ (4300 < String.length digits)%nat)
                /\ exists msg, e = PyValueError msg
  end.
Proof.
  intros _ digits. unfold extract_digits. fold digits.
  destruct (int_of_digits digits) as [n|e] eqn:E.
  - apply int_of_digits_Returns in E as (Hne & Hlen & ->).
    split; [done|]. split; [done|].
    apply int_of_digits_from_nonneg; [apply all_chars_filter|lia].
  - unfold int_of_digits in E. destruct digits as [|c s] eqn:Ed.
    + injection E as <-. split; [by left|by eexists].
    + destruct (Nat.ltb_spec int_max_str_digits (String.length (String c s)));
        [|done].
      injection E as <-. split; [by right|by eexists].
Qed.

Lemma extract_digits_result_witness :
  match extract_digits "-12 %" with
  | Returns n => 0 <= n
  | Raises _ => False
  end.
Proof.
  pose proof (extract_digits_result "-12 %" eq_refl) as H.
  destruct (extract_digits "-12 %"); [|destruct H as [[H|H] _]].
  - apply H.
  - discriminate H.
  - vm_compute in H. lia.
Defined.

(** X11.  Characters that are no digits do not count, wherever they are. *)
Theorem extract_digits_skips_other_chars (text1 text2 : string) (c : ascii) :
  is_ascii c = true -> isdigit c = false ->
  extract_digits (text1 +:+ String c text2) = extract_digits (text1 +:+ text2).
Proof.
  intros _ Hc. unfold extract_digits.
  rewrite !filter_chars_app. simpl. by rewrite Hc.
Qed.

Lemma extract_digits_skips_other_chars_witness :
  extract_digits ("1" +:+ String "," "500") = extract_digits ("1" +:+ "500").
Proof.
  apply extract_digits_skips_other_chars; reflexivity.
Defined.

(** X12.  The digits of a text are read in order: the number of [a ++ b] is
    the number of [a] shifted by the digits of [b], plus the number of [b]. *)
Theorem extract_digits_app (a b : string) (x y : Z) :
  ascii_text a = true -> ascii_text b = true ->
  extract_digits a = Returns x ->
  extract_digits b = Returns y ->
  (String.length (filter_chars isdigit a)
   + String.length (filter_chars isdigit b) <= 4300)%nat ->
  extract_digits (a +:+ b)
  = Returns (x * 10 ^ Z.of_nat (String.length (filter_chars isdigit b)) + y).
Proof.
  intros _ _ Ha Hb Hlen. unfold extract_digits in *.
  apply int_of_digits_Returns in Ha as (Hane & _ & ->).
  apply int_of_digits_Returns in Hb as (Hbne & _ & ->).
  apply int_of_digits_Returns. rewrite filter_chars_app.
  split.
  { destruct (filter_chars isdigit a); [done|]. by rewrite string_app_cons. }
  split.
  { rewrite string_length_app. unfold int_max_str_digits. lia. }
  rewrite int_of_digits_from_app. symmetry. apply int_of_digits_from_shift.
Qed.

Lemma extract_digits_app_witness :
  extract_digits ("12 k" +:+ "x34") = Returns (12 * 10 ^ 2 + 34).
Proof.
  apply (extract_digits_app "12 k" "x34" 12 34); try reflexivity.
  vm_compute. lia.
Defined.

(** X13.  [fix_weapon_type] has no answer exactly when the lowered text has
    none of the keywords (a mace, sword or axe needs its 1h or 2h).  Of two
    keywords one of which is part of the other the longer one is tried first:
    a text with "crossbow" is never a Bow, one with "2h scythe" never a
    Scythe. *)
Theorem fix_weapon_type_keywords (input_str : string) :
  ascii_text input_str = true ->
  (fix_weapon_type input_str = None
   <-> Forall (fun k => substring_in k (lower input_str) = false) weapon_keywords)
  /\ (substring_in "crossbow" (lower input_str) = true ->
      fix_weapon_type input_str <> Some "Bow")
  /\ (substring_in "2h scythe" (lower input_str) = true ->
      fix_weapon_type input_str <> Some "Scythe").
Proof.
  intros _. unfold fix_weapon_type, weapon_keywords. cbv zeta.
  pose proof (substring_in_false_trans "scythe" "2h scythe" (lower input_str) eq_refl) as Hs.
  pose proof (substring_in_false_trans "bow" "crossbow" (lower input_str) eq_refl) as Hb.
  rewrite !Forall_cons, Forall_nil.
  destruct (substring_in "1h mace" _), (substring_in "2h mace" _),
    (substring_in "1h sword" _), (substring_in "2h sword" _),
    (substring_in "1h axe" _), (substring_in "2h axe" _);
    try (split; [split; [done|by intros (?&?&?&?&?&?&?)]|by split]).
  destruct (substring_in "scythe" _).
  { destruct (substring_in "2h scythe" _);
      (split; [split; [done|by intros (?&?&?&?&?&?&?&?)]|by split]). }
  rewrite (Hs eq_refl).
  destruct (substring_in "bow" _).
  2:{ rewrite (Hb eq_refl).
      destruct (substring_in "wand" _), (substring_in "staff" _),
        (substring_in "dagger" _);
        (split; [split; [done|by intros (?&?&?&?&?&?&?&?&?&?&?)]|by split]). }
  destruct (substring_in "crossbow" _), (substring_in "wand" _),
    (substring_in "staff" _), (substring_in "dagger" _);
    (split; [split; [done|by intros (?&?&?&?&?&?&?&?&?&?&?&?)]|by split]).
Qed.

Lemma fix_weapon_type_keywords_witness :
  fix_weapon_type "Ancestral Crossbow" <> Some "Bow".
Proof.
  apply (fix_weapon_type_keywords "Ancestral Crossbow" eq_refl). reflexivity.
Defined.

(** ** match_to_enum *)

Ltac each_char c :=
  destruct c as [[] [] [] [] [] [] [] []]; try reflexivity; try discriminate.

Lemma lower_char_idem c : lower_char (lower_char c) = lower_char c.
Proof. each_char c. Qed.

Lemma lower_char_space c : Ascii.eqb (lower_char c) " " = Ascii.eqb c " ".
Proof. each_char c. Qed.

Lemma lower_char_hyphen c : Ascii.eqb (lower_char c) "-" = Ascii.eqb c "-".
Proof. each_char c. Qed.

Lemma lower_idem s : lower (lower s) = lower s.
Proof.
  unfold lower. induction s as [|c s IH]; [done|]. simpl.
  by rewrite lower_char_idem, IH.
Qed.

Lemma filter_chars_map p f s :
  (forall c, p (f c) = p c) ->
  filter_chars p (map_chars f s) = map_chars f (filter_chars p s).
Proof.
  intros H. induction s as [|c s IH]; [done|]. simpl. rewrite H.
  destruct (p c); simpl; by rewrite IH.
Qed.

Lemma filter_chars_idem p s : filter_chars p (filter_chars p s) = filter_chars p s.
Proof. apply filter_chars_all, all_chars_filter. Qed.

Lemma filter_chars_comm p q s :
  filter_chars p (filter_chars q s) = filter_chars q (filter_chars p s).
Proof.
  induction s as [|c s IH]; [done|]. simpl.
  destruct (p c) eqn:Hp, (q c) eqn:Hq; simpl; rewrite ?Hp, ?Hq, ?IH; done.
Qed.

Lemma squash_lower s : squash (lower s) = squash s.
Proof. unfold squash, casefold. by rewrite lower_idem. Qed.

Lemma lower_squash s : lower (squash s) = squash s.
Proof.
  unfold squash, casefold, replace_with_empty, lower.
  rewrite <- !filter_chars_map.
  - fold (lower s). fold (lower (lower s)). by rewrite lower_idem.
  - intros c. by rewrite lower_char_space.
  - intros c. by rewrite lower_char_hyphen.
Qed.

Lemma squash_idem s : squash (squash s) = squash s.
Proof.
  unfold squash at 1. unfold casefold. rewrite lower_squash.
  unfold squash, replace_with_empty.
  set (p := fun x => negb (Ascii.eqb x "-")). set (q := fun x => negb (Ascii.eqb x " ")).
  rewrite (filter_chars_comm q p (filter_chars q _)).
  by rewrite !filter_chars_idem.
Qed.

Lemma squash_app s t : squash (s +:+ t) = squash s +:+ squash t.
Proof.
  unfold squash, casefold, lower, replace_with_empty.
  by rewrite map_chars_app, !filter_chars_app.
Qed.

Lemma match_to_enum_loop_Some members target check_keys m :
  match_to_enum_loop members target check_keys = Some m ->
  exists before after,
    members = before ++ m :: after
    /\ (squash (member_value m) = target
        \/ (check_keys = true /\ squash (member_name m) = target))
    /\ Forall (fun m' => squash (member_value m') <> target
                         /\ (check_keys = true -> squash (member_name m') <> target))
         before.
Proof.
  induction members as [|m0 rest IH]; [done|]. cbn [match_to_enum_loop].
  destruct (String.eqb_spec (squash (member_value m0)) target) as [Hv|Hv].
  { intros [= <-]. exists [], rest. split; [done|]. split; [by left|constructor]. }
  destruct check_keys; cbn [andb].
  - destruct (String.eqb_spec (squash (member_name m0)) target) as [Hn|Hn].
    { intros [= <-]. exists [], rest. split; [done|]. split; [by right|constructor]. }
    intros H. destruct (IH H) as (before & after & -> & Hm & Hb).
    exists (m0 :: before), after. split; [done|]. split; [done|].
    constructor; [|done]. split; [done|]. by intros _.
  - intros H. destruct (IH H) as (before & after & -> & Hm & Hb).
    exists (m0 :: before), after. split; [done|]. split; [done|].
    constructor; [|done]. split; [done|]. by intros ?.
Qed.

Lemma match_to_enum_loop_None members target check_keys :
  match_to_enum_loop members target check_keys = None
  <-> Forall (fun m' => squash (member_value m') <> target
                        /\ (check_keys = true -> squash (member_name m') <> target))
        members.
Proof.
  induction members as [|m0 rest IH]; [by split; [constructor|]|].
  cbn [match_to_enum_loop]. rewrite Forall_cons.
  destruct (String.eqb_spec (squash (member_value m0)) target) as [Hv|Hv].
  { split; [done|]. by intros [[? _] _]. }
  destruct check_keys; cbn [andb].
  - destruct (String.eqb_spec (squash (member_name m0)) target) as [Hn|Hn].
    { split; [done|]. intros [[_ H] _]. by destruct H. }
    rewrite IH. split; [|by intros [_ ?]]. intros ?. split; [|done]. by split.
  - rewrite IH. split; [|by intros [_ ?]]. intros ?. split; [|done]. by split.
Qed.

(** X14.  What [match_to_enum] returns is the first member, in iteration
    order, whose value (or, with [check_keys], whose name) equals the target
    up to case, blanks and hyphens; it returns None exactly when no member
    does. *)
Theorem match_to_enum_first_match (enum_class : list enum_member)
    (target_string : string) (check_keys : bool) :
  ascii_enum enum_class = true ->
  ascii_text target_string = true ->
  match match_to_enum enum_class target_string check_keys with
  | Some m =>
      exists before after,
        enum_class = before ++ m :: after
        /\ member_matches check_keys target_string m
        /\ Forall (fun m' => ~ member_matches check_keys target_string m') before
  | None =>
      Forall (fun m' => ~ member_matches check_keys target_string m') enum_class
  end.
Proof.
  intros _ _. unfold match_to_enum. cbv zeta.
  destruct (match_to_enum_loop _ _ _) as [m|] eqn:E.
  - apply match_to_enum_loop_Some in E as (before & after & -> & Hm & Hb).
    exists before, after. split; [done|]. split; [done|].
    eapply Forall_impl; [done|]. intros m' [H1 H2] [H|[Hc H]]; [done|]. by apply H2.
  - apply match_to_enum_loop_None in E.
    eapply Forall_impl; [done|]. intros m' [H1 H2] [H|[Hc H]]; [done|]. by apply H2.
Qed.

Lemma match_to_enum_first_match_witness :
  match_to_enum some_enum "Two-Handed  Mace" false = Some (Member "Mace2H" "two-handed mace")
  /\ member_matches false "Two-Handed  Mace" (Member "Mace2H" "two-handed mace").
Proof.
  split; [reflexivity|].
  pose proof (match_to_enum_first_match some_enum "Two-Handed  Mace" false eq_refl eq_refl) as H.
  change (match_to_enum some_enum "Two-Handed  Mace" false)
    with (Some (Member "Mace2H" "two-handed mace")) in H.
  destruct H as (_ & _ & _ & H & _). exact H.
Defined.

(** X15.  A member is always found under its own value, however the value
    is cased, spaced or hyphenated: the answer is a member with the same
    value up to case, blanks and hyphens (or, with [check_keys], with such a
    name), and it is the member itself when [check_keys] is off and no other
    member has such a value. *)
Theorem match_to_enum_own_value (enum_class : list enum_member) (m : enum_member)
    (check_keys : bool) :
  ascii_enum enum_class = true ->
  m ∈ enum_class ->
  (exists m', match_to_enum enum_class (member_value m) check_keys = Some m'
              /\ member_matches check_keys (member_value m) m')
  /\ match_to_enum enum_class (squash (member_value m)) check_keys
     = match_to_enum enum_class (member_value m) check_keys
  /\ (NoDup (map (fun m' => squash (member_value m')) enum_class) ->
      match_to_enum enum_class (member_value m) false = Some m).
Proof.
  intros _ Hin. split; [|split].
  - unfold match_to_enum. cbv zeta.
    destruct (match_to_enum_loop _ _ _) as [m'|] eqn:E.
    + exists m'. split; [done|].
      by apply match_to_enum_loop_Some in E as (_ & _ & _ & Hm & _).
    + apply match_to_enum_loop_None in E.
      rewrite Forall_forall in E. by destruct (E m Hin) as [? _].
  - unfold match_to_enum. cbv zeta. by rewrite squash_idem.
  - intros Hnd. unfold match_to_enum. cbv zeta.
    induction enum_class as [|m0 rest IH]; [by inversion Hin|].
    cbn [match_to_enum_loop andb].
    apply NoDup_cons in Hnd as [Hm0 Hnd]. cbn [map] in Hm0.
    apply elem_of_cons in Hin as [->|Hin].
    { by rewrite String.eqb_refl. }
    destruct (String.eqb_spec (squash (member_value m0)) (squash (member_value m)))
      as [Heq|Hne].
    + destruct Hm0. rewrite Heq. apply list_elem_of_fmap. by exists m.
    + by apply IH.
Qed.

Lemma match_to_enum_own_value_witness :
  match_to_enum some_enum "chest armor" false = Some (Member "ChestArmor" "chest armor").
Proof.
  refine (proj2 (proj2 (match_to_enum_own_value some_enum
            (Member "ChestArmor" "chest armor") false eq_refl _)) _).
  - apply list_elem_of_In. simpl. right. left. reflexivity.
  - apply NoDup_ListNoDup. vm_compute.
    repeat (constructor; [simpl; intuition discriminate|]). constructor.
Defined.

Lemma all_chars_impl (p q : ascii -> bool) s :
  (forall c, p c = true -> q c = true) -> all_chars p s = true -> all_chars q s = true.
Proof.
  intros H. induction s as [|c s IH]; [done|]. simpl.
  intros [Hc Hs]%andb_true_iff. by rewrite (H _ Hc), IH.
Qed.

Lemma map_chars_id f s :
  all_chars (fun c => Ascii.eqb (f c) c) s = true -> map_chars f s = s.
Proof.
  induction s as [|c s IH]; [done|]. simpl. intros [Hc Hs]%andb_true_iff.
  apply Ascii.eqb_eq in Hc. by rewrite Hc, IH.
Qed.

Lemma all_chars_map p f s : (forall c, p (f c) = true) -> all_chars p (map_chars f s) = true.
Proof. intros H. induction s as [|c s IH]; [done|]. simpl. by rewrite H, IH. Qed.

Lemma word_or_underscore_word c : is_word_char (word_or_underscore c) = true.
Proof. unfold word_or_underscore. by destruct (is_word_char c) eqn:E. Qed.

Lemma squeeze_underscores_cons c s :
  exists r, squeeze_underscores (String c s) = String c r.
Proof.
  revert c. induction s as [|c' s IH]; intros c.
  - simpl. destruct (Ascii.eqb c "_"); by eexists.
  - cbn [squeeze_underscores]. destruct (Ascii.eqb c "_") eqn:Ec; [|by eexists].
    destruct (Ascii.eqb c' "_") eqn:Ec'; [|by eexists].
    apply Ascii.eqb_eq in Ec, Ec'. subst. exact (IH "_"%char).
Qed.

Lemma all_chars_squeeze p s :
  all_chars p s = true -> all_chars p (squeeze_underscores s) = true.
Proof.
  induction s as [|c s IH]; [done|]. intros H.
  pose proof H as [Hc Hs]%andb_true_iff.
  cbn [squeeze_underscores]. destruct (Ascii.eqb c "_").
  - destruct s as [|c' s']; [done|]. destruct (Ascii.eqb c' "_"); [by apply IH|].
    cbn [all_chars]. by rewrite Hc, IH.
  - cbn [all_chars]. by rewrite Hc, IH.
Qed.

Lemma no_double_underscore_cons c s :
  no_double_underscore (String c s)
  = match s with
    | EmptyString => true
    | String c' _ => negb (Ascii.eqb c "_" && Ascii.eqb c' "_") && no_double_underscore s
    end.
Proof. reflexivity. Qed.

Lemma no_double_squeeze s : no_double_underscore (squeeze_underscores s) = true.
Proof.
  induction s as [|c s IH]; [done|].
  cbn [squeeze_underscores]. destruct (Ascii.eqb c "_") eqn:Ec.
  - destruct s as [|c' s']; [done|]. destruct (Ascii.eqb c' "_") eqn:Ec'; [done|].
    destruct (squeeze_underscores_cons c' s') as (r & Hr).
    rewrite no_double_underscore_cons, Hr in *. by rewrite Ec', andb_false_r, IH.
  - destruct s as [|c' s']; [done|].
    destruct (squeeze_underscores_cons c' s') as (r & Hr).
    rewrite no_double_underscore_cons, Hr in *. by rewrite Ec, IH.
Qed.

Lemma squeeze_no_double s : no_double_underscore s = true -> squeeze_underscores s = s.
Proof.
  induction s as [|c s IH]; [done|]. rewrite no_double_underscore_cons.
  cbn [squeeze_underscores]. destruct s as [|c' s']; [by destruct (Ascii.eqb c "_")|].
  intros [Hcc Hs]%andb_true_iff. rewrite (IH Hs).
  destruct (Ascii.eqb c "_"); [|done]. by destruct (Ascii.eqb c' "_").
Qed.

Lemma no_double_substring s :
  no_double_underscore s = true <-> substring_in "__" s = false.
Proof.
  induction s as [|c s IH]; [done|].
  rewrite no_double_underscore_cons. cbn [substring_in String.prefix].
  destruct s as [|c' s'].
  { destruct (Ascii.ascii_dec "_" c); by vm_compute. }
  rewrite andb_true_iff, orb_false_iff, IH.
  destruct (Ascii.ascii_dec "_" c) as [<-|Hc].
  - rewrite Ascii.eqb_refl. destruct (Ascii.ascii_dec "_" c') as [<-|Hc'].
    + rewrite Ascii.eqb_refl. cbn [negb andb].
      split; intros [H ?]; [done|]. by destruct s'.
    + assert (String.prefix "_" (String c' s') = false) as ->
        by (cbn [String.prefix]; destruct (Ascii.ascii_dec "_" c'); [congruence|reflexivity]).
      apply not_eq_sym, Ascii.eqb_neq in Hc'. rewrite Hc'. cbn [negb andb].
      by split; intros [_ ?].
  - apply not_eq_sym, Ascii.eqb_neq in Hc. rewrite Hc. cbn [negb andb].
    by split; intros [_ ?].
Qed.

Lemma rstrip_char_cons c x s :
  rstrip_char c (String x s)
  = match rstrip_char c s with
    | EmptyString => if Ascii.eqb x c then EmptyString else String x EmptyString
    | r => String x r
    end.
Proof. reflexivity. Qed.

Lemma last_char_cons x s :
  last_char (String x s) = match s with EmptyString => Some x | _ => last_char s end.
Proof. by destruct s. Qed.

Lemma last_char_rstrip c s : last_char (rstrip_char c s) <> Some c.
Proof.
  induction s as [|x s IH]; [done|]. rewrite rstrip_char_cons.
  destruct (rstrip_char c s) as [|y r] eqn:E.
  - destruct (Ascii.eqb_spec x c); [done|]. simpl. congruence.
  - by rewrite last_char_cons.
Qed.

Lemma rstrip_char_id c s : last_char s <> Some c -> rstrip_char c s = s.
Proof.
  induction s as [|x s IH]; [done|]. rewrite rstrip_char_cons, last_char_cons.
  destruct s as [|y r].
  - simpl. intros H. destruct (Ascii.eqb_spec x c); [congruence|done].
  - intros H. by rewrite (IH H).
Qed.

Lemma rstrip_char_all c s :
  all_chars (fun x => Ascii.eqb x c) s = true -> rstrip_char c s = "".
Proof.
  induction s as [|x s IH]; [done|]. simpl. intros [Hx Hs]%andb_true_iff.
  by rewrite (IH Hs), Hx.
Qed.

(** What is stripped is a prefix of the text. *)
Lemma rstrip_char_prefix c s : exists t, s = rstrip_char c s +:+ t.
Proof.
  induction s as [|x s (t & IH)]; [by exists ""|]. rewrite rstrip_char_cons.
  destruct (rstrip_char c s) as [|y r] eqn:E.
  - destruct (Ascii.eqb x c); [by exists (String x s)|].
    exists t. by rewrite string_app_cons, string_app_nil_l, IH at 1.
  - exists t. by rewrite string_app_cons, <- IH.
Qed.

Lemma substring_in_app_l n s t : substring_in n (s +:+ t) = false -> substring_in n s = false.
Proof.
  intros H. destruct (substring_in n s) eqn:E; [|done].
  apply substring_in_spec in E as (pre & post & ->).
  assert (substring_in n ((pre +:+ n +:+ post) +:+ t) = true) as Ht; [|congruence].
  apply substring_in_spec. exists pre, (post +:+ t). by rewrite !string_app_assoc.
Qed.

Lemma cleaned_name_shape file_name :
  let r := save_as_profile_file_name file_name in
  all_chars is_word_char r = true
  /\ substring_in "__" r = false
  /\ last_char r <> Some "_"%char.
Proof.
  unfold save_as_profile_file_name. cbv zeta.
  set (s := squeeze_underscores _).
  assert (all_chars is_word_char s = true) as Hw.
  { apply all_chars_squeeze, all_chars_map. intros c.
    apply (word_or_underscore_word c). }
  assert (substring_in "__" s = false) as Hd.
  { apply no_double_substring, no_double_squeeze. }
  destruct (rstrip_char_prefix "_" s) as (t & Ht).
  split.
  { rewrite Ht, all_chars_app in Hw. by apply andb_true_iff in Hw as [? _]. }
  split.
  { rewrite Ht in Hd. by apply substring_in_app_l in Hd. }
  apply last_char_rstrip.
Qed.

Lemma cleaned_name_fixed file_name :
  all_chars is_word_char file_name = true ->
  substring_in "__" file_name = false ->
  last_char file_name <> Some "_"%char ->
  save_as_profile_file_name file_name = file_name.
Proof.
  intros Hw Hd Hl. unfold save_as_profile_file_name. cbv zeta.
  unfold replace_with_empty. rewrite filter_chars_all.
  2:{ eapply all_chars_impl; [|done]. intros c. destruct c as [[] [] [] [] [] [] [] []]; try reflexivity; discriminate. }
  rewrite map_chars_id.
  2:{ eapply all_chars_impl; [|done]. intros c Hc. rewrite Hc. apply Ascii.eqb_refl. }
  rewrite squeeze_no_double by by apply no_double_substring.
  by apply rstrip_char_id.
Qed.

(** X16.  The file name that [save_as_profile] writes to is made of
    letters, digits and underscores only, has no two underscores in a row
    and does not end with one. *)
Theorem saved_file_name_clean (file_name : string) :
  ascii_text file_name = true ->
  let r := save_as_profile_file_name file_name in
  all_chars is_word_char r = true
  /\ substring_in "__" r = false
  /\ last_char r <> Some "_"%char.
Proof. intros _. apply cleaned_name_shape. Qed.

Lemma saved_file_name_clean_witness :
  save_as_profile_file_name "Rob's  Barb (S5) !" = "Robs_Barb_S5"
  /\ last_char (save_as_profile_file_name "Rob's  Barb (S5) !") <> Some "_"%char.
Proof.
  split; [reflexivity|].
  exact (proj2 (proj2 (saved_file_name_clean "Rob's  Barb (S5) !" eq_refl))).
Defined.

(** X17.  A name that is already of that form is kept as it is, so cleaning
    a name twice is cleaning it once. *)
Theorem saved_file_name_stable (file_name : string) :
  ascii_text file_name = true ->
  (all_chars is_word_char file_name = true ->
   substring_in "__" file_name = false ->
   last_char file_name <> Some "_"%char ->
   save_as_profile_file_name file_name = file_name)
  /\ save_as_profile_file_name (save_as_profile_file_name file_name)
     = save_as_profile_file_name file_name.
Proof.
  intros _. split; [apply cleaned_name_fixed|].
  destruct (cleaned_name_shape file_name) as (H1 & H2 & H3). by apply cleaned_name_fixed.
Qed.

Lemma saved_file_name_stable_witness :
  save_as_profile_file_name "Robs_Barb_S5" = "Robs_Barb_S5".
Proof.
  apply (proj1 (saved_file_name_stable "Robs_Barb_S5" eq_refl)); [reflexivity|reflexivity|].
  simpl. discriminate.
Defined.

(** X18.  A name without any letter, digit or underscore leaves the empty
    file name. *)
Theorem saved_file_name_empty (file_name : string) :
  ascii_text file_name = true ->
  all_chars (fun c => negb (is_word_char c)) file_name = true ->
  save_as_profile_file_name file_name = "".
Proof.
  intros _ H. unfold save_as_profile_file_name. cbv zeta.
  apply rstrip_char_all, all_chars_squeeze.
  unfold replace_with_empty.
  induction file_name as [|c s IH]; [done|].
  simpl in H. apply andb_true_iff in H as [Hc Hs]. simpl.
  destruct (negb (Ascii.eqb c "'")); [|by apply IH].
  simpl. rewrite (IH Hs), andb_true_r.
  by destruct (is_word_char c).
Qed.

Lemma saved_file_name_empty_witness : save_as_profile_file_name "(?!) ''" = "".
Proof. apply saved_file_name_empty; reflexivity. Defined.

Lemma get_with_retry_loop_spec attempts net url sent res n :
  get_with_retry_loop attempts net url sent = (res, n) ->
  (sent <= n <= sent + attempts)%nat
  /\ (forall i, (sent <= i)%nat -> (i + 1 < n)%nat -> refused net url i)
  /\ match res with
     | Returns r =>
         (sent < n)%nat /\ net url (n - 1)%nat = Responded r /\ status_code r = 200
     | Raises e =>
         ((sent < n)%nat /\ net url (n - 1)%nat = RequestRaised e)
         \/ (n = (sent + attempts)%nat
             /\ (forall i, (sent <= i < n)%nat -> refused net url i)
             /\ exists msg, e = PyConnectionError msg)
     end.
Proof.
  revert sent. induction attempts as [|a IH]; intros sent H.
  - injection H as <- <-. split; [lia|]. split; [intros; lia|].
    right. split; [lia|]. split; [intros; lia|]. by eexists.
  - cbn [get_with_retry_loop] in H.
    destruct (net url sent) as [r|e] eqn:E.
    + destruct (Z.eqb_spec (status_code r) 200) as [Hs|Hs].
      * injection H as <- <-. split; [lia|]. split; [intros; lia|].
        replace (S sent - 1)%nat with sent by lia. split; [lia|done].
      * apply IH in H as (Hn & Hi & Hres).
        assert (refused net url sent) as Hr by by exists r.
        split; [lia|]. split.
        { intros i Hi1 Hi2. destruct (decide (i = sent)) as [->|]; [done|].
          apply Hi; lia. }
        destruct res as [r'|e'].
        { destruct Hres as (? & ? & ?). split; [lia|done]. }
        destruct Hres as [[? ?]|(-> & Hall & Hmsg)]; [left; split; [lia|done]|].
        right. split; [lia|]. split; [|done].
        intros i Hi1. destruct (decide (i = sent)) as [->|]; [done|]. apply Hall; lia.
    + injection H as <- <-. split; [lia|]. split; [intros; lia|].
      left. replace (S sent - 1)%nat with sent by lia. split; [lia|done].
Qed.

(** X19.  [get_with_retry] sends at most five requests.  Every request
    before the last one was answered with a status other than 200.  What it
    returns is the answer to the last request and has status 200.  It raises
    either what the last request raised (a failing request is not tried
    again) or, after five answers with another status, a ConnectionError. *)
Theorem get_with_retry_five_requests (net : network) (url : string) :
  let '(res, n) := get_with_retry net url in
  (n <= 5)%nat
  /\ (forall i, (i + 1 < n)%nat -> refused net url i)
  /\ match res with
     | Returns r =>
         (1 <= n)%nat /\ net url (n - 1)%nat = Responded r /\ status_code r = 200
     | Raises e =>
         ((1 <= n)%nat /\ net url (n - 1)%nat = RequestRaised e)
         \/ (n = 5%nat
             /\ (forall i, (i < 5)%nat -> refused net url i)
             /\ exists msg, e = PyConnectionError msg)
     end.
Proof.
  destruct (get_with_retry net url) as [res n] eqn:E.
  apply get_with_retry_loop_spec in E as (Hn & Hi & Hres).
  split; [lia|]. split; [intros i ?; apply Hi; lia|].
  destruct res as [r|e].
  - destruct Hres as (? & ? & ?). split; [lia|done].
  - destruct Hres as [[? ?]|(-> & Hall & Hmsg)]; [left; split; [lia|done]|].
    right. split; [done|]. split; [|done]. intros i ?. apply Hall. lia.
Qed.

Lemma get_with_retry_five_requests_witness :
  get_with_retry flaky_network "u" = (Returns {| status_code := 200; text := "ok" |}, 3%nat)
  /\ refused flaky_network "u" 1.
Proof.
  split; [reflexivity|].
  pose proof (get_with_retry_five_requests flaky_network "u") as H.
  change (get_with_retry flaky_network "u")
    with (Returns {| status_code := 200; text := "ok" |}, 3%nat) in H.
  cbv beta iota in H. destruct H as (_ & H & _). apply H. lia.
Defined.

Lemma wrapper_loop_all_raise {R} rounds inject has_driver (run : importer_run R) i :
  (forall j, (i <= j < i + rounds)%nat -> raises_at run j) ->
  wrapper_loop rounds inject has_driver run i = (None, failed_rounds rounds).
Proof.
  revert i. induction rounds as [|n IH]; intros i H; [done|].
  cbn [wrapper_loop]. destruct (H i) as (e & ->); [lia|].
  rewrite IH by (intros j ?; apply H; lia). done.
Qed.

Lemma wrapper_loop_no_driver {R} rounds (run : importer_run R) i :
  wrapper_loop rounds true false run i = (None, failed_rounds rounds).
Proof.
  revert i. induction rounds as [|n IH]; intros i; [done|].
  cbn [wrapper_loop]. rewrite IH. by destruct (wrap_function run i).
Qed.

Lemma wrapper_loop_first_return {R} rounds inject has_driver (run : importer_run R) i k r :
  (k < rounds)%nat ->
  wrap_function run (i + k)%nat = Returns r ->
  (forall j, (i <= j < i + k)%nat -> raises_at run j) ->
  (inject = true -> has_driver = true /\ quit_raises run (i + k)%nat = None) ->
  wrapper_loop rounds inject has_driver run i
  = (Some r, failed_rounds k
             ++ (if inject then [CallWrapped; QuitDriver] else [CallWrapped])).
Proof.
  revert i k. induction rounds as [|n IH]; intros i k Hk Hr Hbefore Hq; [lia|].
  cbn [wrapper_loop]. destruct k as [|k].
  - rewrite Nat.add_0_r in *. rewrite Hr. destruct inject; [|done].
    destruct Hq as [-> ->]; done.
  - destruct (Hbefore i) as (e & ->); [lia|].
    rewrite (IH (S i) k); [done|lia| | |].
    + by replace (S i + k)%nat with (i + S k)%nat by lia.
    + intros j ?. apply Hbefore. lia.
    + by replace (S i + k)%nat with (i + S k)%nat by lia.
Qed.

(** X20.  Without [inject_webdriver] the wrapper never raises and no driver
    is set up or quit.  It returns what the first call that does not raise
    returns, if that is one of the first five, and calls nothing after it;
    when the first five calls all raise it returns None. *)
Theorem retry_importer_first_success {R} (has_args driver_given : bool)
    (run : importer_run R) :
  (forall k r,
     (k < 5)%nat ->
     wrap_function run k = Returns r ->
     (forall j, (j < k)%nat -> raises_at run j) ->
     wrapper false has_args driver_given run
     = (Returns (Some r), failed_rounds k ++ [CallWrapped]))
  /\ ((forall j, (j < 5)%nat -> raises_at run j) ->
      wrapper false has_args driver_given run = (Returns None, failed_rounds 5)).
Proof.
  unfold wrapper. cbn [andb]. split.
  - intros k r Hk Hr Hb.
    rewrite (wrapper_loop_first_return 5 false driver_given run 0 k r); try done.
    intros j ?. apply Hb. lia.
  - intros H. rewrite wrapper_loop_all_raise; [done|]. intros j ?. apply H. lia.
Qed.

Lemma retry_importer_first_success_witness :
  wrapper false true false third_time_lucky
  = (Returns (Some "build"),
     [CallWrapped; LogException; CallWrapped; LogException; CallWrapped]).
Proof.
  apply (proj1 (retry_importer_first_success true false third_time_lucky) 2%nat "build").
  - lia.
  - reflexivity.
  - intros j Hj. exists (PyValueError "no build").
    destruct j as [|[|j]]; [reflexivity|reflexivity|lia].
Defined.

(** X21.  With [inject_webdriver], positional arguments and no [driver]
    keyword there is no driver to quit: every round ends in the handler,
    also one in which the wrapped function returned.  The function is called
    five times, and the result is None whatever it returns. *)
Theorem retry_importer_args_without_driver {R} (run : importer_run R) :
  wrapper true true false run = (Returns None, failed_rounds 5).
Proof. unfold wrapper. cbn [andb negb]. by rewrite wrapper_loop_no_driver. Qed.

(** X22.  With [inject_webdriver] and no arguments a driver is set up
    first; if that raises, the wrapped function is not called.  The driver is
    quit after the call that returns; when all five calls raise the result
    is None and the driver is not quit. *)
Theorem retry_importer_driver {R} (run : importer_run R) :
  (forall e, setup_raises run = Some e ->
     wrapper true false false run = (Raises e, [SetupWebdriver]))
  /\ (forall k r,
        setup_raises run = None ->
        (k < 5)%nat ->
        wrap_function run k = Returns r ->
        quit_raises run k = None ->
        (forall j, (j < k)%nat -> raises_at run j) ->
        wrapper true false false run
        = (Returns (Some r),
           SetupWebdriver :: failed_rounds k ++ [CallWrapped; QuitDriver]))
  /\ (setup_raises run = None ->
      (forall j, (j < 5)%nat -> raises_at run j) ->
      wrapper true false false run
      = (Returns None, SetupWebdriver :: failed_rounds 5)).
Proof.
  unfold wrapper. cbn [andb negb]. split; [|split].
  - by intros e ->.
  - intros k r -> Hk Hr Hq Hb.
    rewrite (wrapper_loop_first_return 5 true true run 0 k r); try done.
    intros j ?. apply Hb. lia.
  - intros -> H. rewrite wrapper_loop_all_raise; [done|]. intros j ?. apply H. lia.
Qed.

Lemma retry_importer_driver_witness :
  wrapper true false false never_works
  = (Returns None, SetupWebdriver :: failed_rounds 5)
  /\ QuitDriver ∉ (wrapper true false false never_works).2.
Proof.
  assert (wrapper true false false never_works
          = (Returns None, SetupWebdriver :: failed_rounds 5)) as H.
  { apply (proj2 (proj2 (retry_importer_driver never_works))); [reflexivity|].
    intros j _. by exists (PyValueError "no build"). }
  split; [exact H|]. rewrite H. vm_compute.
  intros Hin. repeat (apply elem_of_cons in Hin as [Hin|Hin]; [discriminate Hin|]).
  by apply elem_of_nil in Hin.
Defined.

(** ** handle_popups *)

Lemma handle_popups_loop_spec {E} rounds (until : nat -> until_outcome E) click i
    res clicked :
  handle_popups_loop rounds until click i = (res, clicked) ->
  (length clicked <= rounds)%nat
  /\ (forall j elem, clicked !! j = Some elem -> until (i + j)%nat = Found elem)
  /\ (res = Returns tt ->
      Forall (fun elem => click elem = None) clicked
      /\ (length clicked = rounds \/ until (i + length clicked)%nat = TimedOut)).
Proof.
  revert i res clicked. induction rounds as [|n IH]; intros i res clicked H.
  - injection H as <- <-. split; [done|]. split; [done|]. intros _. split; [done|by left].
  - cbn [handle_popups_loop] in H. destruct (until i) as [elem| |e] eqn:Eu.
    + destruct (click elem) as [e|] eqn:Ec.
      * injection H as <- <-. split; [simpl; lia|]. split; [|done].
        intros [|j] x Hx; [|done]. injection Hx as <-. by rewrite Nat.add_0_r.
      * destruct (handle_popups_loop n until click (S i)) as [res' clicked'] eqn:El.
        injection H as <- <-. apply IH in El as (Hlen & Hf & Hres).
        split; [simpl; lia|]. split.
        { intros [|j] x Hx.
          - injection Hx as <-. by rewrite Nat.add_0_r.
          - replace (i + S j)%nat with (S i + j)%nat by lia. by apply Hf. }
        intros Hr. destruct (Hres Hr) as [Hall Hend]. split; [by constructor|].
        simpl. destruct Hend as [<-|Ht]; [by left|right].
        by replace (i + S (length clicked'))%nat with (S i + length clicked')%nat by lia.
    + injection H as <- <-. split; [simpl; lia|]. split; [done|].
      intros _. split; [done|]. right. by rewrite Nat.add_0_r.
    + injection H as <- <-. split; [simpl; lia|]. split; [done|]. done.
Qed.

(** X23.  [handle_popups] clicks at most three elements: the ones the
    waits found, in order.  When it returns, every click went through, and
    it stopped after the third element or at the first wait that timed
    out. *)
Theorem handle_popups_three_clicks {E} (until : nat -> until_outcome E)
    (click : E -> option exception) :
  let '(res, clicked) := handle_popups until click in
  (length clicked <= 3)%nat
  /\ (forall j elem, clicked !! j = Some elem -> until j = Found elem)
  /\ (res = Returns tt ->
      Forall (fun elem => click elem = None) clicked
      /\ (length clicked = 3%nat \/ until (length clicked) = TimedOut)).
Proof.
  destruct (handle_popups until click) as [res clicked] eqn:Hrun.
  by apply handle_popups_loop_spec in Hrun.
Qed.

Lemma handle_popups_three_clicks_witness :
  handle_popups two_popups (fun _ => None) = (Returns tt, ["accept"; "accept"])
  /\ two_popups 2 = TimedOut.
Proof.
  split; [reflexivity|].
  pose proof (handle_popups_three_clicks two_popups (fun _ => None)) as H.
  change (handle_popups two_popups (fun _ => None))
    with (Returns tt, ["accept"; "accept"]) in H.
  cbv beta iota in H. destruct H as (_ & _ & H).
  destruct (H eq_refl) as [_ [H3|Ht]]; [discriminate H3|exact Ht].
Defined.

(** ** HSVRangeModel *)

Module HSVRangeModelFacts.

Import HSVRangeModel.
Import HSVRangeModelInv.

Lemma HSVRangeModel_between_spec lo hi x :
between lo hi x = true <-> (inject_Z lo <= x <= inject_Z hi)%Q.
Proof. unfold between. by rewrite andb_true_iff, !Qle_bool_iff. Qed.

Lemma HSVRangeModel_values_in_range_Passed v v' :
values_in_range v = Passed v' <-> v' = v /\ h_s_v v.
Proof.
unfold values_in_range, h_s_v.
destruct (Nat.eqb_spec (length v) 3) as [Hl|Hl]; cbn [negb].
2:{ split; [done|]. by intros (_ & ? & _). }
destruct v as [|a [|b [|c [|? ?]]]]; try done.
unfold items_1_3, item. cbn [nth firstn skipn forallb].
rewrite andb_true_r.
destruct (between (-179) 179 a) eqn:Ha; cbn [negb].
2:{ split; [done|]. intros (_ & _ & H%HSVRangeModel_between_spec & _). congruence. }
destruct (between 0 255 b) eqn:Hb; cbn [negb andb].
2:{ split; [done|]. intros (_ & _ & _ & H%HSVRangeModel_between_spec & _). congruence. }
destruct (between 0 255 c) eqn:Hc; cbn [negb andb].
2:{ split; [done|]. intros (_ & _ & _ & _ & H%HSVRangeModel_between_spec). congruence. }
apply HSVRangeModel_between_spec in Ha, Hb, Hc. split.
- by intros [= <-].
- by intros [-> _].
Qed.

Lemma HSVRangeModel_gt_false a b : gt a b = false <-> (a <= b)%Q.
Proof. unfold gt. by rewrite negb_false_iff, Qle_bool_iff. Qed.

Lemma HSVRangeModel_check_interval_sanity_Passed m m' :
check_interval_sanity m = Passed m'
<-> m' = m
    /\ (item (h_s_v_min m) 0 <= item (h_s_v_max m) 0)%Q
    /\ (item (h_s_v_min m) 1 <= item (h_s_v_max m) 1)%Q
    /\ (item (h_s_v_min m) 2 <= item (h_s_v_max m) 2)%Q.
Proof.
unfold check_interval_sanity.
destruct (gt (item (h_s_v_min m) 0) _) eqn:H0.
{ split; [done|]. intros (_ & H%HSVRangeModel_gt_false & _). congruence. }
destruct (gt (item (h_s_v_min m) 1) _) eqn:H1.
{ split; [done|]. intros (_ & _ & H%HSVRangeModel_gt_false & _). congruence. }
destruct (gt (item (h_s_v_min m) 2) _) eqn:H2.
{ split; [done|]. intros (_ & _ & _ & H%HSVRangeModel_gt_false). congruence. }
apply HSVRangeModel_gt_false in H0, H1, H2. split.
- by intros [= <-].
- by intros [-> _].
Qed.

End HSVRangeModelFacts.

(** X24.  A colour range is accepted exactly when both arrays are a hue in
    [-179, 179] followed by a saturation and a value in [0, 255], and the
    lower array is below the upper one in each of the three places; the model
    then holds the two arrays as given. *)
Theorem hsv_range_accepted (mn mx : list Q) (m : HSVRangeModel.t) :
  HSVRangeModel.validate mn mx = HSVRangeModel.Passed m
  <-> m = HSVRangeModel.mk mn mx
      /\ HSVRangeModelInv.h_s_v mn
      /\ HSVRangeModelInv.h_s_v mx
      /\ forall i, (i < 3)%nat -> (HSVRangeModel.item mn i <= HSVRangeModel.item mx i)%Q.
Proof.
  unfold HSVRangeModel.validate. split.
  - destruct (HSVRangeModel.values_in_range mn) as [mn'|] eqn:E1;
      destruct (HSVRangeModel.values_in_range mx) as [mx'|] eqn:E2; try done.
    apply HSVRangeModelFacts.HSVRangeModel_values_in_range_Passed in E1 as [-> H1].
    apply HSVRangeModelFacts.HSVRangeModel_values_in_range_Passed in E2 as [-> H2].
    intros (-> & Ha & Hb & Hc)%HSVRangeModelFacts.HSVRangeModel_check_interval_sanity_Passed.
    do 3 (split; [done|]). intros [|[|[|i]]] Hi; [done..|lia].
  - intros (-> & H1 & H2 & Hle).
    rewrite (proj2 (HSVRangeModelFacts.HSVRangeModel_values_in_range_Passed mn mn)) by done.
    rewrite (proj2 (HSVRangeModelFacts.HSVRangeModel_values_in_range_Passed mx mx)) by done.
    apply HSVRangeModelFacts.HSVRangeModel_check_interval_sanity_Passed.
    split; [done|]. cbn. split; [apply (Hle 0%nat); lia|].
    split; [apply (Hle 1%nat); lia|apply (Hle 2%nat); lia].
Qed.

Lemma hsv_range_accepted_witness :
  HSVRangeModel.validate gold_min gold_max
  = HSVRangeModel.Passed (HSVRangeModel.mk gold_min gold_max)
  /\ (HSVRangeModel.item gold_min 0 <= HSVRangeModel.item gold_max 0)%Q.
Proof.
  split; [reflexivity|].
  destruct (proj1 (hsv_range_accepted gold_min gold_max _) eq_refl) as (_ & _ & _ & H).
  apply H. lia.
Defined.

(** ** AdvancedOptionsModel *)

Lemma size_list_to_set_le (l : list string) :
  (size (list_to_set l : gset string) <= length l)%nat.
Proof.
  induction l as [|x l IH]; [done|]. cbn [list_to_set length].
  rewrite size_union_alt, size_singleton.
  pose proof (subseteq_size (list_to_set l ∖ {[x]}) (list_to_set l : gset string)
                ltac:(set_solver)). lia.
Qed.

Lemma size_list_to_set_NoDup (l : list string) :
  size (list_to_set l : gset string) = length l <-> NoDup l.
Proof.
  split; [|apply size_list_to_set].
  induction l as [|x l IH]; [constructor|]. cbn [list_to_set length]. intros H.
  destruct (decide (x ∈ l)) as [Hin|Hin].
  - assert ({[x]} ∪ list_to_set l = (list_to_set l : gset string)) as Heq by set_solver.
    rewrite Heq in H. pose proof (size_list_to_set_le l). lia.
  - constructor; [done|]. apply IH.
    rewrite size_union, size_singleton in H by set_solver. lia.
Qed.

(** X25.  [key_must_be_unique] accepts a model exactly when its six
    hotkeys are pairwise different, and leaves it as it is; otherwise the
    error is "hotkeys must be unique". *)
Theorem hotkeys_unique (self : AdvancedOptionsModel.t) :
  (NoDup (AdvancedOptionsModel.hotkeys self) ->
   AdvancedOptionsModel.key_must_be_unique self = Ok self)
  /\ (~ NoDup (AdvancedOptionsModel.hotkeys self) ->
      AdvancedOptionsModel.key_must_be_unique self
      = Err [ValueError [Lit "hotkeys must be unique"]]).
Proof.
  unfold AdvancedOptionsModel.key_must_be_unique. cbv zeta.
  destruct (Nat.eqb_spec (size (list_to_set (AdvancedOptionsModel.hotkeys self) : gset string))
              (length (AdvancedOptionsModel.hotkeys self))) as [H|H];
    cbn [negb]; rewrite size_list_to_set_NoDup in H; by split.
Qed.

Lemma hotkeys_unique_witness :
  AdvancedOptionsModel.key_must_be_unique AdvancedOptionsModel.defaults
  = Ok AdvancedOptionsModel.defaults.
Proof.
  apply (hotkeys_unique AdvancedOptionsModel.defaults).
  apply NoDup_ListNoDup. vm_compute.
  repeat (constructor; [simpl; intuition discriminate|]). constructor.
Defined.

Lemma rstrip_cons c s :
  rstrip (String c s)
  = match rstrip s with
    | EmptyString => if isspace c then EmptyString else String c EmptyString
    | r => String c r
    end.
Proof. reflexivity. Qed.

Lemma first_char_lstrip s c : first_char (lstrip s) = Some c -> isspace c = false.
Proof.
  induction s as [|x s IH]; [done|]. simpl.
  destruct (isspace x) eqn:E; [done|]. by intros [= <-].
Qed.

Lemma first_char_rstrip s c : first_char (rstrip s) = Some c -> first_char s = Some c.
Proof.
  destruct s as [|x s]; [done|]. rewrite rstrip_cons.
  destruct (rstrip s); [|done]. by destruct (isspace x).
Qed.

Lemma last_char_rstrip_space s c : last_char (rstrip s) = Some c -> isspace c = false.
Proof.
  induction s as [|x s IH]; [done|]. rewrite rstrip_cons.
  destruct (rstrip s) as [|y r] eqn:E.
  - destruct (isspace x) eqn:Ex; [done|]. by intros [= <-].
  - by rewrite last_char_cons.
Qed.

Lemma strip_stripped s : stripped (strip s).
Proof.
  split; intros c H.
  - by apply first_char_rstrip, first_char_lstrip in H.
  - by apply last_char_rstrip_space in H.
Qed.

Lemma rstrip_id s : (forall c, last_char s = Some c -> isspace c = false) -> rstrip s = s.
Proof.
  induction s as [|x s IH]; [done|]. rewrite rstrip_cons, last_char_cons.
  destruct s as [|y r].
  - simpl. intros H. by rewrite (H x).
  - intros H. by rewrite (IH H).
Qed.

Lemma strip_id s : stripped s -> strip s = s.
Proof.
  intros [Hf Hl]. unfold strip.
  assert (lstrip s = s) as ->; [|by apply rstrip_id].
  destruct s as [|x s]; [done|]. simpl. by rewrite (Hf x).
Qed.

Lemma split_cons sep s : exists piece pieces, split sep s = piece :: pieces.
Proof.
  induction s as [|c s (p & ps & IH)]; [by eexists _, _|]. simpl.
  destruct (Ascii.eqb c sep); [by eexists _, _|]. rewrite IH. by eexists _, _.
Qed.

Lemma split_length sep s : length (split sep s) = S (count_char sep s).
Proof.
  induction s as [|c s IH]; [done|]. simpl.
  destruct (Ascii.eqb c sep); [simpl; by rewrite IH|].
  destruct (split_cons sep s) as (p & ps & E). rewrite E in *. simpl in *. lia.
Qed.

Lemma split_app_sep sep a b :
  all_chars (fun x => negb (Ascii.eqb x sep)) a = true ->
  split sep (a +:+ String sep b) = a :: split sep b.
Proof.
  induction a as [|c a IH]; intros H.
  - rewrite string_app_nil_l. simpl. by rewrite Ascii.eqb_refl.
  - simpl in H. apply andb_true_iff in H as [Hc Ha]. apply negb_true_iff in Hc.
    rewrite string_app_cons. simpl. by rewrite Hc, IH.
Qed.

Lemma split_no_sep sep a :
  all_chars (fun x => negb (Ascii.eqb x sep)) a = true -> split sep a = [a].
Proof.
  induction a as [|c a IH]; intros H; [done|].
  simpl in H. apply andb_true_iff in H as [Hc Ha]. apply negb_true_iff in Hc.
  simpl. by rewrite Hc, IH.
Qed.

Lemma comprehension_Forall2 {A B} (f : A -> outcome B) l bs :
  comprehension f l = Returns bs <-> Forall2 (fun a b => f a = Returns b) l bs.
Proof.
  revert bs. induction l as [|a l IH]; intros bs; simpl.
  - split; [by intros [= <-]; constructor|by inversion 1].
  - destruct (f a) as [b|e] eqn:E.
    + destruct (comprehension f l) as [bs'|e'] eqn:El.
      * split.
        -- intros [= <-]. constructor; [done|]. by apply IH.
        -- inversion 1 as [|? b' ? bs'' Hb Hbs]; subst.
           apply IH in Hbs. congruence.
      * split; [done|]. inversion 1 as [|? b' ? bs'' Hb Hbs]; subst.
        by apply IH in Hbs.
    + split; [done|]. inversion 1; congruence.
Qed.

Lemma comprehension_length {A B} (f : A -> outcome B) l bs :
  comprehension f l = Returns bs -> length bs = length l.
Proof. intros H%comprehension_Forall2. symmetry. by eapply Forall2_length. Qed.

(** X26.  On ASCII text the profile names that [check_profiles_is_list]
    returns have no blank at either end.  From a string it makes one name
    more than the string has commas, so the empty string gives one empty
    name. *)
Theorem profiles_are_stripped (v : pyobj) (names : list string) :
  ascii_items v = true ->
  GeneralModel.check_profiles_is_list v = Returns names ->
  Forall stripped names
  /\ forall s, v = VStr s -> length names = S (count_char "," s).
Proof.
  intros _. unfold GeneralModel.check_profiles_is_list.
  destruct (GeneralModel.as_list v) as [l|] eqn:El; [|done]. intros H. split.
  - apply comprehension_Forall2 in H. clear El.
    induction H as [|x n l names Hx _ IH]; constructor; [|done].
    destruct x; try done. injection Hx as <-. apply strip_stripped.
  - intros s ->. injection El as <-.
    apply comprehension_length in H. by rewrite H, length_map, split_length.
Qed.

Lemma profiles_are_stripped_witness :
  GeneralModel.check_profiles_is_list (VStr "") = Returns [""]
  /\ GeneralModel.check_profiles_is_list (VStr " barb , sorc")
     = Returns ["barb"; "sorc"]
  /\ Forall stripped ["barb"; "sorc"].
Proof.
  split; [reflexivity|]. split; [reflexivity|].
  exact (proj1 (profiles_are_stripped (VStr " barb , sorc") _ eq_refl eq_refl)).
Defined.

Lemma strip_blank s : strip (String " " s) = strip s.
Proof. reflexivity. Qed.

Lemma profiles_of_join_blank names :
  names <> [] ->
  Forall (fun n => all_chars (fun x => negb (Ascii.eqb x ",")) n = true /\ stripped n)
    names ->
  comprehension strip_item (map VStr (split "," (join ", " names))) = Returns names
  /\ comprehension strip_item (map VStr (split "," (String " " (join ", " names))))
     = Returns names.
Proof.
  induction names as [|n names IH]; [done|]. intros _ Hall.
  apply Forall_cons in Hall as [[Hn Hs] Hall].
  destruct names as [|n' names].
  - cbn [join]. split.
    + rewrite split_no_sep by done. simpl. by rewrite strip_id.
    + cbn [split]. change (Ascii.eqb " " ",") with false. cbv iota.
      rewrite split_no_sep by done. simpl.
      change (rstrip (lstrip (String " " n))) with (strip (String " " n)).
      by rewrite strip_blank, strip_id.
  - destruct IH as [_ IH]; [done|done|].
    change (join ", " (n :: n' :: names))
      with (n +:+ ", " +:+ join ", " (n' :: names)).
    change (", " +:+ join ", " (n' :: names))
      with (String "," (String " " (join ", " (n' :: names)))).
    split.
    + rewrite split_app_sep by done. cbn [map comprehension strip_item].
      by rewrite strip_id, IH.
    + change (String " " (n +:+ ?x)) with (String " " n +:+ x).
      rewrite split_app_sep by (simpl; by rewrite Hn).
      cbn [map comprehension strip_item].
      by rewrite strip_blank, strip_id, IH.
Qed.

(** X27.  Names written one after the other with ", " between them come
    back as they are, when there is at least one and none has a comma or a
    blank at either end. *)
Theorem profiles_of_joined_names (names : list string) :
  names <> [] ->
  Forall (fun n => ascii_text n = true) names ->
  Forall (fun n => all_chars (fun x => negb (Ascii.eqb x ",")) n = true /\ stripped n)
    names ->
  GeneralModel.check_profiles_is_list (VStr (join ", " names)) = Returns names.
Proof.
  intros Hne _ Hall. unfold GeneralModel.check_profiles_is_list.
  cbn [GeneralModel.as_list]. by apply profiles_of_join_blank.
Qed.

Lemma profiles_of_joined_names_witness :
  GeneralModel.check_profiles_is_list (VStr "barb, my sorc") = Returns ["barb"; "my sorc"].
Proof.
  apply (profiles_of_joined_names ["barb"; "my sorc"]); [done| |].
  - repeat constructor.
  - repeat constructor; simpl; intros c [= <-]; reflexivity.
Defined.

Lemma join_cons sep s l :
  l <> [] -> join sep (s :: l) = s +:+ sep +:+ join sep l.
Proof. by destruct l. Qed.

Lemma join_split sep s : join (String sep "") (split sep s) = s.
Proof.
  induction s as [|c s IH]; [done|]. cbn [split].
  destruct (split_cons sep s) as (p & ps & E). rewrite E in *.
  destruct (Ascii.eqb_spec c sep) as [->|Hc].
  - by rewrite join_cons, IH.
  - destruct ps as [|p' ps].
    + cbn [join] in *. by rewrite IH.
    + rewrite join_cons in * by done. by rewrite string_app_cons, IH.
Qed.

Lemma split_pieces sep s :
  Forall (fun p => all_chars (fun x => negb (Ascii.eqb x sep)) p = true) (split sep s).
Proof.
  induction s as [|c s IH]; [by repeat constructor|]. cbn [split].
  destruct (split_cons sep s) as (p & ps & E). rewrite E in *.
  apply Forall_cons in IH as [Hp Hps].
  destruct (Ascii.eqb c sep) eqn:Hc.
  - by repeat constructor.
  - constructor; [|done]. simpl. by rewrite Hc, Hp.
Qed.

(** X28.  From a string [check_scripts_is_list] makes the pieces between
    the commas and loses nothing: there is at least one piece, none has a
    comma, and joined with commas they are the string. *)
Theorem scripts_pieces (s : string) (v : list pyobj) :
  ascii_text s = true ->
  AdvancedOptionsModel.check_scripts_is_list (VStr s) = Returns v ->
  exists pieces,
    v = map VStr pieces
    /\ pieces <> []
    /\ Forall (fun p => substring_in "," p = false) pieces
    /\ join "," pieces = s.
Proof.
  intros _ [= <-]. exists (split "," s). split; [done|].
  split. { by destruct (split_cons "," s) as (p & ps & ->). }
  split; [|apply join_split].
  eapply Forall_impl; [apply split_pieces|]. intros p Hp. simpl in Hp.
  destruct (substring_in "," p) eqn:E; [|done].
  apply substring_in_spec in E as (pre & post & ->).
  rewrite all_chars_app in Hp. apply andb_true_iff in Hp as [_ Hp].
  by rewrite string_app_cons in Hp.
Qed.

Lemma scripts_pieces_witness :
  AdvancedOptionsModel.check_scripts_is_list (VStr "vision_mode,,heal")
  = Returns [VStr "vision_mode"; VStr ""; VStr "heal"]
  /\ join "," ["vision_mode"; ""; "heal"] = "vision_mode,,heal".
Proof.
  split; [reflexivity|].
  destruct (scripts_pieces "vision_mode,,heal" _ eq_refl eq_refl)
    as (pieces & Hv & _ & _ & Hj).
  destruct pieces as [|a [|b [|c [|? ?]]]]; try discriminate Hv.
  injection Hv as H1 H2 H3. subst a b c. exact Hj.
Defined.

(** ** GeneralModel: the chest tabs *)

Lemma insert_sorted_Permutation x l : GeneralModel.insert_sorted x l ≡ₚ x :: l.
Proof.
  induction l as [|y l IH]; [done|]. simpl.
  destruct (x <=? y); [done|]. rewrite IH. apply Permutation_swap.
Qed.

Lemma sorted_Permutation l : GeneralModel.sorted l ≡ₚ l.
Proof.
  induction l as [|x l IH]; [done|]. cbn [GeneralModel.sorted foldr].
  fold (GeneralModel.sorted l). by rewrite insert_sorted_Permutation, IH.
Qed.

Lemma insert_sorted_StronglySorted x l :
  StronglySorted Z.le l -> StronglySorted Z.le (GeneralModel.insert_sorted x l).
Proof.
  induction l as [|y l IH]; intros H; [repeat constructor|]. simpl.
  apply StronglySorted_inv in H as [Hl Hy].
  destruct (Z.leb_spec x y).
  - constructor; [by constructor|]. constructor; [done|].
    eapply Forall_impl; [done|]. intros z ?. simpl in *. lia.
  - constructor; [by apply IH|].
    rewrite insert_sorted_Permutation. constructor; [lia|done].
Qed.

Lemma sorted_StronglySorted l : StronglySorted Z.le (GeneralModel.sorted l).
Proof.
  induction l as [|x l IH]; [constructor|].
  by apply insert_sorted_StronglySorted.
Qed.

(** X29.  The chest tabs are given from 1 and kept from 0: what
    [check_chest_tabs_index] returns is ascending and has, in some order, the
    number of every item less one. *)
Theorem chest_tabs_sorted_from_zero (v : pyobj) (items : list pyobj) (tabs : list Z) :
  GeneralModel.as_list v = Returns items ->
  GeneralModel.check_chest_tabs_index v = Returns tabs ->
  StronglySorted Z.le tabs
  /\ exists numbers,
       Forall2 (fun x n => GeneralModel.int x = Returns n) items numbers
       /\ tabs ≡ₚ map (fun n => n - 1) numbers.
Proof.
  unfold GeneralModel.check_chest_tabs_index. intros -> H.
  destruct (comprehension _ items) as [l|] eqn:E; [|done]. injection H as <-.
  split; [apply sorted_StronglySorted|].
  apply comprehension_Forall2 in E.
  assert (exists numbers,
            Forall2 (fun x n => GeneralModel.int x = Returns n) items numbers
            /\ l = map (fun n => n - 1) numbers) as (numbers & Hn & ->).
  { clear -E. induction E as [|x n l ns Hx _ (numbers & IH & ->)]; [by exists []|].
    destruct (GeneralModel.int x) as [k|] eqn:Ek; [|done]. injection Hx as <-.
    exists (k :: numbers). split; [by constructor|done]. }
  exists numbers. split; [done|]. apply sorted_Permutation.
Qed.

Lemma chest_tabs_sorted_from_zero_witness :
  GeneralModel.check_chest_tabs_index (VStr "3, 1,2") = Returns [0; 1; 2]
  /\ StronglySorted Z.le [0; 1; 2].
Proof.
  split; [reflexivity|].
  exact (proj1 (chest_tabs_sorted_from_zero (VStr "3, 1,2") _ _ eq_refl eq_refl)).
Defined.
